(** * zoraxy response cache: key generator, stores, transform pipeline,
      middleware and worker queue.

    A shallow embedding of the Go packages [cache], [optimizer],
    [cachemiddleware] and [cacheworker], and the properties of the
    specification stated over it.  Go values are modelled as follows:
    - [string] and [[]byte] are byte sequences ([string], [list byte]);
    - [int], [int64] and [time.Duration] are [Z] (nanoseconds for
      durations), with the 64-bit wrap-around written where the code can
      reach it;
    - [map[K]V] is a [gmap];
    - an [io.Reader] is the sequence of bytes it has not delivered yet;
    - functions with an [error] result return a sum. *)

From Stdlib Require Import ZArith Lia Ascii String List Bool DecimalString.
From Stdlib Require Import Strings.Byte.
From stdpp Require Import base strings gmap list sorting.

Open Scope string_scope.
Open Scope Z_scope.

Abbreviation bytes := (list byte).

#[global] Instance byte_eq_dec : EqDecision byte := Byte.byte_eq_dec.

(** ** Go's [strings] package, on byte strings *)

Module strings.

Definition lower_ascii (c : ascii) : ascii :=
  let n := N_of_ascii c in
  if ((65 <=? n) && (n <=? 90))%N then ascii_of_N (n + 32) else c.

(** [strings.ToLower] on ASCII text (bytes from 0x80 on are kept). *)
Fixpoint ToLower (s : string) : string :=
  match s with
  | EmptyString => EmptyString
  | String c s' => String (lower_ascii c) (ToLower s')
  end.

Definition HasPrefix (s p : string) : bool := String.prefix p s.

(** [strings.Contains s substr]: [substr] occurs somewhere in [s]. *)
Fixpoint Contains (s substr : string) : bool :=
  String.prefix substr s ||
  match s with
  | EmptyString => false
  | String _ s' => Contains s' substr
  end.

Definition HasSuffix (s suf : string) : bool :=
  let n := String.length s in
  let k := String.length suf in
  (k <=? n)%nat && String.eqb (String.substring (n - k) k s) suf.

Definition TrimSuffix (s suf : string) : string :=
  if HasSuffix s suf
  then String.substring 0 (String.length s - String.length suf) s
  else s.

(** [strings.IndexByte]: position of the first [c], if any. *)
Fixpoint IndexByte (s : string) (c : ascii) : option nat :=
  match s with
  | EmptyString => None
  | String d s' =>
      if Ascii.eqb d c then Some 0%nat else S <$> IndexByte s' c
  end.

Definition is_space (c : ascii) : bool :=
  let n := N_of_ascii c in
  ((n =? 32) || ((9 <=? n) && (n <=? 13)))%N.

Fixpoint TrimLeft (s : string) : string :=
  match s with
  | String c s' => if is_space c then TrimLeft s' else s
  | EmptyString => EmptyString
  end.

Fixpoint TrimRight (s : string) : string :=
  match s with
  | EmptyString => EmptyString
  | String c s' =>
      match TrimRight s' with
      | EmptyString => if is_space c then EmptyString else String c EmptyString
      | t => String c t
      end
  end.

(** [strings.TrimSpace] for ASCII white space. *)
Definition TrimSpace (s : string) : string := TrimRight (TrimLeft s).

(** [strings.Join]. *)
Definition Join (parts : list string) (sep : string) : string :=
  String.concat sep parts.

End strings.

(** [strconv.FormatInt(x, 10)]. *)
Definition FormatInt (x : Z) : string :=
  NilZero.string_of_int (Z.to_int x).

(** ** 64-bit integers *)

Definition minInt64 : Z := - 2 ^ 63.
Definition maxInt64 : Z := 2 ^ 63 - 1.

(** Two's complement wrap-around of [int64] arithmetic. *)
Definition wrap64 (x : Z) : Z := (x + 2 ^ 63) mod 2 ^ 64 - 2 ^ 63.

(** ** crypto/sha256 and encoding/hex *)

Module sha256.

Definition w32 (x : Z) : Z := x mod 2 ^ 32.

Definition rotr (n x : Z) : Z :=
  Z.lor (Z.shiftr x n) (w32 (Z.shiftl x (32 - n))).

Definition Ch (x y z : Z) : Z :=
  Z.lxor (Z.land x y) (Z.land (Z.lxor x (2 ^ 32 - 1)) z).

Definition Maj (x y z : Z) : Z :=
  Z.lxor (Z.lxor (Z.land x y) (Z.land x z)) (Z.land y z).

Definition Sigma0 (x : Z) : Z := Z.lxor (Z.lxor (rotr 2 x) (rotr 13 x)) (rotr 22 x).
Definition Sigma1 (x : Z) : Z := Z.lxor (Z.lxor (rotr 6 x) (rotr 11 x)) (rotr 25 x).
Definition sigma0 (x : Z) : Z := Z.lxor (Z.lxor (rotr 7 x) (rotr 18 x)) (Z.shiftr x 3).
Definition sigma1 (x : Z) : Z := Z.lxor (Z.lxor (rotr 17 x) (rotr 19 x)) (Z.shiftr x 10).

(** The largest [r] below [2 ^ bits] with [pow r <= x]. *)
Fixpoint root_search (pow : Z -> Z) (x : Z) (bits : nat) (r : Z) : Z :=
  match bits with
  | O => r
  | S b =>
      let r' := r + 2 ^ Z.of_nat b in
      root_search pow x b (if pow r' <=? x then r' else r)
  end.

Definition is_prime (n : Z) : bool :=
  (1 <? n) && forallb (fun d => negb (n mod Z.of_nat d =? 0)) (seq 2 (Z.to_nat n - 2)).

Definition primes : list Z :=
  filter (fun n => is_prime n = true) (map Z.of_nat (seq 2 310)).

(** First 32 bits of the fractional part of a cube root, of a square root. *)
Definition frac_cbrt (p : Z) : Z := root_search (fun r => r * r * r) (p * 2 ^ 96) 36 0 mod 2 ^ 32.
Definition frac_sqrt (p : Z) : Z := root_search (fun r => r * r) (p * 2 ^ 64) 36 0 mod 2 ^ 32.

(** The round constants: cube roots of the first sixty-four primes. *)
Definition K : list Z := Eval vm_compute in map frac_cbrt primes.

(** The eight working variables. *)
Record state := mkState {
  sa : Z; sb : Z; sc : Z; sd : Z; se : Z; sf : Z; sg : Z; sh : Z;
}.

(** The initial hash value: square roots of the first eight primes. *)
Definition H0 : state :=
  Eval vm_compute in
    mkState (frac_sqrt 2) (frac_sqrt 3) (frac_sqrt 5) (frac_sqrt 7)
            (frac_sqrt 11) (frac_sqrt 13) (frac_sqrt 17) (frac_sqrt 19).

(** The message schedule, most recent word first. *)
Fixpoint extend (n : nat) (ws : list Z) : list Z :=
  match n with
  | O => ws
  | S n' =>
      let w i := nth i ws 0 in
      extend n' (w32 (sigma1 (w 1%nat) + w 6%nat + sigma0 (w 14%nat) + w 15%nat) :: ws)
  end.

Definition schedule (block : list Z) : list Z := rev (extend 48 (rev block)).

Definition round (s : state) (kw : Z * Z) : state :=
  let t1 := sh s + Sigma1 (se s) + Ch (se s) (sf s) (sg s) + fst kw + snd kw in
  let t2 := Sigma0 (sa s) + Maj (sa s) (sb s) (sc s) in
  mkState (w32 (t1 + t2)) (sa s) (sb s) (sc s) (w32 (sd s + t1)) (se s) (sf s) (sg s).

Definition compress (h : state) (block : list Z) : state :=
  let s := fold_left round (combine K (schedule block)) h in
  mkState (w32 (sa h + sa s)) (w32 (sb h + sb s)) (w32 (sc h + sc s)) (w32 (sd h + sd s))
          (w32 (se h + se s)) (w32 (sf h + sf s)) (w32 (sg h + sg s)) (w32 (sh h + sh s)).

(** Big-endian words of a byte sequence (a multiple of four bytes). *)
Fixpoint words (bs : list Z) : list Z :=
  match bs with
  | a :: b :: c :: d :: r => (((a * 256 + b) * 256 + c) * 256 + d) :: words r
  | _ => []
  end.

Fixpoint blocks (n : nat) (ws : list Z) : list (list Z) :=
  match n with
  | O => []
  | S n' =>
      match ws with
      | [] => []
      | _ => firstn 16 ws :: blocks n' (skipn 16 ws)
      end
  end.

Definition be_bytes (n : nat) (x : Z) : list Z :=
  map (fun i => (x / 256 ^ Z.of_nat i) mod 256) (rev (seq 0 n)).

Definition pad (msg : list Z) : list Z :=
  let len := Z.of_nat (length msg) in
  let zeros := Z.to_nat ((55 - len) mod 64) in
  (msg ++ [0x80] ++ repeat 0 zeros ++ be_bytes 8 (8 * len))%list.

Definition digest_bytes (s : state) : list Z :=
  (be_bytes 4 (sa s) ++ be_bytes 4 (sb s) ++ be_bytes 4 (sc s) ++ be_bytes 4 (sd s) ++
   be_bytes 4 (se s) ++ be_bytes 4 (sf s) ++ be_bytes 4 (sg s) ++ be_bytes 4 (sh s))%list.

Definition bytes_of_string (s : string) : list Z :=
  map (fun c => Z.of_N (N_of_ascii c)) (list_ascii_of_string s).

(** [sha256.Sum256([]byte(s))], as the 32 bytes of the digest. *)
Definition Sum256 (s : string) : list Z :=
  let ws := words (pad (bytes_of_string s)) in
  digest_bytes (fold_left compress (blocks (length ws) ws) H0).

End sha256.

Module hex.

Definition hextable : list ascii :=
  list_ascii_of_string "0123456789abcdef".

Definition digit (n : Z) : ascii := nth (Z.to_nat (n mod 16)) hextable "0"%char.

(** [hex.EncodeToString]. *)
Fixpoint EncodeToString (bs : list Z) : string :=
  match bs with
  | [] => EmptyString
  | b :: r => String (digit (b / 16)) (String (digit b) (EncodeToString r))
  end.

Definition is_lower_hex (c : ascii) : bool :=
  existsb (Ascii.eqb c) hextable.

End hex.

(** ** net/url: query strings *)

Module url.

Definition is_digit (c : ascii) : bool :=
  let n := N_of_ascii c in ((48 <=? n) && (n <=? 57))%N.
Definition is_upper (c : ascii) : bool :=
  let n := N_of_ascii c in ((65 <=? n) && (n <=? 90))%N.
Definition is_lower (c : ascii) : bool :=
  let n := N_of_ascii c in ((97 <=? n) && (n <=? 122))%N.
Definition is_alnum (c : ascii) : bool := is_digit c || is_upper c || is_lower c.

Definition ishex (c : ascii) : bool :=
  let n := N_of_ascii c in
  (is_digit c || ((97 <=? n) && (n <=? 102)) || ((65 <=? n) && (n <=? 70)))%N.

Definition unhex (c : ascii) : N :=
  let n := N_of_ascii c in
  (if is_digit c then n - 48
   else if (97 <=? n) && (n <=? 102) then n - 97 + 10
   else if (65 <=? n) && (n <=? 70) then n - 65 + 10
   else 0)%N.

(** [url.QueryUnescape]; [None] is the [EscapeError]. *)
Fixpoint QueryUnescape (s : string) : option string :=
  match s with
  | EmptyString => Some EmptyString
  | String c r =>
      if Ascii.eqb c "%" then
        match r with
        | String a (String b r') =>
            if ishex a && ishex b
            then String (ascii_of_N (16 * unhex a + unhex b)) <$> QueryUnescape r'
            else None
        | _ => None
        end
      else if Ascii.eqb c "+" then String " " <$> QueryUnescape r
      else String c <$> QueryUnescape r
  end.

Definition upperhex : list ascii := list_ascii_of_string "0123456789ABCDEF".

Definition shouldEscape (c : ascii) : bool :=
  negb (is_alnum c || Ascii.eqb c "-" || Ascii.eqb c "_" || Ascii.eqb c "." || Ascii.eqb c "~").

(** [url.QueryEscape]. *)
Fixpoint QueryEscape (s : string) : string :=
  match s with
  | EmptyString => EmptyString
  | String c r =>
      if Ascii.eqb c " " then String "+" (QueryEscape r)
      else if shouldEscape c then
        let n := N.to_nat (N_of_ascii c) in
        String "%" (String (nth (n / 16) upperhex "0"%char)
                   (String (nth (n mod 16) upperhex "0"%char) (QueryEscape r)))
      else String c (QueryEscape r)
  end.

(** The pieces of [s] between occurrences of [sep]. *)
Fixpoint split (sep : ascii) (s : string) : list string :=
  match s with
  | EmptyString => [EmptyString]
  | String c r =>
      if Ascii.eqb c sep then EmptyString :: split sep r
      else match split sep r with
           | x :: xs => String c x :: xs
           | [] => [String c EmptyString]
           end
  end.

(** [strings.Cut(s, sep)] for a one-byte separator. *)
Fixpoint cut (sep : ascii) (s : string) : string * string :=
  match s with
  | EmptyString => (EmptyString, EmptyString)
  | String c r =>
      if Ascii.eqb c sep then (EmptyString, r)
      else let '(a, b) := cut sep r in (String c a, b)
  end.

(** One [key=value] piece of the query, as [parseQuery] treats it:
    pieces with a semicolon, empty pieces and pieces with a bad escape
    are skipped. *)
Definition parse_pair (piece : string) : option (string * string) :=
  if strings.Contains piece ";" then None
  else if String.eqb piece "" then None
  else
    let '(k, v) := cut "=" piece in
    match QueryUnescape k, QueryUnescape v with
    | Some k', Some v' => Some (k', v')
    | _, _ => None
    end.

(** The key/value pairs of a raw query, in order of appearance. *)
Definition query_pairs (rawQuery : string) : list (string * string) :=
  omap parse_pair (split "&" rawQuery).

(** [url.Values], a [map[string][]string]. *)
Definition add_value (m : gmap string (list string)) (kv : string * string)
    : gmap string (list string) :=
  <[fst kv := (default [] (m !! fst kv) ++ [snd kv])%list]> m.

(** [URL.Query()]: the parsed query, parse errors dropped. *)
Definition Query (rawQuery : string) : gmap string (list string) :=
  foldl add_value ∅ (query_pairs rawQuery).

End url.

(** ** sort.Strings *)

Definition str_le (a b : string) : Prop := String.leb a b = true.

#[global] Instance str_le_dec : RelDecision str_le.
Proof. intros a b. unfold str_le. apply _. Defined.

Definition sort_Strings (l : list string) : list string := merge_sort str_le l.

(** ** net/http: headers, requests, response writers *)

Module http.

Definition upper_ascii (c : ascii) : ascii :=
  if url.is_lower c then ascii_of_N (N_of_ascii c - 32) else c.

Definition validHeaderFieldByte (c : ascii) : bool :=
  url.is_alnum c ||
  existsb (Ascii.eqb c) (list_ascii_of_string "!#$%&'*+-.^_`|~").

Fixpoint canonical (upper : bool) (s : string) : string :=
  match s with
  | EmptyString => EmptyString
  | String c r =>
      let c' := if upper then upper_ascii c else strings.lower_ascii c in
      String c' (canonical (Ascii.eqb c' "-") r)
  end.

(** [textproto.CanonicalMIMEHeaderKey]. *)
Definition CanonicalHeaderKey (s : string) : string :=
  if forallb validHeaderFieldByte (list_ascii_of_string s)
  then canonical true s else s.

(** [http.Header], a [map[string][]string]. *)
Abbreviation Header := (gmap string (list string)).

Definition Header_Get (h : Header) (key : string) : string :=
  match h !! CanonicalHeaderKey key with
  | Some (v :: _) => v
  | _ => ""
  end.

Definition Header_Set (h : Header) (key value : string) : Header :=
  <[CanonicalHeaderKey key := [value]]> h.

Definition Header_Add (h : Header) (key value : string) : Header :=
  <[CanonicalHeaderKey key := (default [] (h !! CanonicalHeaderKey key) ++ [value])%list]> h.

Definition Header_Del (h : Header) (key : string) : Header :=
  delete (CanonicalHeaderKey key) h.

Definition MethodGet : string := "GET".
Definition MethodHead : string := "HEAD".

Record Request := mkRequest {
  Method : string;
  TLS : bool;                 (* r.TLS != nil *)
  Host : string;
  URL_Path : string;
  URL_RawQuery : string;
  Header_ : Header;
  Context : nat -> bool;      (* polls of r.Context().Done() *)
}.

(** An [http.ResponseWriter] as the handler sees it: the header map
    still open to changes, the status and header set committed by the
    first [WriteHeader] (or the first [Write]), and every body byte
    handed to [Write]. *)
Record ResponseWriter := mkRW {
  rw_header : Header;
  rw_sent : option (Z * Header);
  rw_body : bytes;
}.

Definition rw_WriteHeader (code : Z) (w : ResponseWriter) : ResponseWriter :=
  match rw_sent w with
  | Some _ => w                          (* superfluous WriteHeader call *)
  | None => mkRW (rw_header w) (Some (code, rw_header w)) (rw_body w)
  end.

Definition rw_Write (data : bytes) (w : ResponseWriter) : ResponseWriter :=
  let w' := rw_WriteHeader 200 w in
  mkRW (rw_header w') (rw_sent w') (rw_body w' ++ data)%list.

Definition rw_set_header (h : Header) (w : ResponseWriter) : ResponseWriter :=
  mkRW h (rw_sent w) (rw_body w).

(** What an upstream handler does with the writer it is given. *)
Inductive HandlerOp : Type :=
| HSet (key value : string)       (* w.Header().Set *)
| HAdd (key value : string)       (* w.Header().Add *)
| HDel (key : string)             (* w.Header().Del *)
| HWriteHeader (code : Z)         (* w.WriteHeader *)
| HWrite (data : bytes).          (* w.Write *)

(** An [http.Handler]: the calls it makes, given the request. *)
Definition Handler : Type := Request -> list HandlerOp.

Definition rw_op (w : ResponseWriter) (op : HandlerOp) : ResponseWriter :=
  match op with
  | HSet k v => rw_set_header (Header_Set (rw_header w) k v) w
  | HAdd k v => rw_set_header (Header_Add (rw_header w) k v) w
  | HDel k => rw_set_header (Header_Del (rw_header w) k) w
  | HWriteHeader code => rw_WriteHeader code w
  | HWrite data => rw_Write data w
  end.

(** [handler.ServeHTTP(w, r)] on the plain writer. *)
Definition serve (handler : Handler) (r : Request) (w : ResponseWriter) : ResponseWriter :=
  foldl rw_op w (handler r).

(** All body bytes a script writes. *)
Definition written_body (ops : list HandlerOp) : bytes :=
  flat_map (fun op => match op with HWrite d => d | _ => [] end) ops.

End http.
(** ** package cache *)

Module cache.

(** *** The metadata record *)

Record Meta := mkMeta {
  ContentType : string;
  Encoding : string;
  Size : Z;
  ETag : string;
  TTL : Z;               (* time.Duration, nanoseconds *)
  CachedAt : Z;          (* time.Time, nanoseconds since the epoch *)
  StatusCode : Z;
  Headers : gmap string string;
}.

Definition set_Size (m : Meta) (n : Z) : Meta :=
  mkMeta (ContentType m) (Encoding m) n (ETag m) (TTL m) (CachedAt m)
         (StatusCode m) (Headers m).

Definition set_Encoding (m : Meta) (e : string) : Meta :=
  mkMeta (ContentType m) e (Size m) (ETag m) (TTL m) (CachedAt m)
         (StatusCode m) (Headers m).

(** [time.Since(t)] read at instant [now]; [Time.Sub] saturates. *)
Definition Since (now t : Z) : Z :=
  Z.max minInt64 (Z.min maxInt64 (now - t)).

(** [int64(d.Seconds())]: [Seconds] is [float64(d/1e9) + float64(d%1e9)/1e9]
    and the conversion truncates toward zero.  The quotient below is that
    value whenever the float sum is exact to the integer part, which
    holds for every duration under 2^24 seconds. *)
Definition SecondsInt (d : Z) : Z := Z.quot d 1000000000.

Definition IsExpired (now : Z) (m : Meta) : bool :=
  if TTL m <=? 0 then false else TTL m <? Since now (CachedAt m).

Definition Age (now : Z) (m : Meta) : Z := SecondsInt (Since now (CachedAt m)).


(** *** The key generator and the cacheability rules *)

Record KeyGenerator := mkKeyGenerator {
  IncludeQuery : bool;
  VaryHeaders : list string;
  CaseSensitive : bool;
}.

Definition NewKeyGenerator : KeyGenerator :=
  mkKeyGenerator true ["Accept-Encoding"] false.

(** [normalizeQuery]: keys sorted, the values of each key sorted. *)
Definition normalizeQuery (query : gmap string (list string)) : string :=
  if decide (size query = 0%nat) then ""
  else
    let keys := sort_Strings (map fst (map_to_list query)) in
    let parts :=
      flat_map (fun k =>
                  map (fun v => url.QueryEscape k ++ "=" ++ url.QueryEscape v)
                      (sort_Strings (default [] (query !! k))))
               keys in
    strings.Join parts "&".

Definition vary_parts (kg : KeyGenerator) (r : http.Request) : list string :=
  flat_map (fun header =>
              let value := http.Header_Get (http.Header_ r) header in
              if String.eqb value "" then [] else [header ++ ":" ++ value])
           (VaryHeaders kg).

(** The [keyParts] of [GenerateKey]. *)
Definition keyParts (kg : KeyGenerator) (r : http.Request) : list string :=
  let scheme := if http.TLS r then "https" else "http" in
  let host := if CaseSensitive kg then http.Host r else strings.ToLower (http.Host r) in
  let path := if CaseSensitive kg then http.URL_Path r
              else strings.ToLower (http.URL_Path r) in
  ([scheme; host; path]
   ++ (if IncludeQuery kg && negb (String.eqb (http.URL_RawQuery r) "")
       then [normalizeQuery (url.Query (http.URL_RawQuery r))] else [])
   ++ vary_parts kg r)%list.

Definition keyString (kg : KeyGenerator) (r : http.Request) : string :=
  strings.Join (keyParts kg r) "|".

Definition GenerateKey (kg : KeyGenerator) (r : http.Request) : string :=
  hex.EncodeToString (sha256.Sum256 (keyString kg r)).

Definition IsCacheable (r : http.Request) : bool :=
  if negb (String.eqb (http.Method r) http.MethodGet) &&
     negb (String.eqb (http.Method r) http.MethodHead) then false
  else if negb (String.eqb (http.Header_Get (http.Header_ r) "Authorization") "") then false
  else
    let cacheControl := http.Header_Get (http.Header_ r) "Cache-Control" in
    if strings.Contains cacheControl "no-cache" || strings.Contains cacheControl "no-store"
    then false
    else true.

Definition IsResponseCacheable (statusCode : Z) (headers : http.Header) : bool :=
  if negb (statusCode =? 200) && negb (statusCode =? 203) && negb (statusCode =? 204) &&
     negb (statusCode =? 301) && negb (statusCode =? 302) then false
  else if negb (String.eqb (http.Header_Get headers "Set-Cookie") "") then false
  else
    let cacheControl := http.Header_Get headers "Cache-Control" in
    if strings.Contains cacheControl "no-store" || strings.Contains cacheControl "private"
    then false
    else if String.eqb (http.Header_Get headers "Pragma") "no-cache" then false
    else true.

(** *** The filesystem store *)

(** The files of the file system: path to content. *)
Abbreviation Files := (gmap string bytes).

Record FSStore := mkFSStore {
  rootDir : string;
  shardDepth : nat;
}.

(** [filepath.Join] on clean elements: the non-empty ones, separated by
    a slash. *)
Definition filepath_Join (elems : list string) : string :=
  String.concat "/" (filter (fun e => e <> "") elems).

(** [filepath.Base]: the last element of the path. *)
Definition filepath_Base (path : string) : string :=
  match filter (fun e => e <> "") (url.split "/" path) with
  | [] => if String.eqb path "" then "." else "/"
  | x :: xs => List.last xs x
  end.

(** The loop of [getShardedPath]: [key[i*2:i*2+2]] for
    [i < shardDepth && i*2 < len(key)]; the slice expression panics
    ([None]) when only one byte is left. *)
Fixpoint shardParts (depth : nat) (key : string) : option (list string) :=
  match depth with
  | O => Some []
  | S d =>
      match key with
      | EmptyString => Some []
      | String a (String b rest) =>
          cons (String a (String b EmptyString)) <$> shardParts d rest
      | String _ EmptyString => None
      end
  end.

Definition getShardedPath (fs : FSStore) (key suffix : string) : option string :=
  if decide (shardDepth fs = 0%nat) then Some (filepath_Join [rootDir fs; key ++ suffix])
  else
    parts ← shardParts (shardDepth fs) key;
    let path := filepath_Join [rootDir fs; filepath_Join parts] in
    Some (filepath_Join [path; key ++ suffix]).

Definition getDataPath (fs : FSStore) (key : string) : option string :=
  getShardedPath fs key ".data".

Definition getMetaPath (fs : FSStore) (key : string) : option string :=
  getShardedPath fs key ".meta".

(** [Delete]: both files are removed, a missing file is not an error. *)
Definition Delete (fs : FSStore) (key : string) (files : Files) : option Files :=
  dataPath ← getDataPath fs key;
  metaPath ← getMetaPath fs key;
  Some (delete metaPath (delete dataPath files)).

(** Whether [path] lies below (or is) directory [root]. *)
Definition under (root path : string) : bool :=
  String.eqb path root || strings.HasPrefix path (root ++ "/").

(** The regular files [filepath.Walk] meets under [root], in sorted
    order.  (Directories are skipped by the walk function, and what it
    does at one file does not depend on the files visited before.) *)
Definition Walk_files (root : string) (files : Files) : list string :=
  sort_Strings (filter (fun p => under root p = true) (map fst (map_to_list files))).

(** The walk function of [PurgePrefix] at one path.  A file removed
    since the directory was listed is reported with an error, and the
    function returns at once. *)
Definition purge_visit (fs : FSStore) (prefix : string)
    (acc : option Files) (path : string) : option Files :=
  files ← acc;
  match files !! path with
  | None => Some files
  | Some _ =>
      if negb (strings.HasSuffix path ".data") then Some files
      else if strings.Contains path prefix then
        let key := filepath_Base (strings.TrimSuffix path ".data") in
        Delete fs key files
      else Some files
  end.

Definition PurgePrefix (fs : FSStore) (prefix : string) (files : Files) : option Files :=
  foldl (purge_visit fs prefix) (Some files) (Walk_files (rootDir fs) files).

End cache.

(** ** package optimizer: transforms and the pipeline *)

Module optimizer.
Import cache.

(** An [io.Reader] in its current state: the bytes it will still
    deliver, whether it then fails with an error other than [io.EOF],
    and whether the dynamic type also implements [io.ReadCloser]. *)
Record Reader := mkReader {
  rd_pending : bytes;
  rd_fault : bool;
  rd_closer : bool;
}.

Inductive result (A : Type) : Type :=
| Ok (a : A)
| Err (msg : string).
Arguments Ok {A} a.
Arguments Err {A} msg.

(** [type Transform func(ctx, in io.Reader, meta *cache.Meta)
      (io.ReadCloser, *cache.Meta, error)] *)
Definition Transform : Type := Reader -> Meta -> result (Reader * Meta).

(** A [bytes.Buffer] is its unread content. *)
Definition Buffer : Type := bytes.

(** [io.Copy(&buf, in)]: everything [in] still had is appended to the
    (fresh) buffer; the second component is the error flag. *)
Definition io_Copy (src : Reader) : Buffer * bool :=
  (rd_pending src, rd_fault src).

(** The state of a reader once it has been read to the end. *)
Definition drained (r : Reader) : Reader :=
  mkReader [] (rd_fault r) (rd_closer r).

(** [io.Copy(w, &buf)] and every other read of a [bytes.Buffer]
    consume it: the data goes to the writer and the buffer is left
    empty ([Buffer.WriteTo]). *)
Definition Buffer_WriteTo (b : Buffer) : bytes * Buffer := (b, []).

(** [io.NopCloser(r)]. *)
Definition NopCloser (r : Reader) : Reader :=
  mkReader (rd_pending r) (rd_fault r) true.

(** [io.NopCloser(&buf)]: reads what the buffer holds at that time. *)
Definition NopCloser_Buffer (b : Buffer) : Reader := mkReader b false true.

(** The recurring
    [if rc, ok := in.(io.ReadCloser); ok { return rc, ... }
     return io.NopCloser(in), ...]. *)
Definition as_ReadCloser (r : Reader) : Reader :=
  if rd_closer r then r else NopCloser r.

(** [io.ReadAll]. *)
Definition io_ReadAll (r : Reader) : result bytes :=
  if rd_fault r then Err "read error" else Ok (rd_pending r).

(** *** Minification (minify.go) *)

Record MinifyConfig := mkMinifyConfig {
  HTML : bool; CSS : bool; JS : bool; JSON : bool; SVG : bool; XML : bool;
}.

Definition DefaultMinifyConfig : MinifyConfig :=
  mkMinifyConfig true true true true true false.

(** What one call [m.Minify(mediatype, &out, &buf)] of the minify
    library does: the bytes written to [out], how many bytes it took
    from [buf], and whether it returned an error. *)
Record MinifyOutcome := mkOutcome {
  min_out : bytes;
  min_consumed : nat;
  min_err : bool;
}.

(** The library object built by [NewMinifier(config)]. *)
Definition Minifier : Type := string -> bytes -> MinifyOutcome.

Definition is_type (ct t : string) : bool :=
  String.eqb ct t || strings.HasPrefix ct (t ++ ";").

Definition shouldMinify (contentType : string) (config : MinifyConfig) : bool :=
  let ct := strings.ToLower contentType in
  if HTML config && is_type ct "text/html" then true
  else if CSS config && is_type ct "text/css" then true
  else if JS config &&
          (String.eqb ct "text/javascript" || String.eqb ct "application/javascript" ||
           String.eqb ct "application/x-javascript" ||
           strings.HasPrefix ct "text/javascript;" ||
           strings.HasPrefix ct "application/javascript;" ||
           strings.HasPrefix ct "application/x-javascript;") then true
  else if JSON config && is_type ct "application/json" then true
  else if SVG config && is_type ct "image/svg+xml" then true
  else if XML config &&
          (String.eqb ct "application/xml" || String.eqb ct "text/xml" ||
           strings.HasPrefix ct "application/xml;" ||
           strings.HasPrefix ct "text/xml;") then true
  else false.

Definition mediaType_of (contentType : string) : string :=
  match strings.IndexByte contentType ";" with
  | Some idx => strings.TrimSpace (String.substring 0 idx contentType)
  | None => contentType
  end.

Definition MinifyTransform (NewMinifier : MinifyConfig -> Minifier)
    (config : MinifyConfig) : Transform :=
  let minifier := NewMinifier config in
  fun in_ meta =>
    let contentType := ContentType meta in
    if String.eqb contentType "" then Ok (as_ReadCloser in_, meta)
    else
      let mediaType := mediaType_of contentType in
      if negb (shouldMinify mediaType config) then Ok (as_ReadCloser in_, meta)
      else
        (* Read input into buffer *)
        let '(buf, err) := io_Copy in_ in
        if err then Err "failed to read input"
        else
          let in_after := drained in_ in
          (* Minify *)
          let o := minifier mediaType buf in
          if min_err o then
            (* [buf] has lost what the minifier took from it *)
            let buf_after := drop (min_consumed o) buf in
            if rd_closer in_after then Ok (in_after, meta)
            else Ok (NopCloser_Buffer buf_after, meta)
          else
            let minified := min_out o in
            Ok (NopCloser_Buffer minified,
                set_Size meta (Z.of_nat (length minified))).

(** *** Compression (compress.go) *)

Definition CompressionGzip : string := "gzip".
Definition CompressionBrotli : string := "br".
Definition CompressionNone : string := "".

Record CompressConfig := mkCompressConfig {
  Type_ : string;
  Level : Z;
  MinSize : Z;
}.

Inductive decoded : Type :=
| Decoded (b : bytes)
| BadHeader
| BadStream.

(** The two compression libraries: what a writer at a given level has
    produced once closed, and what a reader recovers. *)
Record Codecs := mkCodecs {
  gzip_encode : Z -> bytes -> bytes;
  gzip_decode : bytes -> decoded;
  brotli_encode : Z -> bytes -> bytes;
  brotli_decode : bytes -> option bytes;
}.

(** [gzip.NewWriterLevel] rejects levels outside
    [HuffmanOnly .. BestCompression]. *)
Definition gzip_level_ok (level : Z) : bool := (-2 <=? level) && (level <=? 9).

Definition DefaultGzipConfig : CompressConfig := mkCompressConfig CompressionGzip (-1) 1024.
Definition DefaultBrotliConfig : CompressConfig := mkCompressConfig CompressionBrotli 6 1024.

(** Lines 111-124 of compress.go, after the [switch]: [buf] is what is
    left of the input buffer, [compressed] the writer's output. *)
Definition finish_compress (meta : Meta) (written : Z) (buf compressed : Buffer)
    (encoding : string) : result (Reader * Meta) :=
  if Z.of_nat (length compressed) >=? written then
    (* Compression didn't help *)
    Ok (NopCloser_Buffer buf, set_Size meta written)
  else
    Ok (NopCloser_Buffer compressed,
        set_Size (set_Encoding meta encoding) (Z.of_nat (length compressed))).

Definition CompressTransform (C : Codecs) (config : CompressConfig) : Transform :=
  fun in_ meta =>
    if negb (String.eqb (Encoding meta) "") && negb (String.eqb (Encoding meta) "identity")
    then Ok (as_ReadCloser in_, meta)
    else
      let '(buf, err) := io_Copy in_ in
      if err then Err "failed to read input"
      else
        let written := Z.of_nat (length buf) in
        if written <? MinSize config then
          Ok (NopCloser_Buffer buf, set_Size meta written)
        else if String.eqb (Type_ config) CompressionGzip then
          if gzip_level_ok (Level config) then
            let '(data, buf') := Buffer_WriteTo buf in
            finish_compress meta written buf' (gzip_encode C (Level config) data) "gzip"
          else Err "failed to create gzip writer"
        else if String.eqb (Type_ config) CompressionBrotli then
          let '(data, buf') := Buffer_WriteTo buf in
          finish_compress meta written buf' (brotli_encode C (Level config) data) "br"
        else
          Ok (NopCloser_Buffer buf, set_Size meta written).

Definition GzipTransform (C : Codecs) (level : Z) : Transform :=
  CompressTransform C (mkCompressConfig CompressionGzip level 1024).

Definition BrotliTransform (C : Codecs) (level : Z) : Transform :=
  CompressTransform C (mkCompressConfig CompressionBrotli level 1024).

Definition finish_decompress (meta : Meta) (buf : Buffer) : result (Reader * Meta) :=
  Ok (NopCloser_Buffer buf,
      set_Size (set_Encoding meta "") (Z.of_nat (length buf))).

Definition DecompressTransform (C : Codecs) : Transform :=
  fun in_ meta =>
    if String.eqb (Encoding meta) "" || String.eqb (Encoding meta) "identity"
    then Ok (as_ReadCloser in_, meta)
    else if String.eqb (Encoding meta) "gzip" then
      match gzip_decode C (rd_pending in_) with
      | BadHeader => Err "failed to create gzip reader"
      | BadStream => Err "failed to decompress"
      | Decoded b =>
          if rd_fault in_ then Err "failed to decompress"
          else finish_decompress meta b
      end
    else if String.eqb (Encoding meta) "br" then
      match brotli_decode C (rd_pending in_) with
      | None => Err "failed to decompress"
      | Some b =>
          if rd_fault in_ then Err "failed to decompress"
          else finish_decompress meta b
      end
    else Ok (as_ReadCloser in_, meta).

(** *** The pipeline (optimizer.go) *)

Definition Pipeline : Type := list Transform.

(** The loop of [Apply]; [ctx i] tells whether the [i]-th poll of
    [ctx.Done()] finds the context cancelled. *)
Fixpoint Apply_loop (ctx : nat -> bool) (i : nat) (ts : list Transform)
    (currentReader : Reader) (currentMeta : Meta) : result (Reader * Meta) :=
  match ts with
  | [] => Ok (as_ReadCloser currentReader, currentMeta)
  | transform :: ts' =>
      if ctx i then Err "context canceled"
      else
        match transform currentReader currentMeta with
        | Err e => Err e
        | Ok (nextReader, nextMeta) => Apply_loop ctx (S i) ts' nextReader nextMeta
        end
  end.

Definition Apply (p : Pipeline) (ctx : nat -> bool) (in_ : Reader) (meta : Meta)
    : result (Reader * Meta) :=
  match p with
  | [] => Ok (as_ReadCloser in_, meta)
  | _ => Apply_loop ctx 0 p in_ meta
  end.

Definition readerFromBytes (data : bytes) : Reader := mkReader data false false.

Definition ApplyToBytes (p : Pipeline) (ctx : nat -> bool) (data : bytes) (meta : Meta)
    : result (bytes * Meta) :=
  let reader := NopCloser (readerFromBytes data) in
  match Apply p ctx reader meta with
  | Err e => Err e
  | Ok (result_, resultMeta) =>
      match io_ReadAll result_ with
      | Err e => Err e
      | Ok resultBytes => Ok (resultBytes, resultMeta)
      end
  end.

End optimizer.

(** A small lossless codec with which the compressor parameters are
    instantiated in the examples: a sequence in which every byte comes
    doubled is stored as tag 1 and one byte per pair, anything else as
    tag 0 and the sequence itself. *)
Module PairCodec.

Fixpoint halve (b : bytes) : option bytes :=
  match b with
  | [] => Some []
  | x :: y :: r => if Byte.eqb x y then cons x <$> halve r else None
  | _ => None
  end.

Fixpoint double (b : bytes) : bytes :=
  match b with
  | [] => []
  | x :: r => x :: x :: double r
  end.

Definition encode (_level : Z) (b : bytes) : bytes :=
  match halve b with
  | Some h => x01 :: h
  | None => x00 :: b
  end.

Definition decode (c : bytes) : option bytes :=
  match c with
  | x00 :: r => Some r
  | x01 :: h => Some (double h)
  | _ => None
  end.

Definition codecs : optimizer.Codecs :=
  optimizer.mkCodecs encode
    (fun c => match decode c with Some b => optimizer.Decoded b | None => optimizer.BadHeader end)
    encode decode.

End PairCodec.

(** ** package cachemiddleware *)

Module cachemiddleware.
Import cache optimizer http.

Definition OptimizationDisabled : string := "disabled".
Definition OptimizationSync : string := "sync".
Definition OptimizationAsync : string := "async".

(** [OptimizationJob]; its [Store] and [Pipeline] fields are the
    middleware's own shared references. *)
Record OptimizationJob := mkJob { Key : string }.

(** [cache.CacheStore], over a backend state [S].  [store_Get] is given
    the instant at which the backend reads the clock. *)
Class CacheStore (S : Type) := {
  store_Get : S -> Z -> string -> result (option (Reader * Meta)) * S;
  store_Put : S -> string -> bytes -> Meta -> option string * S;
}.

(** [JobQueue]. *)
Class JobQueue (Q : Type) := {
  Enqueue : Q -> OptimizationJob -> option string * Q;
}.

Record Config := mkConfig {
  Enabled : bool;
  KeyGenerator_ : cache.KeyGenerator;
  CacheablePaths : list (string -> bool);   (* pattern.MatchString *)
  DefaultTTL : Z;
  MaxCacheSize : Z;
  OptimizationMode : string;
  OptimizationPipeline : option Pipeline;
  WorkerQueue : bool;                       (* WorkerQueue != nil *)
  OnCacheEvent : bool;                      (* OnCacheEvent != nil *)
}.

(** The defaults filled in by [NewMiddleware]. *)
Definition NewMiddleware (config : Config) : Config :=
  mkConfig (Enabled config) (KeyGenerator_ config) (CacheablePaths config)
    (if DefaultTTL config <=? 0 then 3600 * 1000000000 else DefaultTTL config)
    (if MaxCacheSize config <=? 0 then 10 * 1024 * 1024 else MaxCacheSize config)
    (OptimizationMode config) (OptimizationPipeline config)
    (WorkerQueue config) (OnCacheEvent config).

Record Stats := mkStats {
  Hits : Z; Misses : Z; Puts : Z; Errors : Z; Bypasses : Z;
}.

Definition incrementHits (s : Stats) : Stats :=
  mkStats (wrap64 (Hits s + 1)) (Misses s) (Puts s) (Errors s) (Bypasses s).
Definition incrementMisses (s : Stats) : Stats :=
  mkStats (Hits s) (wrap64 (Misses s + 1)) (Puts s) (Errors s) (Bypasses s).
Definition incrementPuts (s : Stats) : Stats :=
  mkStats (Hits s) (Misses s) (wrap64 (Puts s + 1)) (Errors s) (Bypasses s).
Definition incrementErrors (s : Stats) : Stats :=
  mkStats (Hits s) (Misses s) (Puts s) (wrap64 (Errors s + 1)) (Bypasses s).
Definition incrementBypasses (s : Stats) : Stats :=
  mkStats (Hits s) (Misses s) (Puts s) (Errors s) (wrap64 (Bypasses s + 1)).

(** The calls the middleware makes on its store, oldest first. *)
Inductive StoreCall : Type :=
| CallGet (key : string)
| CallPut (key : string) (body : bytes) (meta : Meta).

Definition is_Put (c : StoreCall) : bool :=
  match c with CallPut _ _ _ => true | CallGet _ => false end.

(** One invocation of [OnCacheEvent]. *)
Record Event := mkEvent { ev_host : string; ev_type : string; ev_size : Z }.

(** The instants at which one request reads the clock: inside
    [Store.Get], in [meta.Age()], in [time.Since] for the remaining
    TTL, and in [time.Now()] when the metadata is built. *)
Record Clock := mkClock { at_Get : Z; at_Age : Z; at_TTL : Z; at_Now : Z }.

(** [responseRecorder]; [rr_w] is the embedded [ResponseWriter]. *)
Record responseRecorder := mkRecorder {
  rr_w : ResponseWriter;
  statusCode : Z;
  headers : Header;
  body : bytes;
}.

(** [rr.WriteHeader]: the status is stored and every entry of the
    writer's header map is assigned into [rr.headers]. *)
Definition rr_WriteHeader (code : Z) (rr : responseRecorder) : responseRecorder :=
  mkRecorder (rr_w rr) code (rw_header (rr_w rr) ∪ headers rr) (body rr).

(** [rr.Write]: buffer, then write to the actual response. *)
Definition rr_Write (data : bytes) (rr : responseRecorder) : responseRecorder :=
  mkRecorder (rw_Write data (rr_w rr)) (statusCode rr) (headers rr) (body rr ++ data)%list.

(** A handler call on the recorder; [Header()] is promoted from the
    embedded writer. *)
Definition rr_op (rr : responseRecorder) (op : HandlerOp) : responseRecorder :=
  match op with
  | HWriteHeader code => rr_WriteHeader code rr
  | HWrite data => rr_Write data rr
  | _ => mkRecorder (rw_op (rr_w rr) op) (statusCode rr) (headers rr) (body rr)
  end.

Definition newRecorder (w : ResponseWriter) : responseRecorder :=
  mkRecorder w 200 ∅ [].

(** [io.Copy(w, reader)]: the bytes go to [w.Write]; the count is
    returned and the error dropped. *)
Definition copy_to_writer (reader : Reader) (w : ResponseWriter) : Z * ResponseWriter :=
  match rd_pending reader with
  | [] => (0, w)
  | data => (Z.of_nat (length data), rw_Write data w)
  end.

Section Middleware.
Context {S Q : Type} `{!CacheStore S} `{!JobQueue Q}.

(** Everything a request can change. *)
Record World := mkWorld {
  stats : Stats;
  store : S;
  queue : Q;
  calls : list StoreCall;
  events : list Event;
  w : ResponseWriter;
}.

Definition with_stats (f : Stats -> Stats) (x : World) : World :=
  mkWorld (f (stats x)) (store x) (queue x) (calls x) (events x) (w x).
Definition with_w (f : ResponseWriter -> ResponseWriter) (x : World) : World :=
  mkWorld (stats x) (store x) (queue x) (calls x) (events x) (f (w x)).
Definition with_store (s : S) (c : StoreCall) (x : World) : World :=
  mkWorld (stats x) s (queue x) (calls x ++ [c])%list (events x) (w x).
Definition with_queue (q : Q) (x : World) : World :=
  mkWorld (stats x) (store x) q (calls x) (events x) (w x).

(** [if m.config.OnCacheEvent != nil { m.config.OnCacheEvent(...) }] *)
Definition notify (config : Config) (host type : string) (size : Z) (x : World) : World :=
  if OnCacheEvent config
  then mkWorld (stats x) (store x) (queue x) (calls x)
               (events x ++ [mkEvent host type size])%list (w x)
  else x.

Definition isCacheable (config : Config) (r : Request) : bool :=
  if negb (cache.IsCacheable r) then false
  else
    match CacheablePaths config with
    | [] => true
    | patterns => existsb (fun pattern => pattern (URL_Path r)) patterns
    end.

Definition serveCachedResponse (config : Config) (clock : Clock) (r : Request)
    (reader : Reader) (meta : Meta) (x : World) : World :=
  let h := rw_header (w x) in
  let h := Header_Set h "X-Cache" "HIT" in
  let h := Header_Set h "Age" (FormatInt (cache.Age (at_Age clock) meta)) in
  let h := if negb (String.eqb (ContentType meta) "")
           then Header_Set h "Content-Type" (ContentType meta) else h in
  let h := if negb (String.eqb (Encoding meta) "")
           then Header_Set h "Content-Encoding" (Encoding meta) else h in
  let h := if negb (String.eqb (ETag meta) "")
           then Header_Set h "ETag" (ETag meta) else h in
  let remainingTTL := wrap64 (TTL meta - cache.Since (at_TTL clock) (CachedAt meta)) in
  let h := if 0 <? remainingTTL
           then Header_Set h "Cache-Control"
                  ("public, max-age=" ++ FormatInt (cache.SecondsInt remainingTTL))
           else h in
  let h := foldl (fun h kv => Header_Set h (fst kv) (snd kv)) h
                 (map_to_list (Headers meta)) in
  let w1 := rw_WriteHeader (StatusCode meta) (rw_set_header h (w x)) in
  let '(bytesSent, w2) := copy_to_writer reader w1 in
  let x := with_w (fun _ => w2) x in
  if 0 <? bytesSent then notify config (Host r) "traffic" bytesSent x else x.

Definition writeRecordedResponse (config : Config) (recorder : responseRecorder)
    (r : Request) (x : World) : World :=
  let h := foldl (fun h kvs =>
                    foldl (fun h v => Header_Add h (fst kvs) v) h (snd kvs))
                 (rw_header (w x)) (map_to_list (headers recorder)) in
  let w1 := rw_WriteHeader (statusCode recorder) (rw_set_header h (w x)) in
  let bodyBytes := body recorder in
  let x := with_w (fun _ => rw_Write bodyBytes w1) x in
  if (0 <? Z.of_nat (length bodyBytes))
  then notify config (Host r) "traffic" (Z.of_nat (length bodyBytes)) x
  else x.

(** The metadata built by [fetchAndCache]. *)
Definition build_meta (config : Config) (clock : Clock) (recorder : responseRecorder)
    : Meta :=
  let preserved :=
    foldl (fun hs header =>
             let value := Header_Get (headers recorder) header in
             if negb (String.eqb value "") then <[header := value]> hs else hs)
          (∅ : gmap string string) ["Last-Modified"; "Vary"] in
  mkMeta (Header_Get (headers recorder) "Content-Type") "" 0
         (Header_Get (headers recorder) "ETag")
         (DefaultTTL config) (at_Now clock) (statusCode recorder) preserved.

Definition fetchAndCache (config : Config) (handler : Handler) (clock : Clock)
    (r : Request) (key : string) (x : World) : World :=
  (* Call upstream handler on the recorder *)
  let recorder := foldl rr_op (newRecorder (w x)) (handler r) in
  let x := with_w (fun _ => rr_w recorder) x in
  if negb (cache.IsResponseCacheable (statusCode recorder) (headers recorder)) then
    writeRecordedResponse config recorder r x
  else if MaxCacheSize config <? Z.of_nat (length (body recorder)) then
    writeRecordedResponse config recorder r x
  else
    let meta := build_meta config clock recorder in
    let bodyBytes := body recorder in
    (* Apply optimization if enabled *)
    let '(bodyBytes, meta, x) :=
      if String.eqb (OptimizationMode config) OptimizationSync then
        match OptimizationPipeline config with
        | Some pipeline =>
            match ApplyToBytes pipeline (Context r) bodyBytes meta with
            | Ok (optimized, optimizedMeta) => (optimized, optimizedMeta, x)
            | Err _ => (bodyBytes, meta, x)
            end
        | None => (bodyBytes, meta, x)
        end
      else if String.eqb (OptimizationMode config) OptimizationAsync then
        match WorkerQueue config, OptimizationPipeline config with
        | true, Some _ =>
            (bodyBytes, meta, with_queue (snd (Enqueue (queue x) (mkJob key))) x)
        | _, _ => (bodyBytes, meta, x)
        end
      else (bodyBytes, meta, x) in
    (* Store in cache *)
    let '(err, s') := store_Put (store x) key bodyBytes meta in
    let x := with_store s' (CallPut key bodyBytes meta) x in
    let x := match err with
             | None =>
                 notify config (Host r) "put" (Z.of_nat (length bodyBytes))
                        (with_stats incrementPuts x)
             | Some _ => x
             end in
    (* Write response to client *)
    let x := with_w (fun w => rw_set_header (Header_Set (rw_header w) "X-Cache" "MISS") w) x in
    writeRecordedResponse config recorder r x.

Definition ServeHTTP (config : Config) (handler : Handler) (clock : Clock)
    (r : Request) (x : World) : World :=
  if negb (Enabled config) then with_w (serve handler r) x
  else if negb (isCacheable config r) then
    with_w (serve handler r) (with_stats incrementBypasses x)
  else
    let key := cache.GenerateKey (KeyGenerator_ config) r in
    let '(got, s') := store_Get (store x) (at_Get clock) key in
    let x := with_store s' (CallGet key) x in
    match got with
    | Err _ => with_w (serve handler r) (with_stats incrementErrors x)
    | Ok (Some (reader, meta)) =>
        let x := notify config (Host r) "hit" 0 (with_stats incrementHits x) in
        serveCachedResponse config clock r reader meta x
    | Ok None =>
        let x := notify config (Host r) "miss" 0 (with_stats incrementMisses x) in
        fetchAndCache config handler clock r key x
    end.

End Middleware.

Arguments World : clear implicits.

(** The store of varnishstore.go: [Get] finds nothing, [Put] does
    nothing. *)
#[export] Instance VarnishStore : CacheStore unit := {
  store_Get _ _ _ := (Ok None, tt);
  store_Put _ _ _ _ := (None, tt);
}.

(** An in-memory store as used in tests: entries by key, expired ones
    reported as absent. *)
#[export] Instance MemStore : CacheStore (gmap string (bytes * Meta)) := {
  store_Get m now key :=
    match m !! key with
    | Some (b, meta) =>
        if cache.IsExpired now meta then (Ok None, delete key m)
        else (Ok (Some (NopCloser_Buffer b, meta)), m)
    | None => (Ok None, m)
    end;
  store_Put m key b meta :=
    (None, <[key := (b, set_Size meta (Z.of_nat (length b)))]> m);
}.

(** A queue that keeps every job. *)
#[export] Instance ListQueue : JobQueue (list OptimizationJob) := {
  Enqueue q job := (None, (q ++ [job])%list);
}.

End cachemiddleware.

(** ** package cacheworker *)

Module cacheworker.
Import cachemiddleware.

(** A buffered channel of jobs. *)
Record Chan := mkChan {
  ch_buf : list OptimizationJob;
  ch_cap : nat;
  ch_closed : bool;
}.

Record Worker := mkWorker {
  queue : Chan;
  workerCount : Z;
  logged : list string;       (* lines handed to the logger *)
}.

Inductive outcome (A : Type) : Type :=
| Returned (a : A)
| Panicked (msg : string).
Arguments Returned {A} a.
Arguments Panicked {A} msg.

(** [Enqueue]: a [select] with one send case and a [default].  A send
    on a channel closed by [Stop] panics; otherwise the send is taken
    when the buffer has room and the default when it has none.  The
    first component of the result is the returned [error]. *)
Definition Enqueue (w : Worker) (job : OptimizationJob)
    : outcome (option string * Worker) :=
  if ch_closed (queue w) then Panicked "send on closed channel"
  else if (length (ch_buf (queue w)) <? ch_cap (queue w))%nat then
    Returned (None,
              mkWorker (mkChan (ch_buf (queue w) ++ [job])%list (ch_cap (queue w)) false)
                       (workerCount w) (logged w))
  else
    Returned (None,
              mkWorker (queue w) (workerCount w)
                (logged w ++ [("Optimization queue is full, dropping job for key: " ++ Key job)%string])%list).

(** [NewWorker]'s queue: capacity [QueueSize], 1000 when not positive. *)
Definition NewWorker (queueSize workerCount : Z) : Worker :=
  mkWorker (mkChan [] (Z.to_nat (if queueSize <=? 0 then 1000 else queueSize)) false)
           (if workerCount <=? 0 then 4 else workerCount) [].

(** [Stop] cancels the context and closes the queue. *)
Definition Stop (w : Worker) : Worker :=
  mkWorker (mkChan (ch_buf (queue w)) (ch_cap (queue w)) true) (workerCount w)
           (logged w ++ ["Stopping cache optimization workers"])%list.

End cacheworker.

(** * Vocabulary of the properties, and example inputs *)

Module optimizer_spec.
Import cache optimizer.

(** A minifier that rejects every document without reading it. *)
Definition failing_minifier : MinifyConfig -> Minifier :=
  fun _ _ _ => mkOutcome [] 0 true.

(** A script that does not parse: the nine bytes of [function(]. *)
Definition js_meta : Meta :=
  mkMeta "application/javascript" EmptyString 9 EmptyString 0 0 200 ∅.

Definition bad_js : bytes := [x66; x75; x6e; x63; x74; x69; x6f; x6e; x28].

(** The encoding the transform would announce: none when the type is
    unknown or the gzip level is refused. *)
Definition compress_kind (config : CompressConfig) : option string :=
  if String.eqb (Type_ config) CompressionGzip then
    if gzip_level_ok (Level config) then Some "gzip" else None
  else if String.eqb (Type_ config) CompressionBrotli then Some "br"
  else None.

(** What the configured compressor makes of [b]. *)
Definition compressed_by (C : Codecs) (config : CompressConfig) (b : bytes) : bytes :=
  if String.eqb (Type_ config) CompressionGzip
  then gzip_encode C (Level config) b
  else brotli_encode C (Level config) b.

(** Not encoded yet. *)
Definition plain (meta : Meta) : Prop :=
  Encoding meta = "" \/ Encoding meta = "identity".

Definition plain_meta : Meta := mkMeta "text/plain" "" 0 "" 0 0 200 ∅.

Definition gzip_always : CompressConfig := mkCompressConfig CompressionGzip 6 0.

(** What a codec must do for the round trip: decoding inverts
    encoding. *)
Definition lossless (C : Codecs) : Prop :=
  (forall level b, gzip_decode C (gzip_encode C level b) = Decoded b) /\
  (forall level b, brotli_decode C (brotli_encode C level b) = Some b).

(** Compress, then decompress what came out. *)
Definition round_trip (C : Codecs) (config : CompressConfig) (in_ : Reader) (meta : Meta)
    : result (Reader * Meta) :=
  match CompressTransform C config in_ meta with
  | Ok (out, meta') => DecompressTransform C out meta'
  | Err e => Err e
  end.

End optimizer_spec.

Module worker_spec.
Import cachemiddleware cacheworker.


(** The line logged when a job is dropped. *)
Definition drop_line (job : OptimizationJob) : string :=
  "Optimization queue is full, dropping job for key: " ++ Key job.

End worker_spec.

Module middleware_spec.
Import cache optimizer http cachemiddleware.

(** The status of the last [WriteHeader] of a script, [d] when it has
    none. *)
Definition last_code (ops : list HandlerOp) (d : Z) : Z :=
  foldl (fun c op => match op with HWriteHeader code => code | _ => c end) d ops.

(** A writer nothing has been written to. *)
Definition fresh_writer : ResponseWriter := mkRW ∅ None [].

Definition get_request (path rawQuery : string) : Request :=
  mkRequest "GET" false "example.com" path rawQuery ∅ (fun _ => false).

Definition post_request : Request :=
  mkRequest "POST" false "example.com" "/path" EmptyString ∅ (fun _ => false).

Definition config_with (enabled : bool) : Config :=
  NewMiddleware
    (mkConfig enabled NewKeyGenerator [] 0 0 OptimizationDisabled None false true).

Definition clock_at (now : Z) : Clock := mkClock now now now now.

(** An upstream that answers with a small HTML page. *)
Definition hello_handler : Handler :=
  fun _ => [HSet "Content-Type" "text/html"; HWriteHeader 200;
            HWrite [x3c; x70; x3e]; HWrite [x48; x69]].

(** An upstream that announces 200 and then 500. *)
Definition two_codes : list HandlerOp := [HWriteHeader 200; HWriteHeader 500].

Definition empty_world : World unit (list OptimizationJob) :=
  mkWorld (mkStats 0 0 0 0 0) tt [] [] [] fresh_writer.

(** The captured headers added again to [h], value by value: the
    first loop of [writeRecordedResponse]. *)
Definition readd_headers (h captured : Header) : Header :=
  foldl (fun h kvs => foldl (fun h v => Header_Add h (fst kvs) v) h (snd kvs))
        h (map_to_list captured).

(** One second, as a [time.Duration]. *)
Definition second : Z := 1000000000.

(** [s] between double quotes. *)
Definition quoted (s : string) : string :=
  String (ascii_of_N 34) (s ++ String (ascii_of_N 34) EmptyString).

(** The stored entry of the hit scenario, cached 123 seconds before
    [now]. *)
Definition hit_meta (now : Z) : Meta :=
  mkMeta "text/html" "br" 5 (quoted "abc") (3600 * second) (now - 123 * second) 200 ∅.



(** The preserved headers of [meta] leave header [name] alone. *)
Definition untouched (meta : Meta) (name : string) : Prop :=
  forall k v, Headers meta !! k = Some v ->
              CanonicalHeaderKey k <> CanonicalHeaderKey name.

(** The status and headers a writer has committed. *)
Definition sent_status (w : ResponseWriter) : option Z := fst <$> rw_sent w.
Definition sent_header (w : ResponseWriter) (name : string) : option (list string) :=
  match rw_sent w with
  | Some (_, h) => h !! CanonicalHeaderKey name
  | None => None
  end.

End middleware_spec.

Module cache_spec.
Import cache http.

(** The shape of a key: 64 characters, each a lower-case hexadecimal
    digit. *)
Definition lower_hex_key (key : string) : Prop :=
  String.length key = 64%nat /\
  forallb hex.is_lower_hex (list_ascii_of_string key) = true.

(** Two requests agree on what the specification lists: scheme, host,
    path, the multiset of query pairs and the value of every
    configured Vary header. *)
Definition agree (kg : KeyGenerator) (r1 r2 : Request) : Prop :=
  TLS r1 = TLS r2 /\
  Host r1 = Host r2 /\
  URL_Path r1 = URL_Path r2 /\
  url.query_pairs (URL_RawQuery r1) ≡ₚ url.query_pairs (URL_RawQuery r2) /\
  Forall (fun header => Header_Get (Header_ r1) header = Header_Get (Header_ r2) header)
         (VaryHeaders kg).

(** Both raw queries are empty, or neither is. *)
Definition same_query_presence (r1 r2 : Request) : Prop :=
  URL_RawQuery r1 = EmptyString <-> URL_RawQuery r2 = EmptyString.

(** [r] with its raw query replaced. *)
Definition with_query (r : Request) (rawQuery : string) : Request :=
  mkRequest (Method r) (TLS r) (Host r) (URL_Path r) rawQuery (Header_ r) (Context r).

(** The values given to key [k], in order of appearance. *)
Definition values_of (k : string) (ps : list (string * string)) : list string :=
  (filter (fun kv => fst kv = k) ps).*2.

(** A store under [/var/cache/zoraxy] with two levels of sharding, and
    the files of two entries in it. *)
Definition zoraxy_store : FSStore := mkFSStore "/var/cache/zoraxy" 2.

Definition key_a : string :=
  "fdf171b9a30bf367a318e9eda1b8e7895a2ddc215455097c0408b7ab3239716c".
Definition key_b : string :=
  "018e8152666fc7de427a557453544de63dd103e1433908357006dd3ead534928".

Definition two_entries : Files :=
  {[ "/var/cache/zoraxy/fd/f1/fdf171b9a30bf367a318e9eda1b8e7895a2ddc215455097c0408b7ab3239716c.data" := [x41];
     "/var/cache/zoraxy/fd/f1/fdf171b9a30bf367a318e9eda1b8e7895a2ddc215455097c0408b7ab3239716c.meta" := [x7b; x7d];
     "/var/cache/zoraxy/01/8e/018e8152666fc7de427a557453544de63dd103e1433908357006dd3ead534928.data" := [x42];
     "/var/cache/zoraxy/01/8e/018e8152666fc7de427a557453544de63dd103e1433908357006dd3ead534928.meta" := [x7b; x7d] ]}.

Definition entry_a_only : Files :=
  {[ "/var/cache/zoraxy/fd/f1/fdf171b9a30bf367a318e9eda1b8e7895a2ddc215455097c0408b7ab3239716c.data" := [x41];
     "/var/cache/zoraxy/fd/f1/fdf171b9a30bf367a318e9eda1b8e7895a2ddc215455097c0408b7ab3239716c.meta" := [x7b; x7d] ]}.

Definition entry_b_only : Files :=
  {[ "/var/cache/zoraxy/01/8e/018e8152666fc7de427a557453544de63dd103e1433908357006dd3ead534928.data" := [x42];
     "/var/cache/zoraxy/01/8e/018e8152666fc7de427a557453544de63dd103e1433908357006dd3ead534928.meta" := [x7b; x7d] ]}.

End cache_spec.

(** * The rest of the stores, the readers and the worker's jobs *)

(** ** Readers call by call: [io.Copy], and the two [bytesReader]s *)

Module goio.

(** The error values the code tells apart: [io.EOF], the worker's own
    [*eofError], and any other error with its text. *)
Inductive error : Type :=
| EOF
| eofError
| other (msg : string).

(** [err.Error()]. *)
Definition Error (e : error) : string :=
  match e with
  | EOF => "EOF"
  | eofError => "EOF"
  | other msg => msg
  end.

(** [err == io.EOF]. *)
Definition is_EOF (e : error) : bool :=
  match e with EOF => true | _ => false end.

(** [type bytesReader struct { data []byte; pos int }], declared with
    the same fields in optimizer.go and in the worker. *)
Record bytesReader := mkBytesReader {
  data : bytes;
  pos : nat;
}.

(** The body the two [Read] methods share; [n] is [len(p)], [eof] the
    error returned at the end of the data.  The result is [p[:n]],
    the error and the reader afterwards. *)
Definition bytesReader_Read (eof : error) (n : nat) (br : bytesReader)
    : bytes * option error * bytesReader :=
  if (length (data br) <=? pos br)%nat then ([], Some eof, br)
  else
    let chunk := take n (drop (pos br) (data br)) in
    (chunk, None, mkBytesReader (data br) (pos br + length chunk)).

(** A [Read] method over reader states [R]. *)
Definition ReadFn (R : Type) : Type := nat -> R -> bytes * option error * R.

(** The loop of [io.Copy] when neither side offers [WriteTo] or
    [ReadFrom], into a writer that accepts every write: 32 KiB reads,
    each handed to the writer, until a read returns an error; [io.EOF]
    ends the copy without an error.  [None]: the fuel ran out. *)
Fixpoint Copy {R : Type} (Read : ReadFn R) (fuel : nat) (src : R) (written : bytes)
    : option (bytes * option error) :=
  match fuel with
  | O => None
  | S fuel =>
      let '(chunk, er, src) := Read (32 * 1024)%nat src in
      let written := (written ++ chunk)%list in
      match er with
      | Some e => Some (written, if is_EOF e then None else Some e)
      | None => Copy Read fuel src written
      end
  end.

End goio.

(** ** optimizer.go: the reader behind [ApplyToBytes]; compress.go:
       [IsCompressible] *)

Module optimizer_io.
Import goio.

(** [(br *bytesReader) Read] of optimizer.go: ends with [io.EOF]. *)
Definition Read : ReadFn bytesReader := bytesReader_Read EOF.

Definition readerFromBytes (data : bytes) : bytesReader := mkBytesReader data 0.

Definition compressible : list string :=
  ["text/"; "application/json"; "application/javascript"; "application/xml";
   "application/x-javascript"; "application/xhtml+xml"; "image/svg+xml"].

Definition IsCompressible (contentType : string) : bool :=
  existsb (fun prefix =>
             (String.length prefix <=? String.length contentType)%nat &&
             String.eqb (String.substring 0 (String.length prefix) contentType) prefix)
          compressible.

End optimizer_io.

(** ** package cache: the filesystem store's [Get] and [Put] *)

Module fsstore.
Import cache optimizer.

(** [encoding/json] on [Meta]: [json.MarshalIndent], which refuses a
    [CachedAt] outside the years 0 to 9999, and [json.Unmarshal]. *)
Record JSON := mkJSON {
  Marshal : Meta -> option bytes;
  Unmarshal : bytes -> option Meta;
}.

(** [NewFSStore]; the flag tells whether [os.MkdirAll] fails. *)
Definition NewFSStore (rootDir : string) (shardDepth : Z) (MkdirAll_fails : bool)
    : result FSStore :=
  let shardDepth := if (shardDepth <? 0) || (4 <? shardDepth) then 2 else shardDepth in
  if MkdirAll_fails then Err "failed to create cache directory"
  else Ok (mkFSStore rootDir (Z.to_nat shardDepth)).

(** How [os.WriteFile] can go wrong: the file cannot be opened, or the
    write stops after [n] bytes. *)
Inductive WriteFault : Type :=
| WriteOk
| OpenFails
| WriteFails (n : nat).

(** What the operating system does to the calls of one [Put]. *)
Record Faults := mkFaults {
  MkdirAll_fails : bool;
  Create_fails : bool;
  Copy_fails : bool;            (* a write to the temporary file fails *)
  WriteFile_fault : WriteFault;
  Rename_meta_fails : bool;
  Rename_data_fails : bool;
}.

Definition no_faults : Faults := mkFaults false false false WriteOk false false.

(** [os.Rename]: [None] when it fails. *)
Definition os_Rename (fails : bool) (oldpath newpath : string) (files : Files)
    : option Files :=
  if fails then None
  else
    match files !! oldpath with
    | Some content => Some (<[newpath := content]> (delete oldpath files))
    | None => None
    end.

Definition readMeta (J : JSON) (path : string) (files : Files) : result Meta :=
  match files !! path with
  | None => Err "no such file or directory"
  | Some data =>
      match Unmarshal J data with
      | Some meta => Ok meta
      | None => Err "invalid metadata"
      end
  end.

Definition writeMeta (J : JSON) (F : Faults) (path : string) (meta : Meta) (files : Files)
    : option string * Files :=
  match Marshal J meta with
  | None => (Some "json: error calling MarshalJSON", files)
  | Some data =>
      (* Write to temp file first *)
      let tmpPath := path ++ ".tmp" in
      match WriteFile_fault F with
      | OpenFails => (Some "open failed", files)
      | WriteFails n => (Some "write failed", <[tmpPath := take n data]> files)
      | WriteOk =>
          let files := <[tmpPath := data]> files in
          (* Atomic rename *)
          match os_Rename (Rename_meta_fails F) tmpPath path files with
          | None => (Some "rename failed", files)
          | Some files => (None, files)
          end
      end
  end.

(** [Get], with the clock read at [now].  [None] is the panic of
    [getShardedPath]; reading a file that exists succeeds.  The body
    is the opened data file. *)
Definition Get (J : JSON) (fs : FSStore) (now : Z) (key : string) (files : Files)
    : option (result (option (Reader * Meta)) * Files) :=
  dataPath ← getDataPath fs key;
  metaPath ← getMetaPath fs key;
  match files !! dataPath with
  | None => Some (Ok None, files)
  | Some content =>
      match readMeta J metaPath files with
      | Err _ => Some (Err "failed to read metadata", files)
      | Ok meta =>
          if IsExpired now meta then
            (* Clean up expired entry *)
            files ← Delete fs key files;
            Some (Ok None, files)
          else Some (Ok (Some (mkReader content false true, meta)), files)
      end
  end.

(** [Put].  The result is the returned error, the caller's [meta]
    after the call ([meta.Size] is assigned through the pointer) and
    the files; the deferred [os.Remove(tmpDataPath)] runs on every
    return after [os.Create]. *)
Definition Put (J : JSON) (fs : FSStore) (F : Faults) (key : string) (body : Reader)
    (meta : Meta) (files : Files) : option (option string * Meta * Files) :=
  dataPath ← getDataPath fs key;
  metaPath ← getMetaPath fs key;
  Some (
    if MkdirAll_fails F then (Some "failed to create cache directory", meta, files)
    else
      let tmpDataPath := dataPath ++ ".tmp" in
      if Create_fails F then (Some "failed to create temp file", meta, files)
      else
        let files := <[tmpDataPath := []]> files in
        (* Copy data to temp file *)
        let '(buf, err) := io_Copy body in
        if err || Copy_fails F then
          (Some "failed to write cache data", meta, delete tmpDataPath files)
        else
          let files := <[tmpDataPath := buf]> files in
          (* Update metadata with actual size *)
          let meta := set_Size meta (Z.of_nat (length buf)) in
          match writeMeta J F metaPath meta files with
          | (Some _, files) =>
              (Some "failed to write metadata", meta, delete tmpDataPath files)
          | (None, files) =>
              match os_Rename (Rename_data_fails F) tmpDataPath dataPath files with
              | None => (Some "failed to rename temp file", meta, delete tmpDataPath files)
              | Some files => (None, meta, delete tmpDataPath files)
              end
          end).

End fsstore.

(** ** package cacheworker: the jobs *)

Module cacheworker_jobs.
Import cache optimizer goio.

(** [(br *bytesReader) Read] of the worker: ends with its own
    [&eofError{}]. *)
Definition Read : ReadFn bytesReader := bytesReader_Read eofError.

Definition newBytesReader (data : bytes) : bytesReader := mkBytesReader data 0.

(** [readAll]: reads of 8192 bytes until an error; an error whose text
    is [EOF] ends the loop.  [None]: the fuel ran out. *)
Fixpoint readAll {R : Type} (Read : ReadFn R) (fuel : nat) (r : R) (buf : bytes)
    : option (bytes * option error) :=
  match fuel with
  | O => None
  | S fuel =>
      let '(tmp, err, r) := Read (8 * 1024)%nat r in
      let buf := (buf ++ tmp)%list in
      match err with
      | Some e =>
          if String.eqb (Error e) "EOF" then Some (buf, None)
          else Some (buf, Some e)
      | None => readAll Read fuel r buf
      end
  end.

(** What an [io.Copy] or [io.ReadAll] gets out of
    [newBytesReader(data)]: all of [data], and then an error that is
    not [io.EOF]. *)
Definition reader_of (data : bytes) : Reader := mkReader data true false.

(** What [readAll] gets out of a reader handed over by a store: the
    pending bytes, and an error when the reader fails. *)
Definition readAll_of (r : Reader) : result bytes :=
  if rd_fault r then Err "read error" else Ok (rd_pending r).

(** The store behind [job.Store]. *)
Class JobStore (S : Type) := {
  job_Get : S -> Z -> string -> option (result (option (Reader * Meta)) * S);
  job_Put : S -> string -> Reader -> Meta -> option (option string * S);
}.

(** The line [processJob] ends with. *)
Inductive Logged : Type :=
| FailedToGet
| NotFound
| FailedToRead
| FailedToOptimize
| FailedToStore
| Optimized (original optimized : nat).

Definition is_Optimized (l : Logged) : bool :=
  match l with Optimized _ _ => true | _ => false end.

(** [processJob]; [now] is the instant at which the store reads the
    clock and [ctx] the polls of the 30 second context.  [None]: the
    store panicked. *)
Definition processJob {S : Type} `{!JobStore S} (pipeline : Pipeline) (now : Z)
    (ctx : nat -> bool) (key : string) (store : S) : option (Logged * S) :=
  '(got, store) ← job_Get store now key;
  match got with
  | Err _ => Some (FailedToGet, store)
  | Ok None => Some (NotFound, store)
  | Ok (Some (reader, meta)) =>
      (* Read content into memory *)
      match readAll_of reader with
      | Err _ => Some (FailedToRead, store)
      | Ok buf =>
          (* Apply optimization pipeline *)
          match ApplyToBytes pipeline ctx buf meta with
          | Err _ => Some (FailedToOptimize, store)
          | Ok (optimized, optimizedMeta) =>
              (* Store optimized content back to cache *)
              '(err, store) ← job_Put store key (reader_of optimized) optimizedMeta;
              match err with
              | Some _ => Some (FailedToStore, store)
              | None => Some (Optimized (length buf) (length optimized), store)
              end
          end
      end
  end.

(** The filesystem store as a job store; [F] is what the operating
    system does to the calls of [Put]. *)
Definition FSJobStore (J : fsstore.JSON) (fs : FSStore) (F : fsstore.Faults)
    : JobStore Files := {|
  job_Get files now key := fsstore.Get J fs now key files;
  job_Put files key body meta :=
    (fun r => (fst (fst r), snd r)) <$> fsstore.Put J fs F key body meta files;
|}.

End cacheworker_jobs.

(** ** package cache: the fingerprint of a file name *)

Module cachekey.

(** [ExtractFingerprint]: the second-to-last of the parts between
    dots, when there are at least three. *)
Definition ExtractFingerprint (filename : string) : string :=
  let parts := url.split "." filename in
  if (3 <=? length parts)%nat
  then nth (length parts - 2) parts ""
  else "".

End cachekey.

(** ** package cache: the Varnish store's purge requests *)

Module varnishstore.
Import optimizer.

(** An outgoing request: method and URL. *)
Record PurgeRequest := mkPurgeRequest {
  req_method : string;
  req_url : string;
}.

(** [httpClient.Do] over the state [N] of the network: the status of
    the response, or [None] when the request could not be sent. *)
Definition Client (N : Type) : Type := N -> PurgeRequest -> option Z * N.

Record VarnishStore := mkVarnishStore { endpoints : list string }.

Definition NewVarnishStore (cfg_Endpoints : list string) : result VarnishStore :=
  match cfg_Endpoints with
  | [] => Err "at least one Varnish endpoint is required"
  | _ => Ok (mkVarnishStore cfg_Endpoints)
  end.

(** The loop over the endpoints: build the request for one endpoint
    ([None] when [http.NewRequestWithContext] refuses it), send it, and
    fail on a status other than 200 and 204.  (The messages are given
    without the text of the wrapped cause.) *)
Fixpoint each_endpoint {N : Type} (Do : Client N) (method : string)
    (request : string -> option PurgeRequest) (endpoints : list string) (net : N)
    : result unit * N :=
  match endpoints with
  | [] => (Ok tt, net)
  | endpoint :: rest =>
      match request endpoint with
      | None => (Err ("failed to create " ++ method ++ " request"), net)
      | Some req =>
          match Do net req with
          | (None, net) =>
              (Err ("failed to send " ++ method ++ " request to " ++ endpoint), net)
          | (Some status, net) =>
              if negb (status =? 200) && negb (status =? 204)
              then (Err (method ++ " request failed with status " ++ FormatInt status), net)
              else each_endpoint Do method request rest net
          end
      end
  end.

(** [Delete]: a [PURGE] of [endpoint + "/" + key] at every endpoint;
    [valid] tells which URLs [http.NewRequestWithContext] accepts. *)
Definition Delete {N : Type} (Do : Client N) (valid : string -> bool)
    (vs : VarnishStore) (key : string) (net : N) : result unit * N :=
  each_endpoint Do "PURGE"
    (fun endpoint =>
       let url := endpoint ++ "/" ++ key in
       if valid url then Some (mkPurgeRequest "PURGE" url) else None)
    (endpoints vs) net.

End varnishstore.

(** ** package cachemiddleware: the administration endpoints *)

Module cacheadmin.
Import http.

(** [strings.TrimPrefix]. *)
Definition TrimPrefix (s prefix : string) : string :=
  if strings.HasPrefix s prefix
  then String.substring (String.length prefix) (String.length s - String.length prefix) s
  else s.

(** [url.Values.Get]: the first value of the key, or the empty
    string. *)
Definition Values_Get (v : gmap string (list string)) (key : string) : string :=
  match v !! key with
  | Some (x :: _) => x
  | _ => ""
  end.

(** [authenticate]. *)
Definition authenticate (adminSecret : string) (r : Request) : bool :=
  if String.eqb adminSecret "" then true
  else
    let authHeader := Header_Get (Header_ r) "Authorization" in
    if strings.HasPrefix authHeader "Bearer " then
      let token := TrimPrefix authHeader "Bearer " in
      String.eqb token adminSecret
    else
      let secret := Values_Get (url.Query (URL_RawQuery r)) "secret" in
      String.eqb secret adminSecret.

End cacheadmin.

(** ** The filesystem store behind the middleware *)

Module cachebackend.
Import cache optimizer cachemiddleware fsstore.

(** [FSStore] as the middleware's [Store]: [Put] is handed a
    [bytes.NewReader] over the body.  (A panic of [getShardedPath] is
    shown as an error; it cannot occur for the keys of
    [GenerateKey].) *)
Definition FSCacheStore (J : JSON) (fs : FSStore) (F : Faults) : CacheStore Files := {|
  store_Get files now key :=
    match Get J fs now key files with
    | Some got => got
    | None => (Err "panic", files)
    end;
  store_Put files key b meta :=
    match Put J fs F key (mkReader b false false) meta files with
    | Some (err, _, files) => (err, files)
    | None => (Some "panic", files)
    end;
|}.

End cachebackend.

(** * Vocabulary and example inputs of the further properties *)

Module store_spec.
Import cache optimizer fsstore.

#[global] Instance Meta_eq_dec : EqDecision Meta.
Proof. solve_decision. Defined.

#[global] Instance Reader_eq_dec : EqDecision Reader.
Proof. solve_decision. Defined.

#[global] Instance result_eq_dec {A : Type} `{EqDecision A} : EqDecision (result A).
Proof. solve_decision. Defined.

(** An entry without expiry. *)
Definition text_meta : Meta := mkMeta "text/plain" "" 0 "" 0 0 200 ∅.

(** An entry that lives for five nanoseconds from instant 0. *)
Definition short_lived : Meta := mkMeta "text/plain" "" 0 "" 5 0 200 ∅.

(** A stand-in for [encoding/json] that is exact on the entries which
    differ from [base] in their size only: the size in unary. *)
Definition unary_json (base : Meta) : JSON :=
  mkJSON (fun m => Some (repeat x31 (Z.to_nat (Size m))))
         (fun b => Some (set_Size base (Z.of_nat (length b)))).

(** A store without sharding, in the working directory. *)
Definition flat_store : FSStore := mkFSStore "" 0.

(** A [bytes.NewReader]. *)
Definition bytes_NewReader (b : bytes) : Reader := mkReader b false false.

(** The files of one entry of [flat_store], two bytes under key [k1]. *)
Definition entry_k1 : Files :=
  {[ "k1.data" := [x48; x69]; "k1.meta" := [x31; x31] ]}.

(** The same, with a metadata file that was not renamed into place. *)
Definition entry_k1_with_tmp : Files :=
  {[ "k1.data" := [x48; x69]; "k1.meta" := [x31; x31]; "k1.meta.tmp" := [x31] ]}.


(** The rename of the metadata file fails. *)
Definition meta_rename_fails : Faults := mkFaults false false false WriteOk true false.

(** Only the last rename of [Put] fails. *)
Definition last_rename_fails : Faults := mkFaults false false false WriteOk false true.

End store_spec.

Module job_spec.
Import cachemiddleware cacheworker.

#[global] Instance Logged_eq_dec : EqDecision cacheworker_jobs.Logged.
Proof. solve_decision. Defined.

(** A run of [Enqueue] calls with no consumer in between: the errors
    returned, and the worker at the end. *)
Fixpoint Enqueue_all (w : Worker) (jobs : list OptimizationJob)
    : outcome (list (option string) * Worker) :=
  match jobs with
  | [] => Returned ([], w)
  | job :: jobs =>
      match Enqueue w job with
      | Panicked msg => Panicked msg
      | Returned (err, w) =>
          match Enqueue_all w jobs with
          | Panicked msg => Panicked msg
          | Returned (errs, w) => Returned (err :: errs, w)
          end
      end
  end.

(** The room left in the queue. *)
Definition room (w : Worker) : nat :=
  (ch_cap (queue w) - length (ch_buf (queue w)))%nat.

End job_spec.

Module request_spec.
Import cache optimizer http cachemiddleware.

(** The requests a middleware has counted as hit, miss, error or
    bypass. *)
Definition counted (s : Stats) : Z := Hits s + Misses s + Errors s + Bypasses s.

(** The script calls [WriteHeader]. *)
Definition calls_WriteHeader (ops : list HandlerOp) : bool :=
  existsb (fun op => match op with HWriteHeader _ => true | _ => false end) ops.

(** Synchronous optimisation is configured and succeeds on [b]. *)
Definition sync_optimizes (config : Config) (r : Request) (b : bytes) (m : Meta) : Prop :=
  OptimizationMode config = OptimizationSync /\
  exists pipeline out,
    OptimizationPipeline config = Some pipeline /\
    ApplyToBytes pipeline (Context r) b m = Ok out.

(** Every counter of a request's outcome can still be incremented. *)
Definition countable (s : Stats) : Prop :=
  minInt64 <= Hits s < maxInt64 /\ minInt64 <= Misses s < maxInt64 /\
  minInt64 <= Errors s < maxInt64 /\ minInt64 <= Bypasses s < maxInt64.

(** An upstream that fails. *)
Definition error_handler : Handler :=
  fun _ => [HWriteHeader 500; HWrite [x48; x69]].

(** A store that holds one entry, whatever the key. *)
Definition one_entry_store (b : bytes) (m : Meta) : CacheStore unit := {|
  store_Get _ _ _ := (Ok (Some (NopCloser_Buffer b, m)), tt);
  store_Put _ _ _ _ := (None, tt);
|}.

(** An upstream that sets a cookie and writes the body without
    calling [WriteHeader]. *)
Definition cookie_handler : Handler :=
  fun _ => [HSet "Set-Cookie" "session=1"; HSet "Content-Type" "text/html";
            HWrite [x48; x69]].

End request_spec.

Module transform_spec.
Import cache optimizer.

(** What identifies the response in its metadata: every field but
    [Size] and [Encoding]. *)
Definition same_response (m m' : Meta) : Prop :=
  ContentType m' = ContentType m /\ ETag m' = ETag m /\ TTL m' = TTL m /\
  CachedAt m' = CachedAt m /\ StatusCode m' = StatusCode m /\ Headers m' = Headers m.

(** One of the transforms the package builds. *)
Definition package_transform (NewMinifier : MinifyConfig -> Minifier) (C : Codecs)
    (t : Transform) : Prop :=
  (exists config, t = MinifyTransform NewMinifier config) \/
  (exists config, t = CompressTransform C config) \/
  t = DecompressTransform C.

(** The entry carries an encoding other than [identity]. *)
Definition encoded (m : Meta) : Prop :=
  Encoding m <> "" /\ Encoding m <> "identity".

(** A transform that refuses its input. *)
Definition failing : Transform := fun _ _ => Err "refused".

End transform_spec.

Module key_spec.
Import cache http.

(** [r] with another path and raw query. *)
Definition with_path_query (r : Request) (path rawQuery : string) : Request :=
  mkRequest (Method r) (TLS r) (Host r) path rawQuery (Header_ r) (Context r).

(** [r] with another method. *)
Definition with_method (r : Request) (method : string) : Request :=
  mkRequest method (TLS r) (Host r) (URL_Path r) (URL_RawQuery r) (Header_ r) (Context r).

(** No dot occurs in [s]. *)
Definition dotless (s : string) : Prop := strings.IndexByte s "." = None.

End key_spec.

Module purge_spec.
Import optimizer varnishstore.

(** A network that answers by the request alone and keeps the list of
    the requests it was sent. *)
Definition logging (answer : PurgeRequest -> option Z) : Client (list PurgeRequest) :=
  fun log req => (answer req, (log ++ [req])%list).

(** The answer lets the loop go on. *)
Definition accepted (answer : PurgeRequest -> option Z) (req : PurgeRequest) : Prop :=
  answer req = Some 200 \/ answer req = Some 204.

(** The [PURGE] request for [key] at one endpoint. *)
Definition purge_of (key endpoint : string) : PurgeRequest :=
  mkPurgeRequest "PURGE" (endpoint ++ "/" ++ key).

(** A Varnish that knows the object at the first endpoint only. *)
Definition first_only (req : PurgeRequest) : option Z :=
  if String.eqb (req_url req) "http://v1/k" then Some 200 else Some 404.

End purge_spec.

Module sync_spec.
Import cache optimizer http cachemiddleware optimizer_spec.

(** An upstream whose four bytes of text the pair codec halves. *)
Definition pairs_handler : Handler :=
  fun _ => [HSet "Content-Type" "text/plain"; HWriteHeader 200;
            HWrite [x41; x41; x42; x42]].

(** A middleware that compresses with gzip before it stores. *)
Definition gzip_sync : Config :=
  NewMiddleware
    (mkConfig true NewKeyGenerator [] 0 0 OptimizationSync
       (Some [CompressTransform PairCodec.codecs gzip_always]) false true).

End sync_spec.

(** * Properties *)

(** ** The pair codec is lossless *)

Module PairCodecFacts.
Import PairCodec.

Lemma halve_double (h b : bytes) : halve b = Some h -> double h = b.
Proof.
  revert b. induction h as [|a h IH]; intros b Hb.
  - destruct b as [|x [|y r]]; simpl in Hb; try discriminate; [reflexivity|].
    destruct (Byte.eqb x y); [|discriminate].
    destruct (halve r); discriminate.
  - destruct b as [|x [|y r]]; simpl in Hb; try discriminate.
    destruct (Byte.eqb x y) eqn:Exy; [|discriminate].
    apply Byte.byte_dec_bl in Exy. subst y.
    destruct (halve r) as [h'|] eqn:Hr; simpl in Hb; [|discriminate].
    injection Hb as -> ->. simpl. by rewrite (IH r Hr).
Qed.

Lemma decode_encode (level : Z) (b : bytes) : decode (encode level b) = Some b.
Proof.
  unfold encode. destruct (halve b) as [h|] eqn:Hh; simpl; [|reflexivity].
  by rewrite (halve_double h b Hh).
Qed.

End PairCodecFacts.

(** ** Transforms *)

Module optimizer_facts.
Import cache optimizer optimizer_spec.

Lemma rd_pending_as_ReadCloser (r : Reader) :
  rd_pending (as_ReadCloser r) = rd_pending r.
Proof. unfold as_ReadCloser. by destruct (rd_closer r). Qed.

(** What the transform hands back when the minifier fails: the input
    reader in the state the copy left it in, or else a reader on what
    the minifier left in the buffer. *)
Lemma MinifyTransform_on_error (NewMinifier : MinifyConfig -> Minifier)
    (config : MinifyConfig) (in_ : Reader) (meta : Meta) :
  ContentType meta <> "" ->
  shouldMinify (mediaType_of (ContentType meta)) config = true ->
  rd_fault in_ = false ->
  min_err (NewMinifier config (mediaType_of (ContentType meta)) (rd_pending in_)) = true ->
  MinifyTransform NewMinifier config in_ meta =
    Ok (if rd_closer in_ then drained in_
        else NopCloser_Buffer
               (drop (min_consumed (NewMinifier config (mediaType_of (ContentType meta))
                                                (rd_pending in_)))
                     (rd_pending in_)),
        meta).
Proof.
  intros Hct Hsm Hf Herr. unfold MinifyTransform.
  destruct (String.eqb_spec (ContentType meta) "") as [E|_]; [contradiction|].
  rewrite Hsm. simpl. unfold io_Copy. rewrite Hf, Herr. simpl.
  by destruct (rd_closer in_).
Qed.

(** C5: on a minifier error the transform returns a nil error and the
    unchanged meta, but for an input that implements [io.ReadCloser]
    the reader it returns is the input reader itself, already read to
    its end: it yields no byte, so a non-empty input is not passed
    through. *)
Theorem MinifyTransform_error_loses_input
    (NewMinifier : MinifyConfig -> Minifier) (config : MinifyConfig)
    (in_ : Reader) (meta : Meta) :
  ContentType meta <> "" ->
  shouldMinify (mediaType_of (ContentType meta)) config = true ->
  rd_fault in_ = false ->
  rd_closer in_ = true ->
  rd_pending in_ <> [] ->
  min_err (NewMinifier config (mediaType_of (ContentType meta)) (rd_pending in_)) = true ->
  exists out : Reader,
    MinifyTransform NewMinifier config in_ meta = Ok (out, meta) /\
    rd_pending out = [] /\
    rd_pending out <> rd_pending in_.
Proof.
  intros Hct Hsm Hf Hc Hne Herr.
  exists (drained in_). split; [|split].
  - rewrite (MinifyTransform_on_error _ _ _ _ Hct Hsm Hf Herr). by rewrite Hc.
  - reflexivity.
  - simpl. congruence.
Qed.

(** A script that does not parse, behind [io.NopCloser]. *)
Lemma MinifyTransform_error_loses_input_witness :
  exists out : Reader,
    MinifyTransform failing_minifier DefaultMinifyConfig
      (NopCloser (readerFromBytes bad_js)) js_meta = Ok (out, js_meta) /\
    rd_pending out = [] /\
    rd_pending out <> rd_pending (NopCloser (readerFromBytes bad_js)).
Proof.
  apply (MinifyTransform_error_loses_input failing_minifier DefaultMinifyConfig
           (NopCloser (readerFromBytes bad_js)) js_meta);
    first [ reflexivity | discriminate ].
Defined.

(** The same through the pipeline, as the middleware and the worker
    run it: the whole document is replaced by the empty one. *)
Example pipeline_minify_error_empties_body :
  ApplyToBytes [MinifyTransform failing_minifier DefaultMinifyConfig]
               (fun _ => false) bad_js js_meta
  = Ok ([], js_meta).
Proof. reflexivity. Qed.

(** *** Compression *)

Lemma plain_guard (meta : Meta) :
  plain meta ->
  negb (String.eqb (Encoding meta) "") && negb (String.eqb (Encoding meta) "identity") = false.
Proof. intros [E|E]; rewrite E; reflexivity. Qed.

(** The transform on the inputs it compresses, case by case. *)
Lemma CompressTransform_cases (C : Codecs) (config : CompressConfig)
    (in_ : Reader) (meta : Meta) (enc : string) :
  plain meta ->
  rd_fault in_ = false ->
  MinSize config <= Z.of_nat (length (rd_pending in_)) ->
  compress_kind config = Some enc ->
  CompressTransform C config in_ meta =
    let b := rd_pending in_ in
    let c := compressed_by C config b in
    if Z.of_nat (length c) >=? Z.of_nat (length b)
    then Ok (NopCloser_Buffer [], set_Size meta (Z.of_nat (length b)))
    else Ok (NopCloser_Buffer c, set_Size (set_Encoding meta enc) (Z.of_nat (length c))).
Proof.
  intros Hp Hf Hmin Hk. unfold CompressTransform.
  rewrite (plain_guard _ Hp). unfold io_Copy. rewrite Hf. simpl.
  destruct (Z.ltb_spec (Z.of_nat (length (rd_pending in_))) (MinSize config)) as [Hlt|_];
    [lia|].
  unfold compress_kind, compressed_by in *. unfold finish_compress.
  destruct (String.eqb (Type_ config) CompressionGzip).
  - destruct (gzip_level_ok (Level config)); [|discriminate].
    injection Hk as <-. reflexivity.
  - destruct (String.eqb (Type_ config) CompressionBrotli); [|discriminate].
    injection Hk as <-. reflexivity.
Qed.

Lemma CompressTransform_below_min (C : Codecs) (config : CompressConfig)
    (in_ : Reader) (meta : Meta) :
  plain meta ->
  rd_fault in_ = false ->
  Z.of_nat (length (rd_pending in_)) < MinSize config ->
  CompressTransform C config in_ meta =
    Ok (NopCloser_Buffer (rd_pending in_),
        set_Size meta (Z.of_nat (length (rd_pending in_)))).
Proof.
  intros Hp Hf Hmin. unfold CompressTransform.
  rewrite (plain_guard _ Hp). unfold io_Copy. rewrite Hf. simpl.
  destruct (Z.ltb_spec (Z.of_nat (length (rd_pending in_))) (MinSize config)); [done|lia].
Qed.

(** The number of bytes that come out never exceeds the number that
    went in, whatever the codec does. *)
Lemma CompressTransform_never_longer (C : Codecs) (config : CompressConfig)
    (in_ out : Reader) (meta meta' : Meta) :
  CompressTransform C config in_ meta = Ok (out, meta') ->
  (length (rd_pending out) <= length (rd_pending in_))%nat.
Proof.
  unfold CompressTransform, finish_compress, io_Copy, Buffer_WriteTo.
  intros H.
  repeat match type of H with
         | context [if ?c then _ else _] => destruct c eqn:?
         end;
    try discriminate; injection H as <- <-;
    rewrite ?rd_pending_as_ReadCloser; simpl; lia.
Qed.

(** C6: an input that reaches the compressor and does not get strictly
    smaller is not emitted unmodified: the transform returns a reader
    on the input buffer, which the copy into the compressor has
    emptied, so no byte comes out while [Size] records the input
    length and [Encoding] is left as it was. *)
Theorem CompressTransform_no_gain_emits_nothing (C : Codecs) (config : CompressConfig)
    (in_ : Reader) (meta : Meta) (enc : string) :
  plain meta ->
  rd_fault in_ = false ->
  rd_pending in_ <> [] ->
  MinSize config <= Z.of_nat (length (rd_pending in_)) ->
  compress_kind config = Some enc ->
  (length (rd_pending in_) <= length (compressed_by C config (rd_pending in_)))%nat ->
  exists out meta',
    CompressTransform C config in_ meta = Ok (out, meta') /\
    rd_pending out = [] /\
    rd_pending out <> rd_pending in_ /\
    Encoding meta' = Encoding meta /\
    Size meta' = Z.of_nat (length (rd_pending in_)).
Proof.
  intros Hp Hf Hne Hmin Hk Hlen.
  rewrite (CompressTransform_cases C config in_ meta enc Hp Hf Hmin Hk). simpl.
  destruct (Z.geb_spec (Z.of_nat (length (compressed_by C config (rd_pending in_))))
                       (Z.of_nat (length (rd_pending in_)))) as [_|Hlt]; [|lia].
  eexists _, _. split; [reflexivity|].
  simpl. repeat split; congruence.
Qed.

(** Three bytes that the pair codec cannot shrink. *)
Lemma CompressTransform_no_gain_emits_nothing_witness :
  exists out meta',
    CompressTransform PairCodec.codecs gzip_always
      (readerFromBytes [x41; x42; x43]) plain_meta = Ok (out, meta') /\
    rd_pending out = [] /\
    rd_pending out <> rd_pending (readerFromBytes [x41; x42; x43]) /\
    Encoding meta' = Encoding plain_meta /\
    Size meta' = Z.of_nat (length (rd_pending (readerFromBytes [x41; x42; x43]))).
Proof.
  apply (CompressTransform_no_gain_emits_nothing PairCodec.codecs gzip_always
           (readerFromBytes [x41; x42; x43]) plain_meta "gzip").
  - left. reflexivity.
  - reflexivity.
  - discriminate.
  - simpl. lia.
  - reflexivity.
  - simpl. lia.
Defined.

Lemma PairCodec_lossless : lossless PairCodec.codecs.
Proof.
  split; intros level b; simpl; by rewrite PairCodecFacts.decode_encode.
Qed.

(** Where the compressed form is emitted, or the input is below the
    minimum size, the round trip gives the input back. *)
Lemma round_trip_when_emitted (C : Codecs) (config : CompressConfig)
    (in_ : Reader) (meta : Meta) (enc : string) :
  lossless C ->
  Encoding meta = "" ->
  rd_fault in_ = false ->
  compress_kind config = Some enc ->
  (Z.of_nat (length (rd_pending in_)) < MinSize config \/
   (length (compressed_by C config (rd_pending in_)) < length (rd_pending in_))%nat) ->
  exists out meta',
    round_trip C config in_ meta = Ok (out, meta') /\
    rd_pending out = rd_pending in_ /\
    Encoding meta' = "" /\
    Size meta' = Z.of_nat (length (rd_pending in_)).
Proof.
  intros [Hgz Hbr] Henc Hf Hk Hcase. unfold round_trip.
  assert (Hp : plain meta) by (by left).
  destruct (Z.lt_ge_cases (Z.of_nat (length (rd_pending in_))) (MinSize config)) as [Hlt|Hge].
  - rewrite (CompressTransform_below_min C config in_ meta Hp Hf Hlt).
    unfold DecompressTransform. simpl. rewrite Henc. simpl.
    eexists _, _. split; [reflexivity|]. simpl. by rewrite Henc.
  - destruct Hcase as [?|Hsmall]; [lia|].
    rewrite (CompressTransform_cases C config in_ meta enc Hp Hf Hge Hk). simpl.
    destruct (Z.geb_spec (Z.of_nat (length (compressed_by C config (rd_pending in_))))
                         (Z.of_nat (length (rd_pending in_)))) as [?|_]; [lia|].
    unfold compress_kind, compressed_by in *. unfold DecompressTransform.
    destruct (String.eqb (Type_ config) CompressionGzip).
    + destruct (gzip_level_ok (Level config)); [|discriminate].
      injection Hk as <-. simpl. rewrite Hgz. simpl.
      eexists _, _. split; [reflexivity|]. by simpl.
    + destruct (String.eqb (Type_ config) CompressionBrotli); [|discriminate].
      injection Hk as <-. simpl. rewrite Hbr. simpl.
      eexists _, _. split; [reflexivity|]. by simpl.
Qed.

(** C7: for an input of at least the minimum size whose compressed
    form is not strictly smaller, compressing and then decompressing
    does not give the input back: the compress transform already
    emitted the emptied buffer, and the decompress transform passes it
    through.  The result is the empty sequence with [Encoding] empty
    and [Size] still the input length. *)
Theorem round_trip_no_gain_loses_input (C : Codecs) (config : CompressConfig)
    (in_ : Reader) (meta : Meta) (enc : string) :
  Encoding meta = "" ->
  rd_fault in_ = false ->
  rd_pending in_ <> [] ->
  MinSize config <= Z.of_nat (length (rd_pending in_)) ->
  compress_kind config = Some enc ->
  (length (rd_pending in_) <= length (compressed_by C config (rd_pending in_)))%nat ->
  exists out meta',
    round_trip C config in_ meta = Ok (out, meta') /\
    rd_pending out = [] /\
    rd_pending out <> rd_pending in_ /\
    Encoding meta' = "" /\
    Size meta' = Z.of_nat (length (rd_pending in_)).
Proof.
  intros Henc Hf Hne Hmin Hk Hlen. unfold round_trip.
  assert (Hp : plain meta) by (by left).
  rewrite (CompressTransform_cases C config in_ meta enc Hp Hf Hmin Hk). simpl.
  destruct (Z.geb_spec (Z.of_nat (length (compressed_by C config (rd_pending in_))))
                       (Z.of_nat (length (rd_pending in_)))) as [_|Hlt]; [|lia].
  unfold DecompressTransform. simpl. rewrite Henc. simpl.
  eexists _, _. split; [reflexivity|].
  simpl. repeat split; congruence.
Qed.

(** The same three bytes through both transforms. *)
Lemma round_trip_no_gain_loses_input_witness :
  exists out meta',
    round_trip PairCodec.codecs gzip_always
      (readerFromBytes [x41; x42; x43]) plain_meta = Ok (out, meta') /\
    rd_pending out = [] /\
    rd_pending out <> rd_pending (readerFromBytes [x41; x42; x43]) /\
    Encoding meta' = "" /\
    Size meta' = Z.of_nat (length (rd_pending (readerFromBytes [x41; x42; x43]))).
Proof.
  apply (round_trip_no_gain_loses_input PairCodec.codecs gzip_always
           (readerFromBytes [x41; x42; x43]) plain_meta "gzip").
  - reflexivity.
  - reflexivity.
  - discriminate.
  - simpl. lia.
  - reflexivity.
  - simpl. lia.
Defined.

(** With the same codec a sequence of doubled bytes does shrink and
    survives the round trip. *)
Example round_trip_doubled :
  round_trip PairCodec.codecs gzip_always
    (readerFromBytes [x41; x41; x42; x42]) plain_meta
  = Ok (NopCloser_Buffer [x41; x41; x42; x42], set_Size plain_meta 4).
Proof. reflexivity. Qed.

End optimizer_facts.

(** ** Worker queue *)

Module worker_facts.
Import cachemiddleware cacheworker worker_spec.



(** After [Stop] the queue is closed and a further [Enqueue] does not
    return at all. *)
Example Enqueue_after_Stop :
  Enqueue (Stop (NewWorker 10 2)) (mkJob "k") = Panicked "send on closed channel".
Proof. reflexivity. Qed.

End worker_facts.

(** ** Middleware *)

Module middleware_facts.
Import cache optimizer http cachemiddleware middleware_spec.

(** *** The response recorder *)

Lemma rw_body_WriteHeader (code : Z) (w : ResponseWriter) :
  rw_body (rw_WriteHeader code w) = rw_body w.
Proof. unfold rw_WriteHeader. by destruct (rw_sent w). Qed.

Lemma rw_body_Write (data : bytes) (w : ResponseWriter) :
  rw_body (rw_Write data w) = (rw_body w ++ data)%list.
Proof. unfold rw_Write. simpl. by rewrite rw_body_WriteHeader. Qed.

Lemma rr_statusCode_fold (ops : list HandlerOp) (rr : responseRecorder) :
  statusCode (foldl rr_op rr ops) = last_code ops (statusCode rr).
Proof.
  revert rr. induction ops as [|op ops IH]; intros rr; [reflexivity|].
  simpl. rewrite IH. unfold last_code. simpl. by destruct op.
Qed.

Lemma rr_body_fold (ops : list HandlerOp) (rr : responseRecorder) :
  body (foldl rr_op rr ops) = (body rr ++ written_body ops)%list.
Proof.
  revert rr. induction ops as [|op ops IH]; intros rr; simpl.
  - by rewrite app_nil_r.
  - rewrite IH. destruct op; simpl; rewrite ?app_nil_r, <- ?app_assoc; reflexivity.
Qed.


Lemma last_default_irrelevant {A} (l : list A) (x d d' : A) :
  List.last (x :: l) d = List.last (x :: l) d'.
Proof.
  revert x. induction l as [|y l IH]; intros x; [reflexivity|].
  change (List.last (y :: l) d = List.last (y :: l) d'). apply IH.
Qed.

Lemma WriteHeader_calls_status (cs : list Z) (rr : responseRecorder) :
  statusCode (foldl (fun rr c => rr_WriteHeader c rr) rr cs) = List.last cs (statusCode rr).
Proof.
  revert rr. induction cs as [|c cs IH]; intros rr; [reflexivity|].
  cbn [foldl]. rewrite IH. cbn [rr_WriteHeader statusCode].
  destruct cs as [|c' cs]; [reflexivity|].
  change (List.last (c' :: cs) c = List.last (c' :: cs) (statusCode rr)).
  apply last_default_irrelevant.
Qed.

Lemma WriteHeader_calls (cs : list Z) (rr : responseRecorder) :
  let rr' := foldl (fun rr c => rr_WriteHeader c rr) rr cs in
  rr_w rr' = rr_w rr /\ body rr' = body rr /\
  headers rr' = match cs with
                | [] => headers rr
                | _ => rw_header (rr_w rr) ∪ headers rr
                end.
Proof.
  revert rr. induction cs as [|c cs IH]; intros rr; [done|].
  cbn [foldl]. destruct (IH (rr_WriteHeader c rr)) as (Hw & Hb & Hh).
  cbv zeta. rewrite Hw, Hb, Hh. cbn [rr_WriteHeader rr_w body headers].
  repeat split.
  destruct cs; [done|]. by rewrite (assoc_L (∪)), (idemp_L (∪)).
Qed.

(** C4, as the recorder behaves: every [WriteHeader] overwrites the
    recorded status, so after [WriteHeader(c1)], [WriteHeader(c2)], ...
    the last code is the recorded one (in any script, the code of its
    last [WriteHeader]); each call assigns the headers then visible on
    the writer into the recorded set, so that after calls with no
    header change in between a fresh recorder holds exactly the
    snapshot taken at the first call.  No call reaches the writer. *)
Theorem WriteHeader_last_wins (w : ResponseWriter) (c1 : Z) (cs : list Z)
    (ops : list HandlerOp) (rr : responseRecorder) :
  let rr' := foldl (fun rr c => rr_WriteHeader c rr) (newRecorder w) (c1 :: cs) in
  statusCode rr' = List.last (c1 :: cs) 200 /\
  headers rr' = rw_header w /\
  rr_w rr' = w /\
  statusCode (foldl rr_op rr ops) = last_code ops (statusCode rr) /\
  headers (rr_WriteHeader c1 rr) = rw_header (rr_w rr) ∪ headers rr.
Proof.
  split; [|split; [|split; [|split; [|reflexivity]]]].
  - apply WriteHeader_calls_status.
  - destruct (WriteHeader_calls (c1 :: cs) (newRecorder w)) as (_ & _ & Hh).
    rewrite Hh. cbn [newRecorder rr_w headers]. by rewrite (right_id_L ∅ (∪)).
  - by destruct (WriteHeader_calls (c1 :: cs) (newRecorder w)) as (Hw & _ & _).
  - apply rr_statusCode_fold.
Qed.

(** C4 as stated fails: after [WriteHeader(200)], [WriteHeader(500)]
    the recorder holds 500, not the first code. *)
Lemma WriteHeader_second_code_recorded :
  statusCode (foldl rr_op (newRecorder fresh_writer) two_codes) = 500 /\
  two_codes = [HWriteHeader 200; HWriteHeader 500] /\
  500 <> 200.
Proof. repeat split. discriminate. Qed.

(** A header set between two [WriteHeader] calls is recorded by the
    second one. *)
Example later_headers_recorded :
  headers (foldl rr_op (newRecorder fresh_writer)
             [HWriteHeader 200; HSet "X-Late" "1"; HWriteHeader 500])
    !! "X-Late" = Some ["1"].
Proof. apply (bool_decide_eq_true_1 _). vm_compute. reflexivity. Qed.

(** *** Requests that are not cacheable *)

Lemma IsCacheable_false (r : Request) :
  cache.IsCacheable r = false ->
  (Method r <> "GET" /\ Method r <> "HEAD") \/
  Header_Get (Header_ r) "Authorization" <> EmptyString \/
  strings.Contains (Header_Get (Header_ r) "Cache-Control") "no-cache" = true \/
  strings.Contains (Header_Get (Header_ r) "Cache-Control") "no-store" = true.
Proof.
  unfold cache.IsCacheable, MethodGet, MethodHead.
  destruct (String.eqb_spec (Method r) "GET"), (String.eqb_spec (Method r) "HEAD");
    cbn [negb andb]; try (intros _; left; by split);
    (destruct (String.eqb_spec (Header_Get (Header_ r) "Authorization") EmptyString);
     cbn [negb]; [|intros _; right; by left]);
    (destruct (strings.Contains (Header_Get (Header_ r) "Cache-Control") "no-cache");
     cbn [orb]; [intros _; right; right; by left|]);
    (destruct (strings.Contains (Header_Get (Header_ r) "Cache-Control") "no-store");
     [intros _; right; right; by right | discriminate]).
Qed.


Section Requests.
Context {S Q : Type} `{!CacheStore S} `{!JobQueue Q}.
Implicit Types (x : World S Q) (config : Config) (r : Request).

Lemma isCacheable_IsCacheable config r :
  cache.IsCacheable r = false -> isCacheable config r = false.
Proof. intros H. unfold isCacheable. by rewrite H. Qed.

(** C2, as the middleware behaves: for a request with
    [IsCacheable(r) = false] it hands the request to the upstream
    handler on the client's writer and makes no call on the store (no
    [Put], and no [Get] either); the store and the queue are left as
    they were.  An enabled middleware adds one to [bypasses] and
    leaves the other counters; a disabled one delegates before any
    gate and counts nothing. *)
Theorem not_cacheable_bypasses config (handler : Handler) (clock : Clock) r x :
  cache.IsCacheable r = false ->
  let x' := ServeHTTP config handler clock r x in
  ((Method r <> "GET" /\ Method r <> "HEAD") \/
   Header_Get (Header_ r) "Authorization" <> EmptyString \/
   strings.Contains (Header_Get (Header_ r) "Cache-Control") "no-cache" = true \/
   strings.Contains (Header_Get (Header_ r) "Cache-Control") "no-store" = true) /\
  w x' = serve handler r (w x) /\
  calls x' = calls x /\
  store x' = store x /\
  queue x' = queue x /\
  events x' = events x /\
  (Enabled config = true -> stats x' = incrementBypasses (stats x)) /\
  (Enabled config = true -> minInt64 <= Bypasses (stats x) < maxInt64 ->
   Bypasses (stats x') = Bypasses (stats x) + 1) /\
  (Enabled config = false -> stats x' = stats x).
Proof.
  intros Hnc. cbv zeta. split; [by apply IsCacheable_false|].
  unfold ServeHTTP.
  rewrite (isCacheable_IsCacheable config r Hnc).
  destruct (Enabled config); cbn [negb];
    repeat split; try discriminate; try reflexivity.
  intros _ Hrange. cbn. unfold wrap64, minInt64, maxInt64 in *.
  rewrite Z.mod_small; lia.
Qed.

(** *** Cache misses *)

Lemma w_notify config (host type : string) (size : Z) x :
  w (notify config host type size x) = w x.
Proof. unfold notify. by destruct (OnCacheEvent config). Qed.

Lemma writeRecordedResponse_writer config (recorder : responseRecorder) r x :
  let x' := writeRecordedResponse config recorder r x in
  rw_body (w x') = (rw_body (w x) ++ body recorder)%list /\
  rw_header (w x') = readd_headers (rw_header (w x)) (headers recorder).
Proof.
  cbv zeta. unfold writeRecordedResponse.
  destruct (0 <? Z.of_nat (length (body recorder))); rewrite ?w_notify;
    cbn [with_w w]; rewrite rw_body_Write, rw_body_WriteHeader;
    (split; [reflexivity|]);
    unfold rw_Write, rw_WriteHeader, rw_set_header; cbn [rw_sent rw_header rw_body];
    by destruct (rw_sent (w x)).
Qed.

(** Whatever [fetchAndCache] decides about storing, it ends with
    [writeRecordedResponse] on a writer that holds what the upstream
    call left there. *)
Lemma fetchAndCache_ends_with_replay config (handler : Handler) (clock : Clock) r
    (key : string) x :
  let recorder := foldl rr_op (newRecorder (w x)) (handler r) in
  exists x_mid,
    fetchAndCache config handler clock r key x
      = writeRecordedResponse config recorder r x_mid /\
    rw_body (w x_mid) = rw_body (rr_w recorder) /\
    rw_sent (w x_mid) = rw_sent (rr_w recorder).
Proof.
  cbv zeta. unfold fetchAndCache.
  repeat case_match; simplify_eq;
    (eexists; split; [reflexivity|]); rewrite ?w_notify; cbn; by rewrite ?w_notify.
Qed.


(** *** Cache hits *)

Lemma lookup_Header_Set_eq (h : Header) (k v : string) :
  Header_Set h k v !! CanonicalHeaderKey k = Some [v].
Proof. unfold Header_Set. apply lookup_insert_eq. Qed.

Lemma lookup_Header_Set_ne (h : Header) (k k' v : string) :
  CanonicalHeaderKey k <> CanonicalHeaderKey k' ->
  Header_Set h k v !! CanonicalHeaderKey k' = h !! CanonicalHeaderKey k'.
Proof. intros Hne. unfold Header_Set. by apply lookup_insert_ne. Qed.

Lemma lookup_preserved (l : list (string * string)) (h : Header) (name : string) :
  (forall k v, (k, v) ∈ l -> CanonicalHeaderKey k <> CanonicalHeaderKey name) ->
  foldl (fun h kv => Header_Set h (fst kv) (snd kv)) h l !! CanonicalHeaderKey name
    = h !! CanonicalHeaderKey name.
Proof.
  revert h. induction l as [|[k v] l IH]; intros h Hl; [reflexivity|].
  cbn [foldl]. rewrite IH.
  - apply lookup_Header_Set_ne. apply (Hl k v). left.
  - intros k' v' Hin. apply (Hl k' v'). by right.
Qed.

Lemma lookup_preserved_meta (meta : Meta) (h : Header) (name : string) :
  untouched meta name ->
  foldl (fun h kv => Header_Set h (fst kv) (snd kv)) h (map_to_list (Headers meta))
    !! CanonicalHeaderKey name
    = h !! CanonicalHeaderKey name.
Proof.
  intros Hu. apply lookup_preserved. intros k v Hin.
  apply (Hu k v). by apply elem_of_map_to_list.
Qed.

Lemma copy_to_writer_after_header (reader : Reader) (w1 : ResponseWriter)
    (sent : Z * Header) :
  rw_sent w1 = Some sent ->
  rw_sent (snd (copy_to_writer reader w1)) = Some sent /\
  rw_body (snd (copy_to_writer reader w1)) = (rw_body w1 ++ rd_pending reader)%list.
Proof.
  intros Hs. unfold copy_to_writer.
  destruct (rd_pending reader) as [|b bs]; cbn [snd].
  - by rewrite app_nil_r.
  - rewrite rw_body_Write. split; [|reflexivity].
    unfold rw_Write, rw_WriteHeader. rewrite Hs. cbn. exact Hs.
Qed.

Lemma w_serveCachedResponse config (clock : Clock) r (reader : Reader) (meta : Meta) x :
  exists h,
    w (serveCachedResponse config clock r reader meta x)
      = snd (copy_to_writer reader
               (rw_WriteHeader (StatusCode meta) (rw_set_header h (w x)))) /\
    forall name,
      untouched meta name ->
      h !! CanonicalHeaderKey name =
      (let h := rw_header (w x) in
       let h := Header_Set h "X-Cache" "HIT" in
       let h := Header_Set h "Age" (FormatInt (cache.Age (at_Age clock) meta)) in
       let h := if negb (String.eqb (ContentType meta) EmptyString)
                then Header_Set h "Content-Type" (ContentType meta) else h in
       let h := if negb (String.eqb (Encoding meta) EmptyString)
                then Header_Set h "Content-Encoding" (Encoding meta) else h in
       let h := if negb (String.eqb (ETag meta) EmptyString)
                then Header_Set h "ETag" (ETag meta) else h in
       let remainingTTL := wrap64 (TTL meta - cache.Since (at_TTL clock) (CachedAt meta)) in
       if 0 <? remainingTTL
       then Header_Set h "Cache-Control"
              ("public, max-age=" ++ FormatInt (cache.SecondsInt remainingTTL))
       else h) !! CanonicalHeaderKey name.
Proof.
  unfold serveCachedResponse. cbv zeta.
  eexists. split.
  - destruct (copy_to_writer reader _) as [bytesSent w2] eqn:E.
    destruct (0 <? bytesSent); rewrite ?w_notify; cbn [with_w w];
      rewrite E; reflexivity.
  - intros name Hu. by rewrite lookup_preserved_meta.
Qed.

(** The status, the headers and the body a cache hit commits. *)
Lemma hit_response config (clock : Clock) r (reader : Reader) (meta : Meta) x :
  rw_sent (w x) = None ->
  let x' := serveCachedResponse config clock r reader meta x in
  let remainingTTL := wrap64 (TTL meta - cache.Since (at_TTL clock) (CachedAt meta)) in
  sent_status (w x') = Some (StatusCode meta) /\
  rw_body (w x') = (rw_body (w x) ++ rd_pending reader)%list /\
  (untouched meta "X-Cache" -> sent_header (w x') "X-Cache" = Some ["HIT"]) /\
  (untouched meta "Age" ->
   sent_header (w x') "Age" = Some [FormatInt (cache.Age (at_Age clock) meta)]) /\
  (untouched meta "Content-Type" -> ContentType meta <> EmptyString ->
   sent_header (w x') "Content-Type" = Some [ContentType meta]) /\
  (untouched meta "Content-Encoding" -> Encoding meta <> EmptyString ->
   sent_header (w x') "Content-Encoding" = Some [Encoding meta]) /\
  (untouched meta "ETag" -> ETag meta <> EmptyString ->
   sent_header (w x') "ETag" = Some [ETag meta]) /\
  (untouched meta "Cache-Control" ->
   sent_header (w x') "Cache-Control" =
     if 0 <? remainingTTL
     then Some ["public, max-age=" ++ FormatInt (cache.SecondsInt remainingTTL)]
     else rw_header (w x) !! CanonicalHeaderKey "Cache-Control").
Proof.
  intros Hfresh. cbv zeta.
  destruct (w_serveCachedResponse config clock r reader meta x) as (h & Hw & Hh).
  assert (Hsent : rw_sent (rw_WriteHeader (StatusCode meta) (rw_set_header h (w x)))
                  = Some (StatusCode meta, h)).
  { unfold rw_WriteHeader, rw_set_header. cbn [rw_sent rw_header]. by rewrite Hfresh. }
  destruct (copy_to_writer_after_header reader _ _ Hsent) as (Hs & Hb).
  rewrite rw_body_WriteHeader in Hb. cbn [rw_set_header rw_body] in Hb.
  unfold sent_status, sent_header. rewrite Hw, Hs. cbn [fmap option_fmap option_map fst].
  split; [reflexivity|]. split; [exact Hb|].
  repeat split; intros Hu; try intros Hne; rewrite (Hh _ Hu); cbv zeta;
    repeat match goal with
           | |- context [negb (String.eqb ?a ?b)] =>
               destruct (String.eqb_spec a b); [try contradiction|]; cbn [negb]
           | |- context [0 <? ?a] => destruct (0 <? a)
           end;
    repeat first [ rewrite lookup_Header_Set_eq
                 | rewrite lookup_Header_Set_ne by (vm_compute; discriminate) ];
    reflexivity.
Qed.



Lemma untouched_empty (meta : Meta) (name : string) :
  Headers meta = ∅ -> untouched meta name.
Proof. intros He k v. rewrite He. by rewrite lookup_empty. Qed.


End Requests.



(** When the clock has moved on between the two reads of one request,
    the scenario's [max-age] is one less. *)
Example later_second_read :
  sent_header
    (w (serveCachedResponse (config_with true) (mkClock 0 0 1 0)
          (get_request "/path" EmptyString) (NopCloser_Buffer [x48; x69])
          (hit_meta 0) empty_world))
    "Cache-Control" = Some ["public, max-age=3476"].
Proof. reflexivity. Qed.


(** A [POST] request through an enabled middleware. *)
Lemma not_cacheable_bypasses_witness :
  let x' := ServeHTTP (config_with true) hello_handler (clock_at 0) post_request empty_world in
  w x' = serve hello_handler post_request (w empty_world) /\
  calls x' = [] /\
  Bypasses (stats x') = 1.
Proof.
  cbv zeta.
  destruct (@not_cacheable_bypasses unit (list OptimizationJob) VarnishStore ListQueue
              (config_with true) hello_handler (clock_at 0)
              post_request empty_world eq_refl)
    as (_ & Hw & Hc & _ & _ & _ & _ & Hb & _).
  split; [exact Hw|]. split; [exact Hc|].
  apply Hb; [reflexivity|]. unfold minInt64, maxInt64. simpl. lia.
Defined.

(** C2 as stated fails for a disabled middleware: the [POST] request
    is not cacheable, it is delegated, and [bypasses] stays at 0. *)
Lemma disabled_does_not_count :
  cache.IsCacheable post_request = false /\
  Enabled (config_with false) = false /\
  Bypasses (stats (ServeHTTP (config_with false) hello_handler (clock_at 0)
                     post_request empty_world)) = 0 /\
  Bypasses (stats empty_world) = 0.
Proof. repeat split. Qed.

End middleware_facts.

(** ** Filesystem store *)

Module fsstore_facts.
Import cache cache_spec.

Example entries_at_sharded_paths :
  getDataPath zoraxy_store key_a
    = Some "/var/cache/zoraxy/fd/f1/fdf171b9a30bf367a318e9eda1b8e7895a2ddc215455097c0408b7ab3239716c.data" /\
  getMetaPath zoraxy_store key_b
    = Some "/var/cache/zoraxy/01/8e/018e8152666fc7de427a557453544de63dd103e1433908357006dd3ead534928.meta".
Proof. split; vm_compute; reflexivity. Qed.

(** What the walk function does at a file that is still there: the
    entry is deleted exactly when the path of the file ends in [.data]
    and contains the prefix. *)
Lemma purge_visit_matches_path (fs : FSStore) (prefix path : string) (files : Files) :
  is_Some (files !! path) ->
  purge_visit fs prefix (Some files) path =
    if strings.HasSuffix path ".data" && strings.Contains path prefix
    then Delete fs (filepath_Base (strings.TrimSuffix path ".data")) files
    else Some files.
Proof.
  intros [c Hc]. unfold purge_visit. cbn. rewrite Hc.
  destruct (strings.HasSuffix path ".data"); cbn; [|reflexivity].
  by destruct (strings.Contains path prefix).
Qed.

(** C9: [PurgePrefix] compares the prefix with the path of the data
    file, not with the key.  With the store rooted at
    [/var/cache/zoraxy], purging the prefix [zoraxy], which neither
    key contains, deletes both entries; purging [fd/f1], which is no
    part of any key either, deletes the entry stored under that
    shard directory. *)
Theorem PurgePrefix_matches_paths :
  strings.Contains key_a "zoraxy" = false /\
  strings.Contains key_b "zoraxy" = false /\
  PurgePrefix zoraxy_store "zoraxy" two_entries = Some ∅ /\
  strings.Contains key_a "fd/f1" = false /\
  PurgePrefix zoraxy_store "fd/f1" two_entries = Some entry_b_only.
Proof.
  repeat split; apply (bool_decide_eq_true_1 _); vm_compute; reflexivity.
Qed.

(** A prefix of a key does select the entry, since the key is part of
    the path. *)
Example PurgePrefix_key_prefix :
  PurgePrefix zoraxy_store "018e81" two_entries = Some entry_a_only.
Proof. apply (bool_decide_eq_true_1 _). vm_compute. reflexivity. Qed.

End fsstore_facts.

(** ** Cache keys *)

Module key_facts.
Import cache http cache_spec middleware_spec.

(** *** The order of [sort.Strings] *)

Lemma compare_not_Gt_trans (a b c : string) :
  String.compare a b <> Gt -> String.compare b c <> Gt -> String.compare a c <> Gt.
Proof.
  revert b c. induction a as [|x a IH]; intros [|y b] [|z c]; simpl; try congruence.
  unfold Ascii.compare.
  destruct (N.compare_spec (N_of_ascii x) (N_of_ascii y)),
           (N.compare_spec (N_of_ascii y) (N_of_ascii z)),
           (N.compare_spec (N_of_ascii x) (N_of_ascii z));
    try congruence; try lia.
  apply IH.
Qed.

Lemma str_le_transitive : Transitive str_le.
Proof.
  intros a b c. unfold str_le, String.leb. intros Hab Hbc.
  pose proof (compare_not_Gt_trans a b c) as H.
  destruct (String.compare a b), (String.compare b c), (String.compare a c);
    try discriminate; try reflexivity; exfalso; apply H; congruence.
Qed.

Lemma str_le_total : Total str_le.
Proof. intros a b. apply String.leb_total. Qed.

Lemma str_le_antisym : AntiSymm (=) str_le.
Proof. intros a b. apply String.leb_antisym. Qed.

Lemma sort_Strings_Permutation (l1 l2 : list string) :
  l1 ≡ₚ l2 -> sort_Strings l1 = sort_Strings l2.
Proof.
  intros Hp. unfold sort_Strings.
  apply (@Sorted_unique _ str_le str_le_transitive str_le_antisym).
  - apply (@Sorted_merge_sort _ str_le _ str_le_total).
  - apply (@Sorted_merge_sort _ str_le _ str_le_total).
  - by rewrite !merge_sort_Permutation.
Qed.

(** *** The parsed query *)

Lemma lookup_add_values (ps : list (string * string)) (m : gmap string (list string))
    (k : string) :
  foldl url.add_value m ps !! k =
    match values_of k ps with
    | [] => m !! k
    | vs => Some (default [] (m !! k) ++ vs)%list
    end.
Proof.
  revert m. induction ps as [|[k' v] ps IH]; intros m; [reflexivity|].
  cbn [foldl]. rewrite IH. unfold values_of, url.add_value. cbn [fst snd].
  rewrite filter_cons. cbn [fst].
  destruct (decide (k' = k)) as [->|Hne].
  - rewrite lookup_insert_eq. cbn [fmap list_fmap snd default].
    destruct ((filter (fun kv => fst kv = k) ps).*2) as [|v' vs].
    + reflexivity.
    + unfold id. by rewrite <- app_assoc.
  - by rewrite lookup_insert_ne.
Qed.

Lemma lookup_Query (ps : list (string * string)) (k : string) :
  foldl url.add_value ∅ ps !! k =
    match values_of k ps with [] => None | vs => Some vs end.
Proof. rewrite lookup_add_values, lookup_empty. reflexivity. Qed.

Lemma default_lookup_Query (ps : list (string * string)) (k : string) :
  default [] (foldl url.add_value ∅ ps !! k) = values_of k ps.
Proof. rewrite lookup_Query. by destruct (values_of k ps). Qed.

Lemma values_of_Permutation (k : string) (ps ps' : list (string * string)) :
  ps ≡ₚ ps' -> values_of k ps ≡ₚ values_of k ps'.
Proof. intros Hp. unfold values_of. by rewrite Hp. Qed.

Lemma Query_keys_Permutation (ps ps' : list (string * string)) :
  ps ≡ₚ ps' ->
  (map_to_list (foldl url.add_value ∅ ps)).*1 ≡ₚ (map_to_list (foldl url.add_value ∅ ps')).*1.
Proof.
  intros Hp. apply NoDup_Permutation; try apply NoDup_fst_map_to_list.
  assert (G : forall qs qs' : list (string * string), qs ≡ₚ qs' ->
              forall k, k ∈ (map_to_list (foldl url.add_value ∅ qs)).*1 ->
                        k ∈ (map_to_list (foldl url.add_value ∅ qs')).*1).
  { intros qs qs' Hq k Hin.
    apply list_elem_of_fmap in Hin as ([k0 vs] & -> & Hin). cbn [fst].
    apply elem_of_map_to_list in Hin. rewrite lookup_Query in Hin.
    pose proof (values_of_Permutation k0 qs qs' Hq) as Hv.
    destruct (values_of k0 qs) as [|v0 vs0] eqn:E; [discriminate|].
    destruct (values_of k0 qs') as [|v1 vs1] eqn:E'.
    { by apply Permutation_nil_r in Hv. }
    apply list_elem_of_fmap. exists (k0, v1 :: vs1). split; [reflexivity|].
    apply elem_of_map_to_list. by rewrite lookup_Query, E'. }
  intros k. split; apply G; [done | by symmetry].
Qed.

(** [normalizeQuery] sees the multiset of pairs only. *)
Lemma normalizeQuery_Permutation (ps ps' : list (string * string)) :
  ps ≡ₚ ps' ->
  normalizeQuery (foldl url.add_value ∅ ps) = normalizeQuery (foldl url.add_value ∅ ps').
Proof.
  intros Hp. unfold normalizeQuery.
  pose proof (Query_keys_Permutation ps ps' Hp) as Hk.
  assert (Hsize : size (foldl url.add_value ∅ ps) = size (foldl url.add_value ∅ ps')).
  { rewrite <- !length_map_to_list.
    rewrite <- (length_fmap fst (map_to_list (foldl url.add_value ∅ ps))).
    rewrite <- (length_fmap fst (map_to_list (foldl url.add_value ∅ ps'))).
    by rewrite Hk. }
  rewrite Hsize. destruct (decide (size (foldl url.add_value ∅ ps') = 0%nat)); [reflexivity|].
  f_equal.
  change (map fst (map_to_list (foldl url.add_value ∅ ps)))
    with ((map_to_list (foldl url.add_value ∅ ps)).*1).
  change (map fst (map_to_list (foldl url.add_value ∅ ps')))
    with ((map_to_list (foldl url.add_value ∅ ps')).*1).
  rewrite (sort_Strings_Permutation _ _ Hk).
  apply flat_map_ext. intros k.
  rewrite !default_lookup_Query.
  by rewrite (sort_Strings_Permutation _ _ (values_of_Permutation k ps ps' Hp)).
Qed.

(** *** The shape of a key *)

Lemma digit_is_lower_hex (n : Z) : hex.is_lower_hex (hex.digit n) = true.
Proof.
  unfold hex.digit.
  assert (Hn : (Z.to_nat (n mod 16) < 16)%nat).
  { pose proof (Z.mod_pos_bound n 16). lia. }
  revert Hn. generalize (Z.to_nat (n mod 16)). intros m Hm.
  do 16 (destruct m as [|m]; [reflexivity|]). lia.
Qed.

Lemma EncodeToString_shape (bs : list Z) :
  String.length (hex.EncodeToString bs) = (2 * length bs)%nat /\
  forallb hex.is_lower_hex (list_ascii_of_string (hex.EncodeToString bs)) = true.
Proof.
  induction bs as [|b bs [IHl IHc]]; [done|].
  cbn [hex.EncodeToString String.length list_ascii_of_string forallb length].
  rewrite !digit_is_lower_hex, IHl, IHc. split; [lia|reflexivity].
Qed.

Lemma Sum256_length (s : string) : length (sha256.Sum256 s) = 32%nat.
Proof. unfold sha256.Sum256. reflexivity. Qed.

Lemma GenerateKey_shape (kg : KeyGenerator) (r : Request) :
  lower_hex_key (GenerateKey kg r).
Proof.
  unfold lower_hex_key, GenerateKey.
  destruct (EncodeToString_shape (sha256.Sum256 (keyString kg r))) as [Hl Hc].
  by rewrite Hl, Hc, Sum256_length.
Qed.

(** *** Determinism *)

Lemma vary_parts_agree (kg : KeyGenerator) (r1 r2 : Request) :
  Forall (fun header => Header_Get (Header_ r1) header = Header_Get (Header_ r2) header)
         (VaryHeaders kg) ->
  vary_parts kg r1 = vary_parts kg r2.
Proof.
  unfold vary_parts. induction 1 as [|h hs Hh _ IH]; [reflexivity|].
  cbn [flat_map]. by rewrite Hh, IH.
Qed.

Lemma GenerateKey_agree (kg : KeyGenerator) (r1 r2 : Request) :
  agree kg r1 r2 ->
  same_query_presence r1 r2 ->
  GenerateKey kg r1 = GenerateKey kg r2.
Proof.
  intros (Htls & Hhost & Hpath & Hq & Hv) Hpres.
  unfold GenerateKey, keyString, keyParts.
  rewrite Htls, Hhost, Hpath, (vary_parts_agree kg r1 r2 Hv).
  assert (Hempty : String.eqb (URL_RawQuery r1) EmptyString
                   = String.eqb (URL_RawQuery r2) EmptyString).
  { destruct (String.eqb_spec (URL_RawQuery r1) EmptyString) as [E1|E1],
             (String.eqb_spec (URL_RawQuery r2) EmptyString) as [E2|E2];
      try reflexivity; exfalso; [apply E2 | apply E1]; by apply Hpres. }
  rewrite Hempty. unfold url.Query.
  by rewrite (normalizeQuery_Permutation _ _ Hq).
Qed.

Lemma Forall_refl_Header_Get (r : Request) (q q' : string) (hs : list string) :
  Forall (fun header => Header_Get (Header_ (with_query r q)) header
                        = Header_Get (Header_ (with_query r q')) header) hs.
Proof. induction hs; by constructor. Qed.

(** C1, as the key generator behaves: two requests that agree on
    scheme, host, path, the multiset of query pairs and every
    configured Vary header, and of which both or neither carry a raw
    query, get the same key; every key is 64 lower-case hexadecimal
    characters; and a request keeps its key when its query [a=1&b=2]
    is permuted to [b=2&a=1]. *)
Theorem GenerateKey_deterministic (kg : KeyGenerator) (r1 r2 : Request) :
  agree kg r1 r2 ->
  same_query_presence r1 r2 ->
  GenerateKey kg r1 = GenerateKey kg r2 /\
  lower_hex_key (GenerateKey kg r1) /\
  lower_hex_key (GenerateKey kg r2) /\
  GenerateKey kg (with_query r1 "a=1&b=2") = GenerateKey kg (with_query r1 "b=2&a=1").
Proof.
  intros Hagree Hpres.
  split; [by apply GenerateKey_agree|].
  split; [apply GenerateKey_shape|]. split; [apply GenerateKey_shape|].
  apply GenerateKey_agree.
  - repeat split; try reflexivity.
    + apply perm_swap.
    + apply Forall_refl_Header_Get.
  - split; discriminate.
Qed.

(** The two requests of the scenario, [?a=1&b=2] and [?b=2&a=1]. *)
Lemma GenerateKey_deterministic_witness :
  GenerateKey NewKeyGenerator (get_request "/path" "a=1&b=2")
    = GenerateKey NewKeyGenerator (get_request "/path" "b=2&a=1") /\
  lower_hex_key (GenerateKey NewKeyGenerator (get_request "/path" "a=1&b=2")) /\
  lower_hex_key (GenerateKey NewKeyGenerator (get_request "/path" "b=2&a=1")) /\
  GenerateKey NewKeyGenerator (with_query (get_request "/path" "a=1&b=2") "a=1&b=2")
    = GenerateKey NewKeyGenerator (with_query (get_request "/path" "a=1&b=2") "b=2&a=1").
Proof.
  apply (GenerateKey_deterministic NewKeyGenerator
           (get_request "/path" "a=1&b=2") (get_request "/path" "b=2&a=1")).
  - repeat split; try reflexivity.
    + apply perm_swap.
    + repeat constructor.
  - split; discriminate.
Defined.

(** C1 as stated fails: [/path] and [/path?&] agree on scheme, host,
    path, the (empty) multiset of query pairs and the Vary headers,
    and get different keys, because a raw query that is not empty adds
    a component to the fingerprint even when it holds no pair. *)
Lemma empty_query_changes_key :
  agree NewKeyGenerator (get_request "/path" EmptyString) (get_request "/path" "&") /\
  keyString NewKeyGenerator (get_request "/path" EmptyString) = "http|example.com|/path" /\
  keyString NewKeyGenerator (get_request "/path" "&") = "http|example.com|/path|" /\
  GenerateKey NewKeyGenerator (get_request "/path" EmptyString)
    = "fdf171b9a30bf367a318e9eda1b8e7895a2ddc215455097c0408b7ab3239716c" /\
  GenerateKey NewKeyGenerator (get_request "/path" "&")
    = "018e8152666fc7de427a557453544de63dd103e1433908357006dd3ead534928" /\
  GenerateKey NewKeyGenerator (get_request "/path" EmptyString)
    <> GenerateKey NewKeyGenerator (get_request "/path" "&").
Proof.
  assert (K1 : GenerateKey NewKeyGenerator (get_request "/path" EmptyString)
               = "fdf171b9a30bf367a318e9eda1b8e7895a2ddc215455097c0408b7ab3239716c")
    by (vm_compute; reflexivity).
  assert (K2 : GenerateKey NewKeyGenerator (get_request "/path" "&")
               = "018e8152666fc7de427a557453544de63dd103e1433908357006dd3ead534928")
    by (vm_compute; reflexivity).
  split.
  { repeat split; try reflexivity. repeat constructor. }
  split; [vm_compute; reflexivity|]. split; [vm_compute; reflexivity|].
  split; [exact K1|]. split; [exact K2|].
  rewrite K1, K2. discriminate.
Qed.

(** The keys of the scenario and of the tests. *)
Example key_of_scenario :
  GenerateKey NewKeyGenerator (get_request "/path" "b=2&a=1")
    = "64ecd3cbcc0a6829071937cbc87156d08b7be57af2329aa35072f052aa7e071c".
Proof. vm_compute. reflexivity. Qed.

Example sha256_abc :
  hex.EncodeToString (sha256.Sum256 "abc")
    = "ba7816bf8f01cfea414140de5dae2223b00361a396177a9cb410ff61f20015ad".
Proof. vm_compute. reflexivity. Qed.

Example sha256_two_blocks :
  hex.EncodeToString
    (sha256.Sum256
       ("abcdbcdecdefdefgefghfghighijhijkijkljklmklmnlmnomnopnopq" ++
        "abcdbcdecdefdefgefghfghighijhijkijkljklmklmnlmnomnopnopq"))
    = "59f109d9533b2b70e7c3b814a2bd218f78ea5d3714455bc67987cf0d664399cf".
Proof. vm_compute. reflexivity. Qed.

(** The query parser keeps pairs in order, decodes escapes, and skips
    empty pieces, pieces with a bad escape and pieces with a
    semicolon. *)
Example query_pairs_example :
  url.query_pairs "a=1&b=2&&c&d=%41+x&bad=%zz&e;f=1"
    = [("a", "1"); ("b", "2"); ("c", EmptyString); ("d", "A x")].
Proof. vm_compute. reflexivity. Qed.

Example normalizeQuery_example :
  normalizeQuery (url.Query "b=2&a=1&a=0&c=x y") = "a=0&a=1&b=2&c=x+y".
Proof. vm_compute. reflexivity. Qed.

Example canonical_header_keys :
  CanonicalHeaderKey "accept-encoding" = "Accept-Encoding" /\
  CanonicalHeaderKey "ETag" = "Etag" /\
  CanonicalHeaderKey "x cache" = "x cache".
Proof. repeat split. Qed.

(** The Vary header separates keys, as in the tests. *)
Example vary_header_changes_key :
  GenerateKey NewKeyGenerator
    (mkRequest "GET" false "example.com" "/path" EmptyString
               (Header_Set ∅ "Accept-Encoding" "gzip") (fun _ => false))
    = "3d850ec539f38b1aa66c5eec1c7e8f21b8552735de72839c3779ec85b0023898" /\
  GenerateKey NewKeyGenerator
    (mkRequest "GET" false "example.com" "/path" EmptyString
               (Header_Set ∅ "Accept-Encoding" "br") (fun _ => false))
    = "21dc6b1e7f6eda618961c9c1a4966103b3602edec34c5aa5ff814799253565fa".
Proof. split; vm_compute; reflexivity. Qed.

End key_facts.

(** * Further properties of the code *)

(** ** Strings *)

Module string_facts.

Lemma append_cons (x : ascii) (a b : string) : String x a ++ b = String x (a ++ b).
Proof. reflexivity. Qed.

Lemma append_assoc (a b c : string) : (a ++ b) ++ c = a ++ (b ++ c).
Proof. induction a as [|x a IH]; [reflexivity|]. rewrite !append_cons. simpl. by f_equal. Qed.


Lemma length_append (a b : string) :
  String.length (a ++ b) = (String.length a + String.length b)%nat.
Proof. induction a as [|x a IH]; [reflexivity|]. rewrite !append_cons. simpl. by f_equal. Qed.

Lemma append_inj_l (s a b : string) : s ++ a = s ++ b -> a = b.
Proof. induction s as [|x s IH]; [done|]. rewrite !append_cons. intros [= H]. auto. Qed.





(** *** Prefixes, suffixes and substrings *)

Lemma substring_all (s : string) : String.substring 0 (String.length s) s = s.
Proof. induction s as [|c s IH]; [reflexivity|]. cbn. by rewrite IH. Qed.

Lemma prefix_split (p s : string) :
  String.prefix p s = true ->
  s = p ++ String.substring (String.length p) (String.length s - String.length p) s.
Proof.
  revert s. induction p as [|a p IH]; intros s H.
  - cbn [String.length]. rewrite Nat.sub_0_r, substring_all. reflexivity.
  - destruct s as [|b s]; [discriminate|]. cbn [String.prefix] in H.
    destruct (ascii_dec a b) as [->|]; [|discriminate].
    rewrite append_cons. cbn [String.length String.substring]. f_equal.
    replace (S (String.length s) - S (String.length p))%nat
      with (String.length s - String.length p)%nat by lia.
    by apply IH.
Qed.

Lemma prefix_append (p rest : string) : String.prefix p (p ++ rest) = true.
Proof.
  induction p as [|a p IH]; [by destruct rest|].
  rewrite append_cons. cbn [String.prefix]. by destruct (ascii_dec a a).
Qed.

Lemma prefix_trans (q p s : string) :
  String.prefix q p = true -> String.prefix p s = true -> String.prefix q s = true.
Proof.
  intros Hq Hp. rewrite (prefix_split _ _ Hp), (prefix_split _ _ Hq), append_assoc.
  apply prefix_append.
Qed.







(** *** Splitting at a separator *)

Lemma split_not_nil (sep : ascii) (s : string) : url.split sep s <> [].
Proof.
  destruct s as [|c s]; [discriminate|]. cbn [url.split].
  destruct (Ascii.eqb c sep); [discriminate|]. by destruct (url.split sep s).
Qed.

Lemma split_append (sep : ascii) (a b : string) :
  url.split sep (a ++ String sep b) = (url.split sep a ++ url.split sep b)%list.
Proof.
  induction a as [|c a IH].
  - change ("" ++ String sep b) with (String sep b). cbn [url.split].
    by rewrite Ascii.eqb_refl.
  - rewrite append_cons. cbn [url.split]. rewrite IH.
    destruct (Ascii.eqb c sep); [reflexivity|].
    pose proof (split_not_nil sep a). by destruct (url.split sep a).
Qed.

Lemma split_no_sep (sep : ascii) (s : string) :
  strings.IndexByte s sep = None -> url.split sep s = [s].
Proof.
  induction s as [|c s IH]; [reflexivity|].
  cbn [strings.IndexByte url.split]. destruct (Ascii.eqb c sep); [discriminate|].
  intros H. rewrite IH; [reflexivity|]. by destruct (strings.IndexByte s sep).
Qed.

End string_facts.

(** ** The filesystem store: paths, [Get], [Put], [Delete] *)

Module fs_facts.
Import cache optimizer fsstore string_facts store_spec.

Lemma filepath_Join_two (a b : string) :
  b <> "" ->
  filepath_Join [a; b] = (if String.eqb a "" then "" else a ++ "/") ++ b.
Proof.
  intros Hb. unfold filepath_Join.
  destruct (String.eqb_spec a "") as [->|Ha].
  - rewrite filter_cons_False by (intros H; by apply H).
    rewrite filter_cons_True by done. reflexivity.
  - rewrite filter_cons_True by done. rewrite filter_cons_True by done.
    cbn. symmetry. apply append_assoc.
Qed.

Lemma append_not_empty (a b : string) : b <> "" -> a ++ b <> "".
Proof. destruct a; [done|]. rewrite append_cons. discriminate. Qed.

(** The directory of an entry: what [getShardedPath] puts before
    [key+suffix]. *)
Lemma getShardedPath_stem (fs : FSStore) (key suffix p : string) :
  getShardedPath fs key suffix = Some p ->
  exists dir,
    forall suffix', suffix' <> "" ->
      getShardedPath fs key suffix' = Some (dir ++ key ++ suffix').
Proof.
  unfold getShardedPath. destruct (decide (shardDepth fs = 0%nat)) as [Hd|Hd].
  - intros _. eexists. intros suffix' Hs.
    rewrite filepath_Join_two by (by apply append_not_empty). reflexivity.
  - destruct (shardParts (shardDepth fs) key) as [parts|]; [|discriminate].
    intros _. eexists. intros suffix' Hs. cbn [mbind option_bind].
    rewrite filepath_Join_two by (by apply append_not_empty). reflexivity.
Qed.


Lemma entry_paths (fs : FSStore) (key dataPath : string) :
  getDataPath fs key = Some dataPath ->
  exists stem,
    dataPath = stem ++ ".data" /\
    getDataPath fs key = Some (stem ++ ".data") /\
    getMetaPath fs key = Some (stem ++ ".meta").
Proof.
  intros H. destruct (getShardedPath_stem _ _ _ _ H) as [dir Hdir].
  exists (dir ++ key). unfold getDataPath, getMetaPath in *.
  rewrite !append_assoc.
  pose proof (Hdir ".data" ltac:(done)) as H1.
  pose proof (Hdir ".meta" ltac:(done)) as H2.
  repeat split; congruence.
Qed.

(** The four paths of an entry differ. *)
Ltac path_ne :=
  let H := fresh in
  intros H; rewrite ?append_assoc in H; apply append_inj_l in H;
  vm_compute in H; discriminate H.

Ltac lookups :=
  repeat first
    [ rewrite lookup_insert_eq
    | rewrite lookup_delete_eq
    | rewrite lookup_insert_ne by (first [done | path_ne | (apply not_eq_sym; done)])
    | rewrite lookup_delete_ne by (first [done | path_ne | (apply not_eq_sym; done)]) ].

Ltac lookups_in H :=
  repeat first
    [ rewrite lookup_insert_eq in H
    | rewrite lookup_delete_eq in H
    | rewrite lookup_insert_ne in H by (first [done | path_ne | (apply not_eq_sym; done)])
    | rewrite lookup_delete_ne in H by (first [done | path_ne | (apply not_eq_sym; done)]) ].

Ltac norm_hyps :=
  repeat match goal with
         | H : _ !! _ = _ |- _ => progress (lookups_in H)
         end;
  simplify_eq.

Ltac run_Put H :=
  unfold Put, writeMeta, os_Rename, io_Copy in H;
  repeat match type of H with
         | context [getDataPath ?fs ?key] =>
             match goal with
             | Hd : getDataPath fs key = Some _ |- _ => rewrite Hd in H
             end
         | context [getMetaPath ?fs ?key] =>
             match goal with
             | Hm : getMetaPath fs key = Some _ |- _ => rewrite Hm in H
             end
         end;
  cbn [mbind option_bind] in H;
  repeat case_match; simplify_eq; norm_hyps.


Lemma Put_ok (J : JSON) (fs : FSStore) (F : Faults) (key : string) (body : Reader)
    (meta meta' : Meta) (files files' : Files) (stem : string) :
  getDataPath fs key = Some (stem ++ ".data") ->
  getMetaPath fs key = Some (stem ++ ".meta") ->
  Put J fs F key body meta files = Some (None, meta', files') ->
  rd_fault body = false /\
  meta' = set_Size meta (Z.of_nat (length (rd_pending body))) /\
  (exists b, Marshal J meta' = Some b /\ files' !! (stem ++ ".meta") = Some b) /\
  files' !! (stem ++ ".data") = Some (rd_pending body) /\
  files' !! ((stem ++ ".data") ++ ".tmp") = None /\
  files' !! ((stem ++ ".meta") ++ ".tmp") = None.
Proof.
  intros Hd Hm HP. run_Put HP.
  match goal with H : _ || _ = false |- _ => apply orb_false_elim in H as [Hf _] end.
  repeat split; [done| |lookups; reflexivity..].
  eexists. split; [eassumption|]. lookups. reflexivity.
Qed.

Lemma Put_err (J : JSON) (fs : FSStore) (F : Faults) (key : string) (body : Reader)
    (meta meta' : Meta) (files files' : Files) (e stem : string) :
  getDataPath fs key = Some (stem ++ ".data") ->
  getMetaPath fs key = Some (stem ++ ".meta") ->
  Put J fs F key body meta files = Some (Some e, meta', files') ->
  files' !! (stem ++ ".data") = files !! (stem ++ ".data") /\
  (files' = files \/ files' !! ((stem ++ ".data") ++ ".tmp") = None).
Proof.
  intros Hd Hm HP. run_Put HP;
    (split; [lookups; reflexivity | first [by left | right; lookups; reflexivity]]).
Qed.

Lemma Put_paths (J : JSON) (fs : FSStore) (F : Faults) (key : string) (body : Reader)
    (meta : Meta) (files : Files) r :
  Put J fs F key body meta files = Some r ->
  exists stem,
    getDataPath fs key = Some (stem ++ ".data") /\
    getMetaPath fs key = Some (stem ++ ".meta").
Proof.
  unfold Put. destruct (getDataPath fs key) as [dp|] eqn:Hd; [|discriminate].
  intros _. destruct (entry_paths _ _ _ Hd) as (stem & _ & H1 & H2).
  exists stem. split; congruence.
Qed.

Lemma Get_at (J : JSON) (fs : FSStore) (now : Z) (key stem : string) (files : Files) :
  getDataPath fs key = Some (stem ++ ".data") ->
  getMetaPath fs key = Some (stem ++ ".meta") ->
  Get J fs now key files =
    match files !! (stem ++ ".data") with
    | None => Some (Ok None, files)
    | Some content =>
        match readMeta J (stem ++ ".meta") files with
        | Err _ => Some (Err "failed to read metadata", files)
        | Ok meta =>
            if IsExpired now meta
            then Some (Ok None, delete (stem ++ ".meta") (delete (stem ++ ".data") files))
            else Some (Ok (Some (mkReader content false true, meta)), files)
        end
    end.
Proof.
  intros Hd Hm. unfold Get, Delete. rewrite Hd, Hm. cbn [mbind option_bind].
  repeat case_match; reflexivity.
Qed.

(** X1: What [Put] has stored, [Get] returns: the bytes the body
    delivered, and the metadata with [Size] set to their number.  (The
    metadata file must survive [encoding/json], and the entry must not
    be expired at the time of the [Get].) *)
Theorem Put_Get_round_trip (J : JSON) (fs : FSStore) (F : Faults) (key : string)
    (body : Reader) (meta meta' : Meta) (files files' : Files) (now : Z) :
  Put J fs F key body meta files = Some (None, meta', files') ->
  (forall b, Marshal J meta' = Some b -> Unmarshal J b = Some meta') ->
  IsExpired now meta' = false ->
  meta' = set_Size meta (Z.of_nat (length (rd_pending body))) /\
  Get J fs now key files'
    = Some (Ok (Some (mkReader (rd_pending body) false true, meta')), files').
Proof.
  intros HP HJ Hexp. destruct (Put_paths _ _ _ _ _ _ _ _ HP) as (stem & Hd & Hm).
  destruct (Put_ok _ _ _ _ _ _ _ _ _ _ Hd Hm HP)
    as (_ & Hmeta & (b & Hb & Hfm) & Hfd & _).
  split; [exact Hmeta|].
  rewrite (Get_at _ _ _ _ _ _ Hd Hm), Hfd. unfold readMeta.
  rewrite Hfm, (HJ _ Hb), Hexp. reflexivity.
Qed.

Lemma Put_Get_round_trip_witness :
  Get (unary_json text_meta) flat_store 0 "k1" entry_k1
    = Some (Ok (Some (mkReader [x48; x69] false true, set_Size text_meta 2)), entry_k1).
Proof.
  apply (Put_Get_round_trip (unary_json text_meta) flat_store no_faults "k1"
           (bytes_NewReader [x48; x69]) text_meta (set_Size text_meta 2) ∅).
  - apply (bool_decide_eq_true_1 _). vm_compute. reflexivity.
  - intros b [= <-]. reflexivity.
  - reflexivity.
Defined.

(** X2: A [Put] that returns an error has left the data file of the key
    as it was, so that a reader never sees a partly written body; if
    the key had no data file, a [Get] after the failed [Put] still
    reports a miss. *)
Theorem failed_Put_keeps_data_file (J : JSON) (fs : FSStore) (F : Faults) (key : string)
    (body : Reader) (meta meta' : Meta) (files files' : Files) (e dataPath : string)
    (now : Z) :
  Put J fs F key body meta files = Some (Some e, meta', files') ->
  getDataPath fs key = Some dataPath ->
  files' !! dataPath = files !! dataPath /\
  (files !! dataPath = None -> Get J fs now key files' = Some (Ok None, files')).
Proof.
  intros HP Hdp. destruct (Put_paths _ _ _ _ _ _ _ _ HP) as (stem & Hd & Hm).
  assert (dataPath = stem ++ ".data") as -> by congruence.
  destruct (Put_err _ _ _ _ _ _ _ _ _ _ _ Hd Hm HP) as (Hsame & _).
  split; [exact Hsame|]. intros Hnone.
  rewrite (Get_at _ _ _ _ _ _ Hd Hm), Hsame, Hnone. reflexivity.
Qed.

Lemma failed_Put_keeps_data_file_witness :
  entry_k1_with_tmp !! "k1.data" = entry_k1 !! "k1.data".
Proof.
  apply (failed_Put_keeps_data_file (unary_json text_meta) flat_store meta_rename_fails "k1"
           (bytes_NewReader [x41]) text_meta (set_Size text_meta 1)
           entry_k1 entry_k1_with_tmp "failed to write metadata" "k1.data" 0).
  - apply (bool_decide_eq_true_1 _). vm_compute. reflexivity.
  - reflexivity.
Defined.

(** X3: [Put] writes the metadata file before it renames the data file
    into place.  When that last rename fails over an existing entry,
    the call returns an error and the entry is left with the new
    metadata beside the old body: the next [Get] returns the old bytes
    with the [Size] of the new ones. *)
Theorem failed_rename_mixes_entry (J : JSON) (fs : FSStore) (key : string) (body : Reader)
    (meta : Meta) (files : Files) (old b : bytes) (dataPath : string) (now : Z) :
  getDataPath fs key = Some dataPath ->
  files !! dataPath = Some old ->
  rd_fault body = false ->
  Marshal J (set_Size meta (Z.of_nat (length (rd_pending body)))) = Some b ->
  Unmarshal J b = Some (set_Size meta (Z.of_nat (length (rd_pending body)))) ->
  IsExpired now (set_Size meta (Z.of_nat (length (rd_pending body)))) = false ->
  exists files',
    Put J fs last_rename_fails key body meta files
      = Some (Some "failed to rename temp file",
              set_Size meta (Z.of_nat (length (rd_pending body))), files') /\
    Get J fs now key files'
      = Some (Ok (Some (mkReader old false true,
                        set_Size meta (Z.of_nat (length (rd_pending body))))), files').
Proof.
  intros Hdp Hold Hf HM HU Hexp.
  destruct (entry_paths _ _ _ Hdp) as (stem & -> & Hd & Hm).
  eexists. split.
  - unfold Put, writeMeta, os_Rename, io_Copy. rewrite Hd, Hm, Hf, HM.
    cbn [mbind option_bind last_rename_fails MkdirAll_fails Create_fails Copy_fails
         WriteFile_fault Rename_meta_fails Rename_data_fails orb].
    rewrite lookup_insert_eq. reflexivity.
  - rewrite (Get_at _ _ _ _ _ _ Hd Hm). unfold readMeta. lookups.
    rewrite Hold, HU, Hexp. reflexivity.
Qed.

Lemma failed_rename_mixes_entry_witness :
  exists files',
    Put (unary_json text_meta) flat_store last_rename_fails "k1" (bytes_NewReader [x41; x42; x43])
        text_meta entry_k1
      = Some (Some "failed to rename temp file", set_Size text_meta 3, files') /\
    Get (unary_json text_meta) flat_store 0 "k1" files'
      = Some (Ok (Some (mkReader [x48; x69] false true, set_Size text_meta 3)), files').
Proof.
  apply (failed_rename_mixes_entry (unary_json text_meta) flat_store "k1"
           (bytes_NewReader [x41; x42; x43]) text_meta
           entry_k1
           [x48; x69] [x31; x31; x31] "k1.data" 0); reflexivity.
Defined.

(** X4: A [Get] that finds the entry expired removes both of its files and
    reports a miss, and so does every later [Get]. *)
Theorem Get_expired_removes_entry (J : JSON) (fs : FSStore) (now : Z) (key : string)
    (files : Files) (content : bytes) (meta : Meta) (dataPath metaPath : string) :
  getDataPath fs key = Some dataPath ->
  getMetaPath fs key = Some metaPath ->
  files !! dataPath = Some content ->
  readMeta J metaPath files = Ok meta ->
  IsExpired now meta = true ->
  exists files',
    Get J fs now key files = Some (Ok None, files') /\
    files' !! dataPath = None /\
    files' !! metaPath = None /\
    forall later, Get J fs later key files' = Some (Ok None, files').
Proof.
  intros Hdp Hmp Hc HM Hexp.
  destruct (entry_paths _ _ _ Hdp) as (stem & -> & Hd & Hm).
  assert (metaPath = stem ++ ".meta") as -> by congruence.
  eexists. split.
  - rewrite (Get_at _ _ _ _ _ _ Hd Hm), Hc, HM, Hexp. reflexivity.
  - split; [lookups; reflexivity|]. split; [lookups; reflexivity|].
    intros later. rewrite (Get_at _ _ _ _ _ _ Hd Hm). lookups. reflexivity.
Qed.

Lemma Get_expired_removes_entry_witness :
  exists files',
    Get (unary_json short_lived) flat_store 10 "k1" entry_k1
      = Some (Ok None, files') /\
    files' !! "k1.data" = None /\
    files' !! "k1.meta" = None /\
    forall later,
      Get (unary_json short_lived) flat_store later "k1" files' = Some (Ok None, files').
Proof.
  apply (Get_expired_removes_entry (unary_json short_lived) flat_store 10 "k1"
           entry_k1
           [x48; x69] (set_Size short_lived 2)).
  - reflexivity.
  - reflexivity.
  - reflexivity.
  - reflexivity.
  - reflexivity.
Defined.

(** X5: After [Delete] the key is a miss, and a second [Delete] succeeds
    and changes nothing. *)
Theorem Delete_then_Get (J : JSON) (fs : FSStore) (now : Z) (key : string)
    (files files' : Files) :
  Delete fs key files = Some files' ->
  Get J fs now key files' = Some (Ok None, files') /\
  Delete fs key files' = Some files'.
Proof.
  unfold Delete at 1. destruct (getDataPath fs key) as [dp|] eqn:Hdp; [|discriminate].
  destruct (entry_paths _ _ _ Hdp) as (stem & -> & Hd & Hm).
  rewrite Hm. cbn [mbind option_bind]. intros [= <-]. split.
  - rewrite (Get_at _ _ _ _ _ _ Hd Hm). lookups. reflexivity.
  - unfold Delete. rewrite Hd, Hm. cbn [mbind option_bind]. f_equal.
    apply map_eq. intros p.
    destruct (decide (p = stem ++ ".meta")) as [->|]; [by lookups|].
    destruct (decide (p = stem ++ ".data")) as [->|]; lookups; reflexivity.
Qed.

Lemma Delete_then_Get_witness :
  Get (unary_json text_meta) flat_store 0 "k1" ∅ = Some (Ok None, ∅) /\
  Delete flat_store "k1" ∅ = Some ∅.
Proof.
  apply (Delete_then_Get (unary_json text_meta) flat_store 0 "k1" entry_k1 ∅).
  apply (bool_decide_eq_true_1 _). vm_compute. reflexivity.
Defined.




(** *** Sharded paths *)

Lemma shardParts_None (depth : nat) (key : string) :
  shardParts depth key = None <->
  Nat.odd (String.length key) = true /\ (String.length key < 2 * depth)%nat.
Proof.
  revert key. induction depth as [|d IH]; intros key.
  - cbn. split; [discriminate | lia].
  - destruct key as [|a [|b rest]].
    + cbn. split; [discriminate | intros [? _]; discriminate].
    + cbn. split; [intros _; split; [reflexivity | lia] | reflexivity].
    + cbn [shardParts String.length]. rewrite fmap_None, IH.
      change (Nat.odd (S (S (String.length rest)))) with (Nat.odd (String.length rest)).
      split; intros [? ?]; split; try done; lia.
Qed.

Lemma getShardedPath_None (fs : FSStore) (key suffix : string) :
  getShardedPath fs key suffix = None <->
  Nat.odd (String.length key) = true /\ (String.length key < 2 * shardDepth fs)%nat.
Proof.
  unfold getShardedPath.
  destruct (decide (shardDepth fs = 0%nat)) as [Hd|Hd].
  - split; [discriminate | lia].
  - rewrite <- shardParts_None.
    destruct (shardParts (shardDepth fs) key); cbn; split; done.
Qed.

(** X7: [getShardedPath] slices the key two bytes at a time and panics
    exactly when the key has an odd number of bytes, fewer than twice
    the shard depth; [Delete] panics with it. *)
Theorem getShardedPath_panics_iff (fs : FSStore) (key suffix : string) (files : Files) :
  (getShardedPath fs key suffix = None <->
   Nat.odd (String.length key) = true /\ (String.length key < 2 * shardDepth fs)%nat) /\
  (Delete fs key files = None <->
   Nat.odd (String.length key) = true /\ (String.length key < 2 * shardDepth fs)%nat).
Proof.
  split; [apply getShardedPath_None|].
  rewrite <- (getShardedPath_None fs key ".data").
  unfold Delete, getDataPath, getMetaPath.
  destruct (getShardedPath fs key ".data") eqn:Hd; cbn.
  - destruct (getShardedPath fs key ".meta") eqn:Hm; cbn; [split; done|].
    apply getShardedPath_None in Hm. apply (getShardedPath_None fs key ".data") in Hm.
    congruence.
  - split; done.
Qed.

(** X8: A store made by [NewFSStore] has at most four shard levels, and
    every key the key generator produces has its paths there: the
    64 characters of the key are enough for the slices. *)
Theorem generated_keys_have_paths (kg : KeyGenerator) (r : http.Request)
    (root : string) (depth : Z) (fs : FSStore) :
  NewFSStore root depth false = Ok fs ->
  (shardDepth fs <= 4)%nat /\
  (0 <= depth <= 4 -> shardDepth fs = Z.to_nat depth) /\
  exists dir,
    forall suffix, suffix <> "" ->
      getShardedPath fs (GenerateKey kg r) suffix
      = Some (dir ++ GenerateKey kg r ++ suffix).
Proof.
  unfold NewFSStore. intros [= <-]. cbn [shardDepth].
  assert (Hle : (Z.to_nat (if ((depth <? 0) || (4 <? depth))%Z then 2%Z else depth) <= 4)%nat).
  { destruct (Z.ltb_spec depth 0), (Z.ltb_spec 4 depth); cbn [orb]; lia. }
  split; [exact Hle|]. split.
  { intros Hd. destruct (Z.ltb_spec depth 0), (Z.ltb_spec 4 depth); cbn [orb]; lia. }
  destruct (getShardedPath
              (mkFSStore root (Z.to_nat (if (depth <? 0) || (4 <? depth) then 2 else depth)))
              (GenerateKey kg r) ".data") as [p|] eqn:Hp.
  - exact (getShardedPath_stem _ _ _ _ Hp).
  - apply getShardedPath_None in Hp as [_ Hlt].
    destruct (key_facts.GenerateKey_shape kg r) as [Hlen _].
    rewrite Hlen in Hlt. cbn [shardDepth] in Hlt. lia.
Qed.

Lemma generated_keys_have_paths_witness :
  (shardDepth cache_spec.zoraxy_store <= 4)%nat /\
  (0 <= 7 <= 4 -> shardDepth cache_spec.zoraxy_store = Z.to_nat 7) /\
  exists dir,
    forall suffix, suffix <> "" ->
      getShardedPath cache_spec.zoraxy_store
        (GenerateKey NewKeyGenerator (middleware_spec.get_request "/path" "")) suffix
      = Some (dir ++ GenerateKey NewKeyGenerator (middleware_spec.get_request "/path" "")
                  ++ suffix).
Proof.
  apply (generated_keys_have_paths NewKeyGenerator (middleware_spec.get_request "/path" "")
           "/var/cache/zoraxy" 7 cache_spec.zoraxy_store).
  reflexivity.
Defined.

End fs_facts.

(** ** Readers, call by call *)

Module reader_facts.
Import goio.

Lemma take_drop_length {A : Type} (n : nat) (l : list A) :
  (take n l ++ drop (length (take n l)) l)%list = l.
Proof.
  rewrite length_take. destruct (Nat.le_ge_cases n (length l)).
  - rewrite Nat.min_l by done. apply take_drop.
  - rewrite Nat.min_r by done. rewrite take_ge, drop_ge by lia. apply app_nil_r.
Qed.

Lemma Copy_bytesReader (eof : error) (fuel : nat) (br : bytesReader) (written : bytes) :
  (length (data br) - pos br < fuel)%nat ->
  Copy (bytesReader_Read eof) fuel br written
  = Some ((written ++ drop (pos br) (data br))%list,
          if is_EOF eof then None else Some eof).
Proof.
  revert br written. induction fuel as [|fuel IH]; intros br written Hfuel; [lia|].
  cbn [Copy]. unfold bytesReader_Read at 1.
  destruct (Nat.leb_spec (length (data br)) (pos br)) as [Hend|Hmore].
  - rewrite drop_ge by lia. reflexivity.
  - set (n := (32 * 1024)%nat).
    assert (Hn : (0 < n)%nat) by (unfold n; lia).
    clearbody n.
    rewrite IH.
    + cbn [data pos]. rewrite <- app_assoc, <- drop_drop, take_drop_length.
      reflexivity.
    + cbn [data pos]. rewrite length_take, length_drop. lia.
Qed.

Lemma readAll_bytesReader (eof : error) (fuel : nat) (br : bytesReader) (buf : bytes) :
  (length (data br) - pos br < fuel)%nat ->
  cacheworker_jobs.readAll (bytesReader_Read eof) fuel br buf
  = Some ((buf ++ drop (pos br) (data br))%list,
          if String.eqb (Error eof) "EOF" then None else Some eof).
Proof.
  revert br buf. induction fuel as [|fuel IH]; intros br buf Hfuel; [lia|].
  cbn [cacheworker_jobs.readAll]. unfold bytesReader_Read at 1.
  destruct (Nat.leb_spec (length (data br)) (pos br)) as [Hend|Hmore].
  - rewrite drop_ge by lia. by destruct (String.eqb (Error eof) "EOF").
  - set (n := (8 * 1024)%nat).
    assert (Hn : (0 < n)%nat) by (unfold n; lia).
    clearbody n.
    rewrite IH.
    + cbn [data pos]. rewrite <- app_assoc, <- drop_drop, take_drop_length.
      reflexivity.
    + cbn [data pos]. rewrite length_take, length_drop. lia.
Qed.

(** X10: [io.Copy] gets every byte out of either [bytesReader], in reads of
    32 KiB.  From the reader of optimizer.go it returns no error; from
    the worker's reader it returns that reader's own end-of-file
    error, which is not [io.EOF]. *)
Theorem Copy_from_bytesReader (data : bytes) (fuel : nat) :
  (length data < fuel)%nat ->
  Copy optimizer_io.Read fuel (optimizer_io.readerFromBytes data) [] = Some (data, None) /\
  Copy cacheworker_jobs.Read fuel (cacheworker_jobs.newBytesReader data) []
  = Some (data, Some eofError).
Proof.
  intros Hfuel. unfold optimizer_io.Read, cacheworker_jobs.Read.
  split; rewrite Copy_bytesReader by (cbn; lia); reflexivity.
Qed.

Lemma Copy_from_bytesReader_witness :
  Copy optimizer_io.Read 3 (optimizer_io.readerFromBytes [x48; x69]) []
  = Some ([x48; x69], None) /\
  Copy cacheworker_jobs.Read 3 (cacheworker_jobs.newBytesReader [x48; x69]) []
  = Some ([x48; x69], Some eofError).
Proof. apply (Copy_from_bytesReader [x48; x69] 3). simpl. lia. Defined.

(** X11: The worker's [readAll] compares the text of the error and accepts
    both readers: it returns all of the data and no error. *)
Theorem readAll_from_bytesReader (data : bytes) (fuel : nat) :
  (length data < fuel)%nat ->
  cacheworker_jobs.readAll cacheworker_jobs.Read fuel
    (cacheworker_jobs.newBytesReader data) [] = Some (data, None) /\
  cacheworker_jobs.readAll optimizer_io.Read fuel
    (optimizer_io.readerFromBytes data) [] = Some (data, None).
Proof.
  intros Hfuel. unfold optimizer_io.Read, cacheworker_jobs.Read.
  split; rewrite readAll_bytesReader by (cbn; lia); reflexivity.
Qed.

Lemma readAll_from_bytesReader_witness :
  cacheworker_jobs.readAll cacheworker_jobs.Read 3
    (cacheworker_jobs.newBytesReader [x48; x69]) [] = Some ([x48; x69], None) /\
  cacheworker_jobs.readAll optimizer_io.Read 3
    (optimizer_io.readerFromBytes [x48; x69]) [] = Some ([x48; x69], None).
Proof. apply (readAll_from_bytesReader [x48; x69] 3). simpl. lia. Defined.

End reader_facts.

(** ** The worker's jobs *)

Module job_facts.
Import cache optimizer fsstore cachemiddleware cacheworker cacheworker_jobs.
Import string_facts fs_facts store_spec job_spec.

Lemma Put_from_worker (J : JSON) (fs : FSStore) (F : Faults) (key stem : string)
    (b : bytes) (meta meta' : Meta) (files files' : Files) (e : option string) :
  getDataPath fs key = Some (stem ++ ".data") ->
  getMetaPath fs key = Some (stem ++ ".meta") ->
  Put J fs F key (reader_of b) meta files = Some (e, meta', files') ->
  e <> None /\ files' !! (stem ++ ".data") = files !! (stem ++ ".data").
Proof.
  intros Hd Hm HP.
  assert (He : e <> None).
  { unfold Put in HP. rewrite Hd, Hm in HP. cbn in HP.
    destruct (MkdirAll_fails F), (Create_fails F); by simplify_eq. }
  split; [exact He|]. destruct e as [msg|]; [|done].
  by destruct (Put_err _ _ _ _ _ _ _ _ _ _ _ Hd Hm HP).
Qed.

(** X12: With the filesystem store behind it, [processJob] never stores
    what the pipeline produced.  [Put] copies the body with [io.Copy],
    which takes the end of the worker's reader for a failure, and
    returns an error before it touches the metadata or the data file:
    the job ends with the line for a failed store, or earlier, and the
    body of the entry is what it was (or gone, when [Get] found the
    entry expired). *)
Theorem processJob_never_stores (J : JSON) (fs : FSStore) (F : Faults)
    (pipeline : Pipeline) (now : Z) (ctx : nat -> bool) (key : string)
    (files files' : Files) (logged : Logged) (dataPath : string) :
  @processJob Files (FSJobStore J fs F) pipeline now ctx key files
    = Some (logged, files') ->
  getDataPath fs key = Some dataPath ->
  is_Optimized logged = false /\
  (files' !! dataPath = files !! dataPath \/
   logged = NotFound /\ files' !! dataPath = None) /\
  (forall content meta optimized optimizedMeta,
     Get J fs now key files = Some (Ok (Some (mkReader content false true, meta)), files) ->
     ApplyToBytes pipeline ctx content meta = Ok (optimized, optimizedMeta) ->
     logged = FailedToStore).
Proof.
  intros HP Hdp. destruct (entry_paths _ _ _ Hdp) as (stem & -> & Hd & Hm).
  unfold processJob in HP. cbn [job_Get job_Put FSJobStore] in HP.
  rewrite (Get_at _ _ _ _ _ _ Hd Hm) in HP.
  assert (Hcases :
            logged = FailedToGet /\ files' = files \/
            logged = NotFound /\ files' = files \/
            logged = NotFound /\
              files' = delete (stem ++ ".meta") (delete (stem ++ ".data") files) \/
            logged = FailedToOptimize /\ files' = files \/
            logged = FailedToStore /\
              files' !! (stem ++ ".data") = files !! (stem ++ ".data") /\
              exists content meta optimized optimizedMeta,
                files !! (stem ++ ".data") = Some content /\
                readMeta J (stem ++ ".meta") files = Ok meta /\
                IsExpired now meta = false /\
                ApplyToBytes pipeline ctx content meta = Ok (optimized, optimizedMeta)).
  { destruct (files !! (stem ++ ".data")) as [content|] eqn:Hc;
      [|cbn in HP; simplify_eq; auto].
    destruct (readMeta J (stem ++ ".meta") files) as [meta|] eqn:HM;
      [|cbn in HP; simplify_eq; auto].
    destruct (IsExpired now meta) eqn:Hexp; [cbn in HP; simplify_eq; auto|].
    cbn in HP.
    destruct (ApplyToBytes pipeline ctx content meta) as [[optimized optimizedMeta]|] eqn:HA;
      [|simplify_eq; auto 6].
    destruct (Put J fs F key (reader_of optimized) optimizedMeta files)
      as [[[e m'] f']|] eqn:HPut; [|discriminate].
    destruct (Put_from_worker _ _ _ _ _ _ _ _ _ _ _ Hd Hm HPut) as [He Hsame].
    cbn in HP. destruct e as [msg|]; [|done]. simplify_eq.
    do 4 right. split; [done|]. split; [rewrite Hsame; exact Hc|].
    by exists content, meta, optimized, optimizedMeta. }
  split; [|split].
  - destruct Hcases as [[-> _]|[[-> _]|[[-> _]|[[-> _]|[-> _]]]]]; reflexivity.
  - destruct Hcases as [[-> ->]|[[-> ->]|[[-> ->]|[[-> ->]|[-> [Hs _]]]]]];
      first [ by left
            | right; split; [reflexivity | lookups; reflexivity]
            | left; exact Hs ].
  - intros content meta optimized optimizedMeta HG HA.
    rewrite (Get_at _ _ _ _ _ _ Hd Hm) in HG.
    rewrite HG in HP. cbn in HP. rewrite HA in HP.
    destruct (Put J fs F key (reader_of optimized) optimizedMeta files)
      as [[[e m'] f']|] eqn:HPut; [|discriminate].
    destruct (Put_from_worker _ _ _ _ _ _ _ _ _ _ _ Hd Hm HPut) as [He _].
    cbn in HP. destruct e; [congruence | done].
Qed.

Lemma processJob_never_stores_witness :
  is_Optimized FailedToStore = false /\
  (entry_k1 !! "k1.data" = entry_k1 !! "k1.data" \/
   FailedToStore = NotFound /\ entry_k1 !! "k1.data" = None) /\
  (forall content meta optimized optimizedMeta,
     Get (unary_json text_meta) flat_store 0 "k1" entry_k1
       = Some (Ok (Some (mkReader content false true, meta)), entry_k1) ->
     ApplyToBytes [] (fun _ => false) content meta = Ok (optimized, optimizedMeta) ->
     FailedToStore = FailedToStore).
Proof.
  apply (processJob_never_stores (unary_json text_meta) flat_store no_faults []
           0 (fun _ => false) "k1" entry_k1 entry_k1 FailedToStore "k1.data").
  - apply (bool_decide_eq_true_1 _). vm_compute. reflexivity.
  - reflexivity.
Defined.

(** *** The queue *)

(** X13: Jobs offered to a worker whose queue nobody drains: every
    [Enqueue] returns nil, the jobs that still fit are queued in the
    order of arrival, and each further job is dropped with one logged
    line. *)
Theorem Enqueue_all_keeps_first (w : Worker) (jobs : list OptimizationJob) :
  ch_closed (queue w) = false ->
  Enqueue_all w jobs
  = Returned
      (repeat None (length jobs),
       mkWorker (mkChan (ch_buf (queue w) ++ take (room w) jobs)%list
                        (ch_cap (queue w)) false)
                (workerCount w)
                (logged w ++ map worker_spec.drop_line (drop (room w) jobs))%list).
Proof.
  revert w. induction jobs as [|job jobs IH]; intros [[buf cap closed] wc lg] Hopen;
    cbn in Hopen; subst closed.
  - cbn. by rewrite take_nil, drop_nil, !app_nil_r.
  - cbn [Enqueue_all]. unfold Enqueue. cbn [queue ch_closed ch_buf ch_cap workerCount logged].
    destruct (Nat.ltb_spec (length buf) cap) as [Hroom|Hfull].
    + rewrite IH by reflexivity. unfold room.
      cbn [queue ch_closed ch_buf ch_cap workerCount logged length repeat].
      rewrite length_app. cbn [length].
      replace (cap - length buf)%nat with (S (cap - (length buf + 1)))%nat by lia.
      cbn [take drop]. by rewrite <- app_assoc.
    + rewrite IH by reflexivity. unfold room.
      cbn [queue ch_closed ch_buf ch_cap workerCount logged length repeat].
      replace (cap - length buf)%nat with 0%nat by lia.
      cbn [take drop map]. by rewrite <- app_assoc.
Qed.

Lemma Enqueue_all_keeps_first_witness :
  Enqueue_all (NewWorker 2 1) [mkJob "a"; mkJob "b"; mkJob "c"]
  = Returned
      ([None; None; None],
       mkWorker (mkChan [mkJob "a"; mkJob "b"] 2 false) 1
                ["Optimization queue is full, dropping job for key: c"]).
Proof.
  apply (Enqueue_all_keeps_first (NewWorker 2 1) [mkJob "a"; mkJob "b"; mkJob "c"]).
  reflexivity.
Defined.

End job_facts.

(** ** [PurgePrefix] on the filesystem store *)

Module purge_facts.
Import cache string_facts fs_facts.










End purge_facts.

(** ** The middleware, request by request *)

Module request_facts.
Import cache optimizer http cachemiddleware middleware_spec request_spec.

Lemma recorder_without_WriteHeader (ops : list HandlerOp) (rr : responseRecorder) :
  calls_WriteHeader ops = false ->
  statusCode (foldl rr_op rr ops) = statusCode rr /\
  headers (foldl rr_op rr ops) = headers rr.
Proof.
  revert rr. induction ops as [|op ops IH]; intros rr Hno; [done|].
  cbn in Hno. apply orb_false_elim in Hno as [Hop Hno].
  cbn [foldl]. destruct (IH (rr_op rr op) Hno) as [-> ->].
  by destruct op.
Qed.

Section Requests.
Context {S Q : Type} `{!CacheStore S} `{!JobQueue Q}.
Implicit Types (x : World S Q) (config : Config) (r : Request).

Lemma notify_frame config (host type : string) (size : Z) x :
  let x' := notify config host type size x in
  stats x' = stats x /\ store x' = store x /\ queue x' = queue x /\
  calls x' = calls x /\ w x' = w x.
Proof. cbv zeta. unfold notify. by destruct (OnCacheEvent config). Qed.

Lemma writeRecordedResponse_frame config (recorder : responseRecorder) r x :
  let x' := writeRecordedResponse config recorder r x in
  stats x' = stats x /\ store x' = store x /\ queue x' = queue x /\ calls x' = calls x.
Proof.
  cbv zeta. unfold writeRecordedResponse.
  destruct (0 <? Z.of_nat (length (body recorder))); [|done].
  destruct (notify_frame config (Host r) "traffic" (Z.of_nat (length (body recorder)))
              (with_w (fun _ => rw_Write (body recorder)
                  (rw_WriteHeader (statusCode recorder)
                     (rw_set_header
                        (foldl (fun h kvs =>
                                  foldl (fun h v => Header_Add h (fst kvs) v) h (snd kvs))
                               (rw_header (w x)) (map_to_list (headers recorder)))
                        (w x)))) x))
    as (-> & -> & -> & -> & _).
  done.
Qed.

Lemma serveCachedResponse_frame config (clock : Clock) r (reader : Reader) (meta : Meta) x :
  let x' := serveCachedResponse config clock r reader meta x in
  stats x' = stats x /\ store x' = store x /\ queue x' = queue x /\ calls x' = calls x.
Proof.
  cbv zeta. unfold serveCachedResponse.
  destruct (copy_to_writer reader _) as [bytesSent w2].
  destruct (0 <? bytesSent); [|done].
  destruct (notify_frame config (Host r) "traffic" bytesSent (with_w (fun _ => w2) x))
    as (-> & -> & -> & -> & _).
  done.
Qed.

Lemma stats_notify config (host type : string) (size : Z) x :
  stats (notify config host type size x) = stats x.
Proof. apply notify_frame. Qed.
Lemma store_notify config (host type : string) (size : Z) x :
  store (notify config host type size x) = store x.
Proof. apply notify_frame. Qed.
Lemma queue_notify config (host type : string) (size : Z) x :
  queue (notify config host type size x) = queue x.
Proof. apply notify_frame. Qed.
Lemma calls_notify config (host type : string) (size : Z) x :
  calls (notify config host type size x) = calls x.
Proof. apply notify_frame. Qed.

Lemma stats_replay config (recorder : responseRecorder) r x :
  stats (writeRecordedResponse config recorder r x) = stats x.
Proof. apply writeRecordedResponse_frame. Qed.
Lemma store_replay config (recorder : responseRecorder) r x :
  store (writeRecordedResponse config recorder r x) = store x.
Proof. apply writeRecordedResponse_frame. Qed.
Lemma queue_replay config (recorder : responseRecorder) r x :
  queue (writeRecordedResponse config recorder r x) = queue x.
Proof. apply writeRecordedResponse_frame. Qed.
Lemma calls_replay config (recorder : responseRecorder) r x :
  calls (writeRecordedResponse config recorder r x) = calls x.
Proof. apply writeRecordedResponse_frame. Qed.

Lemma stats_hit config (clock : Clock) r (reader : Reader) (meta : Meta) x :
  stats (serveCachedResponse config clock r reader meta x) = stats x.
Proof. apply serveCachedResponse_frame. Qed.
Lemma store_hit config (clock : Clock) r (reader : Reader) (meta : Meta) x :
  store (serveCachedResponse config clock r reader meta x) = store x.
Proof. apply serveCachedResponse_frame. Qed.
Lemma queue_hit config (clock : Clock) r (reader : Reader) (meta : Meta) x :
  queue (serveCachedResponse config clock r reader meta x) = queue x.
Proof. apply serveCachedResponse_frame. Qed.
Lemma calls_hit config (clock : Clock) r (reader : Reader) (meta : Meta) x :
  calls (serveCachedResponse config clock r reader meta x) = calls x.
Proof. apply serveCachedResponse_frame. Qed.

Ltac frames :=
  repeat first
    [ rewrite stats_notify | rewrite store_notify | rewrite queue_notify
    | rewrite calls_notify | rewrite stats_replay | rewrite store_replay
    | rewrite queue_replay | rewrite calls_replay | rewrite stats_hit
    | rewrite store_hit | rewrite queue_hit | rewrite calls_hit
    | progress cbn [with_w with_store with_stats with_queue calls store stats queue
                    fst snd] ].

Lemma fetchAndCache_rejected config (handler : Handler) (clock : Clock) r
    (key : string) x :
  let recorder := foldl rr_op (newRecorder (w x)) (handler r) in
  cache.IsResponseCacheable (statusCode recorder) (headers recorder) = false \/
  MaxCacheSize config < Z.of_nat (length (body recorder)) ->
  let x' := fetchAndCache config handler clock r key x in
  x' = writeRecordedResponse config recorder r (with_w (fun _ => rr_w recorder) x) /\
  calls x' = calls x /\ store x' = store x /\ queue x' = queue x /\ stats x' = stats x.
Proof.
  cbv zeta. intros Hrej.
  assert (Hx : fetchAndCache config handler clock r key x
               = writeRecordedResponse config
                   (foldl rr_op (newRecorder (w x)) (handler r)) r
                   (with_w (fun _ => rr_w (foldl rr_op (newRecorder (w x)) (handler r))) x)).
  { unfold fetchAndCache.
    destruct (cache.IsResponseCacheable _ _); cbn [negb]; [|reflexivity].
    destruct Hrej as [?|Hbig]; [discriminate|].
    apply Z.ltb_lt in Hbig. by rewrite Hbig. }
  rewrite Hx. split; [reflexivity|].
  rewrite calls_replay, store_replay, queue_replay, stats_replay. done.
Qed.

(** The end of [fetchAndCache]: the [Put], the counter, the
    [X-Cache] header and the replay. *)
Lemma store_and_replay config (recorder : responseRecorder) r (key : string)
    (b : bytes) (m : Meta) x0 :
  let x' :=
    (let '(err, s') := store_Put (store x0) key b m in
     let x := with_store s' (CallPut key b m) x0 in
     let x := match err with
              | None =>
                  notify config (Host r) "put" (Z.of_nat (length b))
                         (with_stats incrementPuts x)
              | Some _ => x
              end in
     let x := with_w (fun w => rw_set_header (Header_Set (rw_header w) "X-Cache" "MISS") w)
                     x in
     writeRecordedResponse config recorder r x) in
  calls x' = (calls x0 ++ [CallPut key b m])%list /\
  store x' = snd (store_Put (store x0) key b m) /\
  stats x' = (if fst (store_Put (store x0) key b m) is None
              then incrementPuts (stats x0) else stats x0) /\
  queue x' = queue x0.
Proof.
  cbv zeta. destruct (store_Put (store x0) key b m) as [[e|] s']; frames;
    cbn [with_w with_store with_stats calls store stats queue fst snd]; frames; done.
Qed.

Lemma fetchAndCache_accepted config (handler : Handler) (clock : Clock) r
    (key : string) x :
  let recorder := foldl rr_op (newRecorder (w x)) (handler r) in
  let meta := build_meta config clock recorder in
  cache.IsResponseCacheable (statusCode recorder) (headers recorder) = true ->
  Z.of_nat (length (body recorder)) <= MaxCacheSize config ->
  let x' := fetchAndCache config handler clock r key x in
  exists b m,
    calls x' = (calls x ++ [CallPut key b m])%list /\
    store x' = snd (store_Put (store x) key b m) /\
    stats x' = (if fst (store_Put (store x) key b m) is None
                then incrementPuts (stats x) else stats x) /\
    (~ sync_optimizes config r (body recorder) meta -> b = body recorder /\ m = meta) /\
    (forall pipeline out,
       OptimizationMode config = OptimizationSync ->
       OptimizationPipeline config = Some pipeline ->
       ApplyToBytes pipeline (Context r) (body recorder) meta = Ok out ->
       (b, m) = out) /\
    (OptimizationMode config <> OptimizationAsync -> queue x' = queue x).
Proof.
  cbv zeta. intros Hc Hsize. unfold fetchAndCache. rewrite Hc.
  apply Z.ltb_ge in Hsize. rewrite Hsize. cbn [negb].
  set (recorder := foldl rr_op (newRecorder (w x)) (handler r)).
  set (meta := build_meta config clock recorder).
  unfold sync_optimizes.
  destruct (String.eqb_spec (OptimizationMode config) OptimizationSync) as [Hs|Hs].
  - destruct (OptimizationPipeline config) as [pipeline|] eqn:Hp.
    + destruct (ApplyToBytes pipeline (Context r) (body recorder) meta)
        as [[optimized optimizedMeta]|e] eqn:HA.
      * exists optimized, optimizedMeta.
        destruct (store_and_replay config recorder r key optimized optimizedMeta
                    (with_w (fun _ => rr_w recorder) x)) as (Hcl & Hst & Hstat & Hq).
        split; [exact Hcl|]. split; [exact Hst|]. split; [exact Hstat|].
        split; [|split; [|intros _; exact Hq]].
        -- intros Hn. exfalso. apply Hn. split; [done|]. by eexists _, _.
        -- intros ? ? _ [= <-] HA'. congruence.
      * exists (body recorder), meta.
        destruct (store_and_replay config recorder r key (body recorder) meta
                    (with_w (fun _ => rr_w recorder) x)) as (Hcl & Hst & Hstat & Hq).
        split; [exact Hcl|]. split; [exact Hst|]. split; [exact Hstat|].
        split; [done|]. split; [|intros _; exact Hq].
        intros ? ? _ [= <-] HA'. congruence.
    + exists (body recorder), meta.
      destruct (store_and_replay config recorder r key (body recorder) meta
                  (with_w (fun _ => rr_w recorder) x)) as (Hcl & Hst & Hstat & Hq).
      split; [exact Hcl|]. split; [exact Hst|]. split; [exact Hstat|].
      split; [done|]. split; [|intros _; exact Hq].
      intros ? ? _ ?. congruence.
  - exists (body recorder), meta.
    destruct (String.eqb_spec (OptimizationMode config) OptimizationAsync) as [Ha|Ha].
    + destruct (WorkerQueue config), (OptimizationPipeline config);
        match goal with
        | |- context [store_Put (store ?x0) _ _ _] =>
            destruct (store_and_replay config recorder r key (body recorder) meta x0)
              as (Hcl & Hst & Hstat & Hq)
        end;
        (split; [exact Hcl|]; split; [exact Hst|]; split; [exact Hstat|];
         split; [done|]; split; [intros; congruence | intros; congruence]).
    + destruct (store_and_replay config recorder r key (body recorder) meta
                  (with_w (fun _ => rr_w recorder) x)) as (Hcl & Hst & Hstat & Hq).
      split; [exact Hcl|]. split; [exact Hst|]. split; [exact Hstat|].
      split; [done|]. split; [intros; congruence | intros _; exact Hq].
Qed.

(** X14: The response gate and the size guard: a response that
    [IsResponseCacheable] rejects, or whose body is longer than
    [MaxCacheSize], is replayed to the client and nothing else
    happens: no call on the store, no job, no counter. *)
Theorem rejected_response_not_stored config (handler : Handler) (clock : Clock) r
    (key : string) x :
  let recorder := foldl rr_op (newRecorder (w x)) (handler r) in
  cache.IsResponseCacheable (statusCode recorder) (headers recorder) = false \/
  MaxCacheSize config < Z.of_nat (length (body recorder)) ->
  let x' := fetchAndCache config handler clock r key x in
  x' = writeRecordedResponse config recorder r (with_w (fun _ => rr_w recorder) x) /\
  calls x' = calls x /\ store x' = store x /\ queue x' = queue x /\ stats x' = stats x.
Proof. apply fetchAndCache_rejected. Qed.

(** X15: A response that passes both checks is handed to the store once,
    under the key of the request.  What is stored is the recorded
    body with the metadata built from the recorded headers, unless
    synchronous optimisation succeeded, in which case it is the
    output of the pipeline; [puts] is incremented exactly when the
    store returns no error, and a job is queued in asynchronous mode
    only. *)
Theorem accepted_response_stored config (handler : Handler) (clock : Clock) r
    (key : string) x :
  let recorder := foldl rr_op (newRecorder (w x)) (handler r) in
  let meta := build_meta config clock recorder in
  cache.IsResponseCacheable (statusCode recorder) (headers recorder) = true ->
  Z.of_nat (length (body recorder)) <= MaxCacheSize config ->
  let x' := fetchAndCache config handler clock r key x in
  exists b m,
    calls x' = (calls x ++ [CallPut key b m])%list /\
    store x' = snd (store_Put (store x) key b m) /\
    stats x' = (if fst (store_Put (store x) key b m) is None
                then incrementPuts (stats x) else stats x) /\
    (~ sync_optimizes config r (body recorder) meta -> b = body recorder /\ m = meta) /\
    (forall pipeline out,
       OptimizationMode config = OptimizationSync ->
       OptimizationPipeline config = Some pipeline ->
       ApplyToBytes pipeline (Context r) (body recorder) meta = Ok out ->
       (b, m) = out) /\
    (OptimizationMode config <> OptimizationAsync -> queue x' = queue x).
Proof. apply fetchAndCache_accepted. Qed.

Lemma fetchAndCache_stats config (handler : Handler) (clock : Clock) r (key : string) x :
  stats (fetchAndCache config handler clock r key x) = stats x \/
  stats (fetchAndCache config handler clock r key x) = incrementPuts (stats x).
Proof.
  set (recorder := foldl rr_op (newRecorder (w x)) (handler r)).
  destruct (cache.IsResponseCacheable (statusCode recorder) (headers recorder)) eqn:Hc.
  - destruct (Z.le_gt_cases (Z.of_nat (length (body recorder))) (MaxCacheSize config))
      as [Hfit|Hbig].
    + destruct (fetchAndCache_accepted config handler clock r key x Hc Hfit)
        as (b & m & _ & _ & -> & _).
      destruct (fst (store_Put (store x) key b m)); auto.
    + left. apply (fetchAndCache_rejected config handler clock r key x). by right.
  - left. apply (fetchAndCache_rejected config handler clock r key x). by left.
Qed.

Lemma wrap64_succ (v : Z) : minInt64 <= v < maxInt64 -> wrap64 (v + 1) = v + 1.
Proof.
  unfold wrap64, minInt64, maxInt64. intros Hv. rewrite Z.mod_small; lia.
Qed.

(** X16: Every request through an enabled middleware is counted exactly
    once as a bypass, an error, a hit or a miss, and [puts] moves
    only together with [misses]; a disabled middleware counts
    nothing and makes no call on the store. *)
Theorem one_counter_per_request config (handler : Handler) (clock : Clock) r x :
  let x' := ServeHTTP config handler clock r x in
  (Enabled config = false -> stats x' = stats x /\ calls x' = calls x) /\
  (Enabled config = true ->
   (stats x' = incrementBypasses (stats x) \/
    stats x' = incrementErrors (stats x) \/
    stats x' = incrementHits (stats x) \/
    stats x' = incrementMisses (stats x) \/
    stats x' = incrementPuts (incrementMisses (stats x))) /\
   (countable (stats x) -> counted (stats x') = counted (stats x) + 1)).
Proof.
  cbv zeta. split.
  - intros Hoff. unfold ServeHTTP. rewrite Hoff. done.
  - intros Hon.
    assert (Hcases :
              stats (ServeHTTP config handler clock r x) = incrementBypasses (stats x) \/
              stats (ServeHTTP config handler clock r x) = incrementErrors (stats x) \/
              stats (ServeHTTP config handler clock r x) = incrementHits (stats x) \/
              stats (ServeHTTP config handler clock r x) = incrementMisses (stats x) \/
              stats (ServeHTTP config handler clock r x)
                = incrementPuts (incrementMisses (stats x))).
    { unfold ServeHTTP. rewrite Hon. cbn [negb].
      destruct (isCacheable config r); cbn [negb]; [|by left].
      destruct (store_Get _ _ _) as [[[[reader meta]|]|e] s'].
      - right; right; left. frames. done.
      - destruct (fetchAndCache_stats config handler clock r
                    (cache.GenerateKey (KeyGenerator_ config) r)
                    (notify config (Host r) "miss" 0
                       (with_stats incrementMisses
                          (with_store s'
                             (CallGet (cache.GenerateKey (KeyGenerator_ config) r)) x))))
          as [-> | ->]; frames; auto 6.
      - right; left. done. }
    split; [exact Hcases|].
    intros (HH & HM & HE & HB). unfold counted.
    destruct Hcases as [-> | [-> | [-> | [-> | ->]]]];
      cbn [incrementBypasses incrementErrors incrementHits incrementMisses incrementPuts
           Hits Misses Errors Bypasses Puts];
      rewrite wrap64_succ by done; lia.
Qed.

Lemma copy_to_writer_body (reader : Reader) (w1 : ResponseWriter) :
  rw_body (snd (copy_to_writer reader w1)) = (rw_body w1 ++ rd_pending reader)%list.
Proof.
  unfold copy_to_writer. destruct (rd_pending reader) as [|c cs]; cbn [snd].
  - by rewrite app_nil_r.
  - apply middleware_facts.rw_body_Write.
Qed.

Lemma ServeHTTP_hit config (handler handler' : Handler) (clock : Clock) r x
    (reader : Reader) (meta : Meta) (s' : S) :
  Enabled config = true ->
  isCacheable config r = true ->
  store_Get (store x) (at_Get clock) (cache.GenerateKey (KeyGenerator_ config) r)
    = (Ok (Some (reader, meta)), s') ->
  let x' := ServeHTTP config handler clock r x in
  x' = ServeHTTP config handler' clock r x /\
  calls x' = (calls x ++ [CallGet (cache.GenerateKey (KeyGenerator_ config) r)])%list /\
  store x' = s' /\
  queue x' = queue x /\
  stats x' = incrementHits (stats x) /\
  rw_body (w x') = (rw_body (w x) ++ rd_pending reader)%list.
Proof.
  intros Hon Hc HG. cbv zeta. unfold ServeHTTP. rewrite Hon, Hc, HG. cbn [negb].
  split; [reflexivity|].
  destruct (middleware_facts.w_serveCachedResponse config clock r reader meta
              (notify config (Host r) "hit" 0
                 (with_stats incrementHits
                    (with_store s'
                       (CallGet (cache.GenerateKey (KeyGenerator_ config) r)) x))))
    as (h & Hw & _).
  rewrite Hw, copy_to_writer_body, middleware_facts.rw_body_WriteHeader.
  cbn [rw_set_header rw_body]. rewrite middleware_facts.w_notify.
  frames. done.
Qed.

(** X17: On a hit the upstream handler plays no part: the outcome is the
    same for every handler.  The store has been asked once and is
    not written to, [hits] is incremented, and the client receives
    the bytes of the stored body. *)
Theorem hit_skips_upstream config (handler handler' : Handler) (clock : Clock) r x
    (reader : Reader) (meta : Meta) (s' : S) :
  Enabled config = true ->
  isCacheable config r = true ->
  store_Get (store x) (at_Get clock) (cache.GenerateKey (KeyGenerator_ config) r)
    = (Ok (Some (reader, meta)), s') ->
  let x' := ServeHTTP config handler clock r x in
  x' = ServeHTTP config handler' clock r x /\
  calls x' = (calls x ++ [CallGet (cache.GenerateKey (KeyGenerator_ config) r)])%list /\
  store x' = s' /\
  queue x' = queue x /\
  stats x' = incrementHits (stats x) /\
  rw_body (w x') = (rw_body (w x) ++ rd_pending reader)%list.
Proof. apply ServeHTTP_hit. Qed.

(** X18: A handler that never calls [WriteHeader] leaves the recorder
    with status 200 and no headers at all, since the recorder copies
    the headers in [WriteHeader] only.  The response gate then sees
    neither [Set-Cookie] nor [Cache-Control]: whatever headers the
    handler has set, a body within the size limit is handed to the
    store, with no content type in its metadata. *)
Theorem implicit_status_skips_gate config (handler : Handler) (clock : Clock) r
    (key : string) x :
  calls_WriteHeader (handler r) = false ->
  Z.of_nat (length (written_body (handler r))) <= MaxCacheSize config ->
  let recorder := foldl rr_op (newRecorder (w x)) (handler r) in
  statusCode recorder = 200 /\
  headers recorder = ∅ /\
  build_meta config clock recorder
    = mkMeta "" "" 0 "" (DefaultTTL config) (at_Now clock) 200 ∅ /\
  exists b m,
    calls (fetchAndCache config handler clock r key x)
    = (calls x ++ [CallPut key b m])%list.
Proof.
  intros Hno Hfit. cbv zeta.
  destruct (recorder_without_WriteHeader (handler r) (newRecorder (w x)) Hno)
    as [Hst Hh].
  cbn [newRecorder statusCode headers] in Hst, Hh.
  split; [exact Hst|]. split; [exact Hh|]. split.
  - unfold build_meta. rewrite Hst, Hh. reflexivity.
  - destruct (fetchAndCache_accepted config handler clock r key x) as (b & m & Hcalls & _).
    + rewrite Hst, Hh. reflexivity.
    + by rewrite middleware_facts.rr_body_fold.
    + by exists b, m.
Qed.

End Requests.

Lemma rejected_response_not_stored_witness :
  let x' := fetchAndCache (config_with true) error_handler (clock_at 0)
              (get_request "/path" "") "k" empty_world in
  x' = writeRecordedResponse (config_with true)
         (foldl rr_op (newRecorder (w empty_world))
            (error_handler (get_request "/path" "")))
         (get_request "/path" "")
         (with_w (fun _ => rr_w (foldl rr_op (newRecorder (w empty_world))
                                   (error_handler (get_request "/path" ""))))
                 empty_world) /\
  calls x' = [] /\ store x' = tt /\ queue x' = [] /\ stats x' = mkStats 0 0 0 0 0.
Proof.
  apply (@rejected_response_not_stored unit (list OptimizationJob) VarnishStore ListQueue
           (config_with true) error_handler (clock_at 0) (get_request "/path" "") "k"
           empty_world).
  left. reflexivity.
Defined.

Lemma accepted_response_stored_witness :
  let x' := fetchAndCache (config_with true) hello_handler (clock_at 0)
              (get_request "/path" "") "k" empty_world in
  exists b m,
    calls x' = [CallPut "k" b m] /\
    store x' = tt /\
    stats x' = mkStats 0 0 1 0 0 /\
    b = [x3c; x70; x3e; x48; x69] /\
    m = mkMeta "text/html" "" 0 "" 3600000000000 0 200 ∅.
Proof.
  cbv zeta.
  destruct (@accepted_response_stored unit (list OptimizationJob) VarnishStore ListQueue
              (config_with true) hello_handler (clock_at 0) (get_request "/path" "") "k"
              empty_world)
    as (b & m & Hcalls & Hstore & Hstats & Hraw & _).
  - reflexivity.
  - vm_compute. discriminate.
  - exists b, m. destruct Hraw as [-> ->].
    + intros [Hmode _]. discriminate Hmode.
    + split; [exact Hcalls|]. split; [exact Hstore|]. split; [exact Hstats|].
      split; reflexivity.
Defined.

Lemma one_counter_per_request_witness :
  counted (stats (ServeHTTP (config_with true) hello_handler (clock_at 0)
                    (get_request "/path" "") empty_world)) = 1.
Proof.
  destruct (@one_counter_per_request unit (list OptimizationJob) VarnishStore ListQueue
              (config_with true) hello_handler (clock_at 0) (get_request "/path" "")
              empty_world) as (_ & Hon).
  destruct (Hon eq_refl) as (_ & Hcount).
  apply Hcount. unfold countable, minInt64, maxInt64. simpl. lia.
Defined.

Lemma hit_skips_upstream_witness :
  let x' := @ServeHTTP unit (list OptimizationJob)
              (one_entry_store [x48; x69] (hit_meta 0)) ListQueue
              (config_with true) hello_handler (clock_at 0)
              (get_request "/path" "") empty_world in
  x' = @ServeHTTP unit (list OptimizationJob)
         (one_entry_store [x48; x69] (hit_meta 0)) ListQueue
         (config_with true) error_handler (clock_at 0)
         (get_request "/path" "") empty_world /\
  calls x' = [CallGet (cache.GenerateKey NewKeyGenerator (get_request "/path" ""))] /\
  store x' = tt /\
  queue x' = [] /\
  stats x' = mkStats 1 0 0 0 0 /\
  rw_body (w x') = [x48; x69].
Proof.
  apply (@hit_skips_upstream unit (list OptimizationJob)
           (one_entry_store [x48; x69] (hit_meta 0)) ListQueue
           (config_with true) hello_handler error_handler (clock_at 0)
           (get_request "/path" "") empty_world
           (NopCloser_Buffer [x48; x69]) (hit_meta 0) tt); reflexivity.
Defined.

Lemma implicit_status_skips_gate_witness :
  let recorder := foldl rr_op (newRecorder (w empty_world))
                    (cookie_handler (get_request "/path" "")) in
  rw_header (rr_w recorder) !! "Set-Cookie" = Some ["session=1"] /\
  statusCode recorder = 200 /\
  headers recorder = ∅ /\
  exists b m,
    calls (fetchAndCache (config_with true) cookie_handler (clock_at 0)
             (get_request "/path" "") "k" empty_world)
    = [CallPut "k" b m].
Proof.
  cbv zeta. split; [reflexivity|].
  destruct (@implicit_status_skips_gate unit (list OptimizationJob) VarnishStore ListQueue
              (config_with true) cookie_handler (clock_at 0) (get_request "/path" "") "k"
              empty_world) as (Hst & Hh & _ & Hput).
  - reflexivity.
  - vm_compute. discriminate.
  - split; [exact Hst|]. split; [exact Hh|]. exact Hput.
Defined.

End request_facts.

(** ** The middleware over the filesystem store *)

Module backend_facts.
Import cache optimizer http cachemiddleware fsstore cachebackend.
Import middleware_spec request_spec store_spec fs_facts request_facts.

Lemma Put_succeeds (J : JSON) (fs : FSStore) (key stem : string) (b data : bytes)
    (meta : Meta) (files : Files) :
  getDataPath fs key = Some (stem ++ ".data") ->
  getMetaPath fs key = Some (stem ++ ".meta") ->
  Marshal J (set_Size meta (Z.of_nat (length b))) = Some data ->
  exists files',
    Put J fs no_faults key (mkReader b false false) meta files
    = Some (None, set_Size meta (Z.of_nat (length b)), files').
Proof.
  intros Hd Hm HM. unfold Put, writeMeta, os_Rename, io_Copy. rewrite Hd, Hm.
  cbn [mbind option_bind no_faults MkdirAll_fails Create_fails Copy_fails
       WriteFile_fault Rename_meta_fails Rename_data_fails orb rd_pending rd_fault].
  rewrite HM. lookups. eexists. reflexivity.
Qed.

Section Backend.
Context {Q : Type} `{!JobQueue Q}.
Variables (J : JSON) (fs : FSStore).

Local Abbreviation Serve := (@ServeHTTP Files Q (FSCacheStore J fs no_faults) _).

(** What a miss leaves behind.  [b] and [m] are what [fetchAndCache]
    hands to [Put]: the recorded response, or the output of the
    synchronous pipeline. *)
Lemma miss_stores (config : Config) (handler : Handler) (clock : Clock) (r : Request)
    (x : World Files Q) (dataPath : string) (json b : bytes) (m : Meta) :
  let key := GenerateKey (KeyGenerator_ config) r in
  let recorder := foldl rr_op (newRecorder (w x)) (handler r) in
  let meta := set_Size m (Z.of_nat (length b)) in
  Enabled config = true ->
  isCacheable config r = true ->
  getDataPath fs key = Some dataPath ->
  store x !! dataPath = None ->
  IsResponseCacheable (statusCode recorder) (headers recorder) = true ->
  Z.of_nat (length (body recorder)) <= MaxCacheSize config ->
  (forall b0 m0,
     (~ sync_optimizes config r (body recorder) (build_meta config clock recorder) ->
      b0 = body recorder /\ m0 = build_meta config clock recorder) ->
     (forall pipeline out,
        OptimizationMode config = OptimizationSync ->
        OptimizationPipeline config = Some pipeline ->
        ApplyToBytes pipeline (Context r) (body recorder)
          (build_meta config clock recorder) = Ok out ->
        (b0, m0) = out) ->
     b0 = b /\ m0 = m) ->
  Marshal J meta = Some json ->
  Unmarshal J json = Some meta ->
  let x1 := Serve config handler clock r x in
  calls x1 = (calls x ++ [CallGet key; CallPut key b m])%list /\
  stats x1 = incrementPuts (incrementMisses (stats x)) /\
  rw_body (w x1) = (rw_body (rr_w recorder) ++ body recorder)%list /\
  forall now,
    IsExpired now meta = false ->
    @store_Get Files (FSCacheStore J fs no_faults) (store x1) now key
    = (Ok (Some (mkReader b false true, meta)), store x1).
Proof.
  cbv zeta. intros Hon Hc Hdp Hnone Hrc Hfit Hwhat HM HU.
  set (key := GenerateKey (KeyGenerator_ config) r) in *.
  set (recorder := foldl rr_op (newRecorder (w x)) (handler r)) in *.
  destruct (entry_paths _ _ _ Hdp) as (stem & -> & Hd & Hm).
  assert (HG1 : @store_Get Files (FSCacheStore J fs no_faults) (store x) (at_Get clock) key
                = (Ok None, store x)).
  { cbn [store_Get FSCacheStore]. rewrite (Get_at _ _ _ _ _ _ Hd Hm), Hnone. reflexivity. }
  set (x0 := notify config (Host r) "miss" 0
               (with_stats incrementMisses (with_store (store x) (CallGet key) x))).
  assert (Hx1 : Serve config handler clock r x
                = @fetchAndCache Files Q (FSCacheStore J fs no_faults) _
                    config handler clock r key x0).
  { unfold ServeHTTP. rewrite Hon, Hc. cbn [negb]. fold key. rewrite HG1. reflexivity. }
  assert (Hw0 : w x0 = w x) by (unfold x0; by rewrite middleware_facts.w_notify).
  assert (Hs0 : store x0 = store x) by (unfold x0; by rewrite store_notify).
  assert (Hc0 : calls x0 = (calls x ++ [CallGet key])%list)
    by (unfold x0; by rewrite calls_notify).
  assert (Hst0 : stats x0 = incrementMisses (stats x))
    by (unfold x0; by rewrite stats_notify).
  destruct (@fetchAndCache_accepted Files Q (FSCacheStore J fs no_faults) _
              config handler clock r key x0)
    as (b0 & m0 & Hcalls & Hstore & Hstats & Hraw & Hsync & _).
  { rewrite Hw0. exact Hrc. }
  { rewrite Hw0. exact Hfit. }
  rewrite Hw0 in Hraw, Hsync. fold recorder in Hraw, Hsync.
  destruct (Hwhat b0 m0 Hraw Hsync) as [-> ->].
  rewrite Hs0 in Hstore, Hstats.
  destruct (Put_succeeds J fs key stem b json m (store x) Hd Hm HM) as (files' & HPut).
  assert (HP1 : @store_Put Files (FSCacheStore J fs no_faults) (store x) key b m
                = (None, files')).
  { cbn [store_Put FSCacheStore]. rewrite HPut. reflexivity. }
  rewrite HP1 in Hstore, Hstats. cbn [fst snd] in Hstore, Hstats.
  rewrite <- Hx1 in Hcalls, Hstore, Hstats.
  split; [by rewrite Hcalls, Hc0, <- app_assoc|].
  split; [by rewrite Hstats, Hst0|].
  split.
  { destruct (@middleware_facts.fetchAndCache_ends_with_replay Files Q
                (FSCacheStore J fs no_faults) _ config handler clock r key x0) as (x_mid & Hfc & Hmid & _).
    rewrite Hx1, Hfc.
    destruct (@middleware_facts.writeRecordedResponse_writer Files Q config
                (foldl rr_op (newRecorder (w x0)) (handler r)) r x_mid) as (Hb & _).
    rewrite Hb, Hmid, Hw0. reflexivity. }
  intros now Hexp.
  destruct (Put_ok _ _ _ _ _ _ _ _ _ _ Hd Hm HPut) as (_ & _ & (b' & Hb & Hfm) & Hfd & _).
  cbn [rd_pending] in Hb, Hfm, Hfd.
  assert (b' = json) as -> by congruence.
  rewrite Hstore. cbn [store_Get FSCacheStore].
  rewrite (Get_at _ _ _ _ _ _ Hd Hm), Hfd. unfold readMeta.
  rewrite Hfm, HU, Hexp. reflexivity.
Qed.

(** X19: A miss followed by a hit, with the filesystem store behind the
    middleware and optimisation disabled.  The first request for a
    key without an entry runs the handler and stores the recorded
    body; a second cacheable request with the same key (the same
    request again, or any other one the key generator does not tell
    apart), while the entry has not expired, is answered from the
    store without the handler: the client receives exactly the body
    recorded for the first request, and the counters show one miss,
    one put and one hit. *)
Theorem miss_then_hit (config : Config) (handler handler' : Handler)
    (clock clock' : Clock) (r r' : Request) (x : World Files Q)
    (dataPath : string) (json : bytes) :
  let key := GenerateKey (KeyGenerator_ config) r in
  let recorder := foldl rr_op (newRecorder (w x)) (handler r) in
  let meta := set_Size (build_meta config clock recorder)
                       (Z.of_nat (length (body recorder))) in
  Enabled config = true ->
  isCacheable config r = true ->
  isCacheable config r' = true ->
  GenerateKey (KeyGenerator_ config) r' = key ->
  OptimizationMode config = OptimizationDisabled ->
  getDataPath fs key = Some dataPath ->
  store x !! dataPath = None ->
  IsResponseCacheable (statusCode recorder) (headers recorder) = true ->
  Z.of_nat (length (body recorder)) <= MaxCacheSize config ->
  Marshal J meta = Some json ->
  Unmarshal J json = Some meta ->
  IsExpired (at_Get clock') meta = false ->
  let x1 := Serve config handler clock r x in
  let x2 := Serve config handler' clock' r' x1 in
  calls x2 = (calls x ++ [CallGet key;
                          CallPut key (body recorder) (build_meta config clock recorder);
                          CallGet key])%list /\
  stats x2 = incrementHits (incrementPuts (incrementMisses (stats x))) /\
  rw_body (w x2) = (rw_body (w x1) ++ body recorder)%list.
Proof.
  cbv zeta. intros Hon Hc Hc' Hkey Hmode Hdp Hnone Hrc Hfit HM HU Hexp.
  assert (Hwhat : forall b0 m0,
            (~ sync_optimizes config r
                 (body (foldl rr_op (newRecorder (w x)) (handler r)))
                 (build_meta config clock (foldl rr_op (newRecorder (w x)) (handler r))) ->
             b0 = body (foldl rr_op (newRecorder (w x)) (handler r)) /\
             m0 = build_meta config clock (foldl rr_op (newRecorder (w x)) (handler r))) ->
            b0 = body (foldl rr_op (newRecorder (w x)) (handler r)) /\
            m0 = build_meta config clock (foldl rr_op (newRecorder (w x)) (handler r))).
  { intros b0 m0 Hraw. apply Hraw. intros [Hs _]. rewrite Hmode in Hs. discriminate Hs. }
  destruct (miss_stores config handler clock r x dataPath json _ _
              Hon Hc Hdp Hnone Hrc Hfit (fun b0 m0 Hraw _ => Hwhat b0 m0 Hraw) HM HU)
    as (Hcalls & Hstats & _ & HG).
  specialize (HG _ Hexp). rewrite <- Hkey in HG at 1.
  destruct (@ServeHTTP_hit Files Q (FSCacheStore J fs no_faults) _
              config handler' handler' clock' r' (Serve config handler clock r x)
              _ _ _ Hon Hc' HG) as (_ & Hcalls2 & _ & _ & Hstats2 & Hbody2).
  rewrite Hkey in Hcalls2.
  rewrite Hcalls2, Hstats2, Hbody2, Hcalls, Hstats, <- !app_assoc.
  done.
Qed.

(** X20: With synchronous optimisation the client of the miss and the
    clients of the later hits are sent different bodies.  When the
    pipeline succeeds on the recorded body, the first client is
    sent the body as the upstream wrote it, the store receives the
    pipeline's output, and a following cacheable request with the
    same key, on a writer of its own, is answered with that output
    and, where the pipeline set an encoding, with that encoding as
    [Content-Encoding]: nothing in the request decides which form
    is sent. *)
Theorem sync_hit_serves_pipeline_output (config : Config) (handler handler' : Handler)
    (clock clock' : Clock) (r r' : Request) (x : World Files Q) (w' : ResponseWriter)
    (dataPath : string) (json : bytes)
    (pipeline : Pipeline) (optimized : bytes) (optimizedMeta : Meta) :
  let key := GenerateKey (KeyGenerator_ config) r in
  let recorder := foldl rr_op (newRecorder (w x)) (handler r) in
  let meta := set_Size optimizedMeta (Z.of_nat (length optimized)) in
  Enabled config = true ->
  isCacheable config r = true ->
  isCacheable config r' = true ->
  GenerateKey (KeyGenerator_ config) r' = key ->
  OptimizationMode config = OptimizationSync ->
  OptimizationPipeline config = Some pipeline ->
  ApplyToBytes pipeline (Context r) (body recorder) (build_meta config clock recorder)
    = Ok (optimized, optimizedMeta) ->
  getDataPath fs key = Some dataPath ->
  store x !! dataPath = None ->
  IsResponseCacheable (statusCode recorder) (headers recorder) = true ->
  Z.of_nat (length (body recorder)) <= MaxCacheSize config ->
  Marshal J meta = Some json ->
  Unmarshal J json = Some meta ->
  IsExpired (at_Get clock') meta = false ->
  rw_sent w' = None ->
  let x1 := Serve config handler clock r x in
  let x2 := Serve config handler' clock' r' (with_w (fun _ => w') x1) in
  rw_body (w x1) = (rw_body (rr_w recorder) ++ body recorder)%list /\
  calls x2 = (calls x ++ [CallGet key; CallPut key optimized optimizedMeta;
                          CallGet key])%list /\
  stats x2 = incrementHits (incrementPuts (incrementMisses (stats x))) /\
  rw_body (w x2) = (rw_body w' ++ optimized)%list /\
  (Encoding optimizedMeta <> EmptyString ->
   untouched optimizedMeta "Content-Encoding" ->
   sent_header (w x2) "Content-Encoding" = Some [Encoding optimizedMeta]).
Proof.
  cbv zeta.
  intros Hon Hc Hc' Hkey Hmode Hpipe HA Hdp Hnone Hrc Hfit HM HU Hexp Hfresh.
  destruct (miss_stores config handler clock r x dataPath json optimized optimizedMeta
              Hon Hc Hdp Hnone Hrc Hfit) as (Hcalls & Hstats & Hbody & HG);
    [|exact HM|exact HU|].
  { intros b0 m0 _ Hsync. specialize (Hsync _ _ Hmode Hpipe HA). by simplify_eq. }
  split; [exact Hbody|].
  specialize (HG _ Hexp). rewrite <- Hkey in HG at 1.
  set (x1 := Serve config handler clock r x) in *.
  set (x1' := with_w (fun _ => w') x1).
  change (store x1) with (store x1') in HG at 1.
  destruct (@ServeHTTP_hit Files Q (FSCacheStore J fs no_faults) _
              config handler' handler' clock' r' x1'
              _ _ _ Hon Hc' HG) as (_ & Hcalls2 & _ & _ & Hstats2 & Hbody2).
  rewrite Hkey in Hcalls2.
  split; [rewrite Hcalls2; unfold x1'; cbn [with_w calls];
          by rewrite Hcalls, <- !app_assoc|].
  split; [rewrite Hstats2; unfold x1'; cbn [with_w stats]; by rewrite Hstats|].
  split; [exact Hbody2|].
  intros Henc Hun.
  unfold ServeHTTP. rewrite Hon, Hc', HG. cbn [negb].
  set (xh := notify config (Host r') "hit" 0 _).
  assert (Hwh : rw_sent (w xh) = None).
  { unfold xh. rewrite middleware_facts.w_notify. exact Hfresh. }
  destruct (@middleware_facts.hit_response Files Q config clock' r'
              (mkReader optimized false true)
              (set_Size optimizedMeta (Z.of_nat (length optimized))) xh Hwh)
    as (_ & _ & _ & _ & _ & Hce & _).
  apply Hce; [exact Hun | exact Henc].
Qed.

End Backend.

Lemma miss_then_hit_witness :
  let x1 := @ServeHTTP Files (list OptimizationJob)
              (FSCacheStore (unary_json (mkMeta "text/html" "" 0 "" 3600000000000 0 200 ∅))
                 cache_spec.zoraxy_store no_faults) ListQueue
              (config_with true) hello_handler (clock_at 0) (get_request "/path" "")
              (mkWorld (mkStats 0 0 0 0 0) ∅ [] [] [] fresh_writer) in
  let x2 := @ServeHTTP Files (list OptimizationJob)
              (FSCacheStore (unary_json (mkMeta "text/html" "" 0 "" 3600000000000 0 200 ∅))
                 cache_spec.zoraxy_store no_faults) ListQueue
              (config_with true) error_handler (clock_at 1)
              (key_spec.with_method (get_request "/path" "") "HEAD") x1 in
  stats x2 = mkStats 1 1 1 0 0 /\
  rw_body (w x2) = (rw_body (w x1) ++ [x3c; x70; x3e; x48; x69])%list.
Proof.
  cbv zeta.
  destruct (@miss_then_hit (list OptimizationJob) ListQueue
              (unary_json (mkMeta "text/html" "" 0 "" 3600000000000 0 200 ∅))
              cache_spec.zoraxy_store
              (config_with true) hello_handler error_handler (clock_at 0) (clock_at 1)
              (get_request "/path" "")
              (key_spec.with_method (get_request "/path" "") "HEAD")
              (mkWorld (mkStats 0 0 0 0 0) ∅ [] [] [] fresh_writer)
              "/var/cache/zoraxy/fd/f1/fdf171b9a30bf367a318e9eda1b8e7895a2ddc215455097c0408b7ab3239716c.data"
              [x31; x31; x31; x31; x31])
    as (_ & Hstats & Hbody);
    [ first [ vm_compute; reflexivity | vm_compute; discriminate ] ..
    | split; [exact Hstats | exact Hbody] ].
Defined.

Lemma sync_hit_serves_pipeline_output_witness :
  let x1 := @ServeHTTP Files (list OptimizationJob)
              (FSCacheStore (unary_json (mkMeta "text/plain" "gzip" 0 "" 3600000000000 0 200 ∅))
                 cache_spec.zoraxy_store no_faults) ListQueue
              sync_spec.gzip_sync sync_spec.pairs_handler (clock_at 0)
              (get_request "/path" "")
              (mkWorld (mkStats 0 0 0 0 0) ∅ [] [] [] fresh_writer) in
  let x2 := @ServeHTTP Files (list OptimizationJob)
              (FSCacheStore (unary_json (mkMeta "text/plain" "gzip" 0 "" 3600000000000 0 200 ∅))
                 cache_spec.zoraxy_store no_faults) ListQueue
              sync_spec.gzip_sync error_handler (clock_at 1)
              (get_request "/path" "")
              (with_w (fun _ => fresh_writer) x1) in
  rw_body (w x1) = [x41; x41; x42; x42; x41; x41; x42; x42] /\
  rw_body (w x2) = [x01; x41; x42] /\
  sent_header (w x2) "Content-Encoding" = Some ["gzip"].
Proof.
  cbv zeta.
  destruct (@sync_hit_serves_pipeline_output (list OptimizationJob) ListQueue
              (unary_json (mkMeta "text/plain" "gzip" 0 "" 3600000000000 0 200 ∅))
              cache_spec.zoraxy_store
              sync_spec.gzip_sync sync_spec.pairs_handler error_handler
              (clock_at 0) (clock_at 1)
              (get_request "/path" "") (get_request "/path" "")
              (mkWorld (mkStats 0 0 0 0 0) ∅ [] [] [] fresh_writer) fresh_writer
              "/var/cache/zoraxy/fd/f1/fdf171b9a30bf367a318e9eda1b8e7895a2ddc215455097c0408b7ab3239716c.data"
              [x31; x31; x31]
              [optimizer.CompressTransform PairCodec.codecs optimizer_spec.gzip_always]
              [x01; x41; x42]
              (mkMeta "text/plain" "gzip" 3 "" 3600000000000 0 200 ∅))
    as (Hfirst & _ & _ & Hbody & Hce);
    [ first [ vm_compute; reflexivity | vm_compute; discriminate ] ..
    | split; [exact Hfirst|]; split; [exact Hbody|];
      apply Hce; [discriminate | by apply middleware_facts.untouched_empty] ].
Defined.

End backend_facts.

(** ** Transforms and pipelines *)

Module transform_facts.
Import cache optimizer optimizer_spec transform_spec.

Lemma same_response_refl (m : Meta) : same_response m m.
Proof. by repeat split. Qed.

Lemma same_response_trans (m1 m2 m3 : Meta) :
  same_response m1 m2 -> same_response m2 m3 -> same_response m1 m3.
Proof.
  unfold same_response. intros (? & ? & ? & ? & ? & ?) (? & ? & ? & ? & ? & ?).
  repeat split; congruence.
Qed.

Ltac split_ifs H :=
  repeat match type of H with
         | context [if ?c then _ else _] => destruct c eqn:?
         | context [match ?c with _ => _ end] => destruct c eqn:?
         end.

Lemma MinifyTransform_keeps_response (NewMinifier : MinifyConfig -> Minifier)
    (config : MinifyConfig) (in_ out : Reader) (meta meta' : Meta) :
  MinifyTransform NewMinifier config in_ meta = Ok (out, meta') ->
  same_response meta meta' /\ Encoding meta' = Encoding meta.
Proof.
  unfold MinifyTransform, io_Copy. intros H.
  split_ifs H; simplify_eq; by repeat split.
Qed.

Lemma CompressTransform_keeps_response (C : Codecs) (config : CompressConfig)
    (in_ out : Reader) (meta meta' : Meta) :
  CompressTransform C config in_ meta = Ok (out, meta') -> same_response meta meta'.
Proof.
  unfold CompressTransform, finish_compress, io_Copy, Buffer_WriteTo. intros H.
  split_ifs H; simplify_eq; by repeat split.
Qed.

Lemma DecompressTransform_keeps_response (C : Codecs) (in_ out : Reader)
    (meta meta' : Meta) :
  DecompressTransform C in_ meta = Ok (out, meta') -> same_response meta meta'.
Proof.
  unfold DecompressTransform, finish_decompress. intros H.
  split_ifs H; simplify_eq; by repeat split.
Qed.

Lemma Apply_loop_keeps_response (NewMinifier : MinifyConfig -> Minifier) (C : Codecs)
    (p : Pipeline) (ctx : nat -> bool) (i : nat) (in_ out : Reader) (meta meta' : Meta) :
  Forall (package_transform NewMinifier C) p ->
  Apply_loop ctx i p in_ meta = Ok (out, meta') ->
  same_response meta meta'.
Proof.
  intros Hp. revert i in_ meta.
  induction Hp as [|t p Ht Hp IH]; intros i in_ meta H.
  - cbn in H. simplify_eq. apply same_response_refl.
  - cbn [Apply_loop] in H. destruct (ctx i); [discriminate|].
    destruct (t in_ meta) as [[r1 m1]|e] eqn:Et; [|discriminate].
    apply (same_response_trans _ m1); [|by eapply IH].
    destruct Ht as [[config ->]|[[config ->]| ->]].
    + by eapply MinifyTransform_keeps_response.
    + by eapply CompressTransform_keeps_response.
    + by eapply DecompressTransform_keeps_response.
Qed.

(** X21: Whatever a pipeline of the package's transforms does to the body,
    the metadata it returns describes the same response: content type,
    entity tag, TTL, time of caching, status and preserved headers are
    those of the input; only [Size] and [Encoding] can differ. *)
Theorem pipeline_keeps_response (NewMinifier : MinifyConfig -> Minifier) (C : Codecs)
    (p : Pipeline) (ctx : nat -> bool) (data out : bytes) (meta meta' : Meta) :
  Forall (package_transform NewMinifier C) p ->
  ApplyToBytes p ctx data meta = Ok (out, meta') ->
  same_response meta meta'.
Proof.
  intros Hp H. unfold ApplyToBytes, Apply in H.
  destruct p as [|t p].
  - cbn in H. simplify_eq. apply same_response_refl.
  - destruct (Apply_loop ctx 0 (t :: p) _ meta) as [[r1 m1]|e] eqn:EA; [|discriminate].
    destruct (io_ReadAll r1); simplify_eq.
    by eapply Apply_loop_keeps_response.
Qed.

Lemma pipeline_keeps_response_witness :
  same_response plain_meta (set_Size (set_Encoding plain_meta "gzip") 3).
Proof.
  apply (pipeline_keeps_response failing_minifier PairCodec.codecs
           [MinifyTransform failing_minifier DefaultMinifyConfig;
            CompressTransform PairCodec.codecs gzip_always]
           (fun _ => false) [x41; x41; x42; x42] [x01; x41; x42]).
  - apply Forall_cons_2; [left; by eexists|].
    apply Forall_cons_2; [right; left; by eexists|].
    apply Forall_nil_2.
  - reflexivity.
Defined.

(** X22: The output of the compressor is never longer than its input.
    When the returned metadata announces a new encoding, the output is
    the compressed form, strictly shorter than the input, and [Size]
    is its length. *)
Theorem CompressTransform_output (C : Codecs) (config : CompressConfig)
    (in_ out : Reader) (meta meta' : Meta) :
  CompressTransform C config in_ meta = Ok (out, meta') ->
  (length (rd_pending out) <= length (rd_pending in_))%nat /\
  (Encoding meta' = Encoding meta \/
   rd_pending out = compressed_by C config (rd_pending in_) /\
   compress_kind config = Some (Encoding meta') /\
   (length (rd_pending out) < length (rd_pending in_))%nat /\
   Size meta' = Z.of_nat (length (rd_pending out))).
Proof.
  unfold CompressTransform, finish_compress, io_Copy, Buffer_WriteTo,
    compressed_by, compress_kind.
  intros H.
  split_ifs H; simplify_eq;
    rewrite ?optimizer_facts.rd_pending_as_ReadCloser; cbn; (split; [lia|]);
    first [ by left | right; repeat split; lia ].
Qed.

Lemma CompressTransform_output_witness :
  (length [x01; x41; x42] <= length [x41; x41; x42; x42])%nat /\
  (Encoding (set_Size (set_Encoding plain_meta "gzip") 3) = Encoding plain_meta \/
   [x01; x41; x42] = compressed_by PairCodec.codecs gzip_always [x41; x41; x42; x42] /\
   compress_kind gzip_always = Some "gzip" /\
   (length [x01; x41; x42] < length [x41; x41; x42; x42])%nat /\
   Size (set_Size (set_Encoding plain_meta "gzip") 3) = 3).
Proof.
  apply (CompressTransform_output PairCodec.codecs gzip_always
           (readerFromBytes [x41; x41; x42; x42]) (NopCloser_Buffer [x01; x41; x42])
           plain_meta (set_Size (set_Encoding plain_meta "gzip") 3)).
  reflexivity.
Defined.

(** Once an entry carries an encoding, the compressor leaves it alone:
    applied to its own output, with any configuration, it returns the
    same reader and the same metadata. *)
Lemma CompressTransform_once (C : Codecs) (config config' : CompressConfig)
    (in_ out : Reader) (meta meta' : Meta) :
  CompressTransform C config in_ meta = Ok (out, meta') ->
  encoded meta' ->
  CompressTransform C config' out meta' = Ok (out, meta').
Proof.
  intros H [He1 He2].
  assert (Hc : rd_closer out = true).
  { unfold CompressTransform, finish_compress, io_Copy, Buffer_WriteTo, as_ReadCloser in H.
    split_ifs H; simplify_eq; done. }
  unfold CompressTransform.
  destruct (String.eqb_spec (Encoding meta') ""); [done|].
  destruct (String.eqb_spec (Encoding meta') "identity"); [done|].
  cbn [negb andb]. unfold as_ReadCloser. by rewrite Hc.
Qed.

Lemma CompressTransform_once_witness :
  CompressTransform PairCodec.codecs DefaultBrotliConfig
    (NopCloser_Buffer [x01; x41; x42]) (set_Size (set_Encoding plain_meta "gzip") 3)
  = Ok (NopCloser_Buffer [x01; x41; x42], set_Size (set_Encoding plain_meta "gzip") 3).
Proof.
  apply (CompressTransform_once PairCodec.codecs gzip_always DefaultBrotliConfig
           (readerFromBytes [x41; x41; x42; x42]) (NopCloser_Buffer [x01; x41; x42])
           plain_meta (set_Size (set_Encoding plain_meta "gzip") 3)).
  - reflexivity.
  - split; discriminate.
Defined.

(** X23: Compressing and then decompressing gives the input back whenever
    the compressor emitted something: the input was below the minimum
    size and passed unchanged, or its compressed form was strictly
    shorter (and the codec is lossless). *)
Theorem round_trip_of_emitted (C : Codecs) (config : CompressConfig)
    (in_ : Reader) (meta : Meta) (enc : string) :
  lossless C ->
  Encoding meta = "" ->
  rd_fault in_ = false ->
  compress_kind config = Some enc ->
  (Z.of_nat (length (rd_pending in_)) < MinSize config \/
   (length (compressed_by C config (rd_pending in_)) < length (rd_pending in_))%nat) ->
  exists out meta',
    round_trip C config in_ meta = Ok (out, meta') /\
    rd_pending out = rd_pending in_ /\
    Encoding meta' = "" /\
    Size meta' = Z.of_nat (length (rd_pending in_)).
Proof. apply optimizer_facts.round_trip_when_emitted. Qed.

Lemma round_trip_of_emitted_witness :
  exists out meta',
    round_trip PairCodec.codecs gzip_always (readerFromBytes [x41; x41; x42; x42]) plain_meta
      = Ok (out, meta') /\
    rd_pending out = [x41; x41; x42; x42] /\
    Encoding meta' = "" /\
    Size meta' = 4.
Proof.
  apply (round_trip_of_emitted PairCodec.codecs gzip_always
           (readerFromBytes [x41; x41; x42; x42]) plain_meta "gzip").
  - apply optimizer_facts.PairCodec_lossless.
  - reflexivity.
  - reflexivity.
  - reflexivity.
  - right. simpl. lia.
Defined.

Lemma Apply_loop_error_prefix (p1 p2 : Pipeline) (ctx : nat -> bool) (i : nat)
    (in_ : Reader) (meta : Meta) (e : string) :
  Apply_loop ctx i p1 in_ meta = Err e ->
  Apply_loop ctx i (p1 ++ p2)%list in_ meta = Err e.
Proof.
  revert i in_ meta. induction p1 as [|t p1 IH]; intros i in_ meta H; [discriminate|].
  cbn [Apply_loop app] in *. destruct (ctx i); [done|].
  destruct (t in_ meta) as [[r1 m1]|e']; [|done]. by apply IH.
Qed.

(** X24: The first error ends the pipeline: when a pipeline fails, through
    a transform or through the cancelled context, it fails with the
    same error however many transforms are added behind it. *)
Theorem Apply_error_is_final (p1 p2 : Pipeline) (ctx : nat -> bool)
    (in_ : Reader) (meta : Meta) (e : string) :
  Apply p1 ctx in_ meta = Err e ->
  Apply (p1 ++ p2)%list ctx in_ meta = Err e.
Proof.
  destruct p1 as [|t p1]; [discriminate|]. unfold Apply. cbn [app].
  apply (Apply_loop_error_prefix (t :: p1)).
Qed.

Lemma Apply_error_is_final_witness :
  Apply ([failing] ++ [CompressTransform PairCodec.codecs gzip_always])%list
    (fun _ => false) (readerFromBytes [x41]) plain_meta = Err "refused".
Proof.
  apply (Apply_error_is_final [failing] [CompressTransform PairCodec.codecs gzip_always]).
  reflexivity.
Defined.

End transform_facts.

(** ** Keys *)

Module key_more_facts.
Import cache http cachemiddleware cachekey key_spec string_facts.

Lemma ToLower_append (a b : string) :
  strings.ToLower (a ++ b) = strings.ToLower a ++ strings.ToLower b.
Proof.
  induction a as [|c a IH]; [reflexivity|].
  rewrite append_cons. cbn [strings.ToLower]. rewrite append_cons. by f_equal.
Qed.

Lemma concat_after_empty (c : string) (vs : list string) :
  c ++ "|" ++ String.concat "|" ("" :: vs) = String.concat "|" ((c ++ "|") :: vs).
Proof.
  destruct vs as [|v vs].
  - cbn [String.concat]. reflexivity.
  - cbn [String.concat]. change ("" ++ "|" ++ String.concat "|" (v :: vs))
      with ("|" ++ String.concat "|" (v :: vs)).
    by rewrite append_assoc.
Qed.

Lemma Query_no_pairs (rawQuery : string) :
  url.query_pairs rawQuery = [] -> normalizeQuery (url.Query rawQuery) = "".
Proof. intros H. unfold url.Query. rewrite H. reflexivity. Qed.

(** X25: The parts of the fingerprint are joined with [|] and nothing marks
    where one ends: a request whose raw query is not empty but holds
    no pair (such as [?&]) contributes an empty part, and gets the key
    of the request without a query whose path ends in one more [|]. *)
Theorem separator_collision (kg : KeyGenerator) (r : Request) :
  IncludeQuery kg = true ->
  URL_RawQuery r <> "" ->
  url.query_pairs (URL_RawQuery r) = [] ->
  GenerateKey kg r = GenerateKey kg (with_path_query r (URL_Path r ++ "|") "") /\
  URL_Path (with_path_query r (URL_Path r ++ "|") "") <> URL_Path r.
Proof.
  intros Hq Hne Hnone. split.
  - unfold GenerateKey, keyString, keyParts. do 2 f_equal.
    cbn [with_path_query TLS Host URL_Path URL_RawQuery].
    rewrite Hq. destruct (String.eqb_spec (URL_RawQuery r) "") as [?|_]; [done|].
    cbn [negb andb String.eqb]. rewrite (Query_no_pairs _ Hnone).
    replace (vary_parts kg (with_path_query r (URL_Path r ++ "|") ""))
      with (vary_parts kg r) by reflexivity.
    unfold strings.Join. cbn [app].
    set (scheme := if TLS r then "https" else "http").
    set (host := if CaseSensitive kg then Host r else strings.ToLower (Host r)).
    assert (Hpath : (if CaseSensitive kg then URL_Path r ++ "|"
                     else strings.ToLower (URL_Path r ++ "|"))
                    = (if CaseSensitive kg then URL_Path r
                       else strings.ToLower (URL_Path r)) ++ "|").
    { destruct (CaseSensitive kg); [reflexivity|]. by rewrite ToLower_append. }
    rewrite Hpath.
    set (path := if CaseSensitive kg then URL_Path r else strings.ToLower (URL_Path r)).
    change (String.concat "|" (scheme :: host :: path :: "" :: vary_parts kg r))
      with (scheme ++ "|" ++ host ++ "|" ++ path ++ "|"
              ++ String.concat "|" ("" :: vary_parts kg r)).
    change (String.concat "|" (scheme :: host :: (path ++ "|") :: vary_parts kg r))
      with (scheme ++ "|" ++ host ++ "|"
              ++ String.concat "|" ((path ++ "|") :: vary_parts kg r)).
    by rewrite concat_after_empty.
  - cbn [with_path_query URL_Path]. intros H.
    apply (f_equal String.length) in H. rewrite length_append in H. cbn in H. lia.
Qed.

Lemma separator_collision_witness :
  GenerateKey NewKeyGenerator (middleware_spec.get_request "/x" "&")
  = GenerateKey NewKeyGenerator (middleware_spec.get_request "/x|" "").
Proof.
  apply (separator_collision NewKeyGenerator (middleware_spec.get_request "/x" "&")).
  - reflexivity.
  - discriminate.
  - reflexivity.
Defined.

(** X26: The method is no part of the key, and the request gate admits
    [GET] and [HEAD] alike: a [HEAD] request passes the gate exactly
    when the same request sent with [GET] does, and both look up and
    store under one key. *)
Theorem HEAD_shares_key_with_GET (config : Config) (r : Request) :
  Method r = "GET" ->
  GenerateKey (KeyGenerator_ config) (with_method r "HEAD")
    = GenerateKey (KeyGenerator_ config) r /\
  isCacheable config (with_method r "HEAD") = isCacheable config r.
Proof.
  intros Hm. split; [reflexivity|].
  unfold isCacheable, IsCacheable. rewrite Hm. reflexivity.
Qed.

Lemma HEAD_shares_key_with_GET_witness :
  GenerateKey (KeyGenerator_ (middleware_spec.config_with true))
    (with_method (middleware_spec.get_request "/path" "") "HEAD")
  = GenerateKey (KeyGenerator_ (middleware_spec.config_with true))
      (middleware_spec.get_request "/path" "") /\
  isCacheable (middleware_spec.config_with true)
    (with_method (middleware_spec.get_request "/path" "") "HEAD")
  = isCacheable (middleware_spec.config_with true) (middleware_spec.get_request "/path" "").
Proof.
  apply (HEAD_shares_key_with_GET (middleware_spec.config_with true)
           (middleware_spec.get_request "/path" "")).
  reflexivity.
Defined.

(** *** Fingerprints *)

(** X27: [ExtractFingerprint] returns the part between the last two dots of
    the name, and the empty string for a name with fewer than two
    dots. *)
Theorem ExtractFingerprint_between_dots (stem fp ext : string) :
  dotless fp ->
  dotless ext ->
  ExtractFingerprint (stem ++ "." ++ fp ++ "." ++ ext) = fp /\
  ExtractFingerprint (fp ++ "." ++ ext) = "" /\
  ExtractFingerprint ext = "".
Proof.
  intros Hfp Hext. unfold ExtractFingerprint.
  change (stem ++ "." ++ fp ++ "." ++ ext) with (stem ++ String "." (fp ++ String "." ext)).
  change (fp ++ "." ++ ext) with (fp ++ String "." ext).
  rewrite !split_append, !(split_no_sep "." fp), !(split_no_sep "." ext) by done.
  split; [|split; reflexivity].
  pose proof (split_not_nil "." stem) as Hne.
  rewrite !length_app. cbn [length].
  destruct (url.split "." stem) as [|x xs] eqn:E; [done|].
  replace (3 <=? length (x :: xs) + (1 + 1))%nat with true
    by (symmetry; apply Nat.leb_le; cbn [length]; lia).
  replace (length (x :: xs) + (1 + 1) - 2)%nat with (length (x :: xs)) by lia.
  rewrite app_nth2 by lia. by rewrite Nat.sub_diag.
Qed.

Lemma ExtractFingerprint_between_dots_witness :
  ExtractFingerprint ("static/app" ++ "." ++ "abc123" ++ "." ++ "js") = "abc123" /\
  ExtractFingerprint ("abc123" ++ "." ++ "js") = "" /\
  ExtractFingerprint "js" = "".
Proof.
  apply (ExtractFingerprint_between_dots "static/app" "abc123" "js"); reflexivity.
Defined.

End key_more_facts.

(** ** The administration endpoints *)

Module admin_facts.
Import http cacheadmin string_facts.

Lemma TrimPrefix_eq (s p t : string) :
  strings.HasPrefix s p = true -> (TrimPrefix s p = t <-> s = p ++ t).
Proof.
  intros H. unfold TrimPrefix. rewrite H. unfold strings.HasPrefix in H.
  pose proof (prefix_split _ _ H) as Hs. split.
  - intros <-. exact Hs.
  - intros Heq. rewrite Hs in Heq at 1. by apply append_inj_l in Heq.
Qed.

(** X28: With a secret configured, a request is authorised in two ways
    only: by the header [Authorization: Bearer <secret>], or, when the
    [Authorization] header does not start with [Bearer ], by a first
    [secret] query parameter equal to the secret; a request with
    neither is refused.  With the empty secret every request is
    authorised. *)
Theorem authenticate_needs_secret (adminSecret : string) (r : Request) :
  adminSecret <> "" ->
  (authenticate adminSecret r = true <->
   Header_Get (Header_ r) "Authorization" = "Bearer " ++ adminSecret \/
   strings.HasPrefix (Header_Get (Header_ r) "Authorization") "Bearer " = false /\
   Values_Get (url.Query (URL_RawQuery r)) "secret" = adminSecret) /\
  (Header_Get (Header_ r) "Authorization" = "" ->
   Values_Get (url.Query (URL_RawQuery r)) "secret" = "" ->
   authenticate adminSecret r = false) /\
  authenticate "" r = true.
Proof.
  intros Hne.
  assert (Hiff : authenticate adminSecret r = true <->
            Header_Get (Header_ r) "Authorization" = "Bearer " ++ adminSecret \/
            strings.HasPrefix (Header_Get (Header_ r) "Authorization") "Bearer " = false /\
            Values_Get (url.Query (URL_RawQuery r)) "secret" = adminSecret).
  { unfold authenticate.
    destruct (String.eqb_spec adminSecret "") as [?|_]; [done|].
    destruct (strings.HasPrefix (Header_Get (Header_ r) "Authorization") "Bearer ") eqn:Hp.
    - rewrite String.eqb_eq, (TrimPrefix_eq _ _ _ Hp). split; [by left|].
      intros [?|[? _]]; done.
    - rewrite String.eqb_eq. split; [by right|].
      intros [Heq|[_ ?]]; [|done].
      rewrite Heq in Hp. unfold strings.HasPrefix in Hp.
      by rewrite prefix_append in Hp. }
  split; [exact Hiff|]. split; [|reflexivity].
  intros Hh Hq. apply not_true_is_false. rewrite Hiff, Hh, Hq.
  intros [Heq|[_ Heq]]; [discriminate Heq | by apply Hne].
Qed.

Lemma authenticate_needs_secret_witness :
  (authenticate "s3cret" (middleware_spec.get_request "/purge" "secret=s3cret") = true <->
   Header_Get (Header_ (middleware_spec.get_request "/purge" "secret=s3cret"))
     "Authorization" = "Bearer " ++ "s3cret" \/
   strings.HasPrefix
     (Header_Get (Header_ (middleware_spec.get_request "/purge" "secret=s3cret"))
        "Authorization") "Bearer " = false /\
   Values_Get (url.Query (URL_RawQuery (middleware_spec.get_request "/purge" "secret=s3cret")))
     "secret" = "s3cret") /\
  (Header_Get (Header_ (middleware_spec.get_request "/purge" "secret=s3cret"))
     "Authorization" = "" ->
   Values_Get (url.Query (URL_RawQuery (middleware_spec.get_request "/purge" "secret=s3cret")))
     "secret" = "" ->
   authenticate "s3cret" (middleware_spec.get_request "/purge" "secret=s3cret") = false) /\
  authenticate "" (middleware_spec.get_request "/purge" "secret=s3cret") = true.
Proof.
  apply (authenticate_needs_secret "s3cret"
           (middleware_spec.get_request "/purge" "secret=s3cret")).
  discriminate.
Defined.

End admin_facts.

(** ** The Varnish store *)

Module varnish_facts.
Import optimizer varnishstore purge_spec.

Lemma each_endpoint_logging (answer : PurgeRequest -> option Z) (method : string)
    (request : string -> option PurgeRequest) (make : string -> PurgeRequest)
    (eps : list string) (log log' : list PurgeRequest) (res : result unit) :
  Forall (fun e => request e = Some (make e)) eps ->
  each_endpoint (logging answer) method request eps log = (res, log') ->
  (res = Ok tt /\ log' = (log ++ map make eps)%list /\
   Forall (accepted answer) (map make eps)) \/
  (exists msg sent req,
     res = Err msg /\ log' = (log ++ sent ++ [req])%list /\
     Forall (accepted answer) sent /\ ~ accepted answer req /\
     (sent ++ [req])%list `prefix_of` map make eps).
Proof.
  intros Hvalid. revert log.
  induction Hvalid as [|e eps He Hvalid IH]; intros log H.
  - cbn in H. simplify_eq. left. by rewrite app_nil_r.
  - cbn [each_endpoint] in H. rewrite He in H. unfold logging at 1 in H.
    destruct (answer (make e)) as [status|] eqn:Ha.
    + destruct (negb (status =? 200) && negb (status =? 204)) eqn:Hs.
      * simplify_eq. right. exists (method ++ " request failed with status " ++ FormatInt status)%string,
          [], (make e). repeat split; try done.
        -- intros [H1|H1]; rewrite Ha in H1; simplify_eq; done.
        -- cbn. by exists (map make eps).
      * assert (Hacc : accepted answer (make e)).
        { unfold accepted. rewrite Ha.
          destruct (Z.eqb_spec status 200) as [->|]; [by left|].
          destruct (Z.eqb_spec status 204) as [->|]; [by right|]. done. }
        destruct (IH _ H) as [(-> & -> & Hall)|(msg & sent & req & -> & -> & Hs1 & Hs2 & Hpre)].
        -- left. cbn [map]. rewrite <- app_assoc. repeat split; try done.
           by apply Forall_cons.
        -- right. exists msg, (make e :: sent), req.
           rewrite <- app_assoc. repeat split; try done.
           ++ by apply Forall_cons.
           ++ cbn [map app]. by apply prefix_cons.
    + simplify_eq. right.
      exists ("failed to send " ++ method ++ " request to " ++ e)%string, [], (make e).
      repeat split; try done.
      * intros [H1|H1]; rewrite Ha in H1; discriminate.
      * cbn. by exists (map make eps).
Qed.

(** X29: [Delete] sends one [PURGE] per endpoint, in the order of the
    configuration, and stops at the first request that is not answered
    with 200 or 204: it returns nil only when every endpoint accepted,
    and after a failure the endpoints behind the failing one have not
    been asked. *)
Theorem Delete_stops_at_first_failure (answer : PurgeRequest -> option Z)
    (valid : string -> bool) (vs : VarnishStore) (key : string)
    (res : result unit) (log : list PurgeRequest) :
  Forall (fun e => valid (e ++ "/" ++ key) = true) (endpoints vs) ->
  Delete (logging answer) valid vs key [] = (res, log) ->
  (res = Ok tt /\ log = map (purge_of key) (endpoints vs) /\
   Forall (accepted answer) log) \/
  (exists msg sent req,
     res = Err msg /\ log = (sent ++ [req])%list /\
     Forall (accepted answer) sent /\ ~ accepted answer req /\
     log `prefix_of` map (purge_of key) (endpoints vs)).
Proof.
  intros Hvalid H. unfold Delete in H.
  apply (each_endpoint_logging answer "PURGE" _ (purge_of key)) in H.
  - destruct H as [(-> & -> & Hall)|(msg & sent & req & -> & -> & Hs1 & Hs2 & Hpre)].
    + left. by repeat split.
    + right. exists msg, sent, req. by repeat split.
  - eapply Forall_impl; [exact Hvalid|]. intros e He. cbn. by rewrite He.
Qed.

Lemma Delete_stops_at_first_failure_witness :
  ((Err "PURGE request failed with status 404" : result unit) = Ok tt /\
   [purge_of "k" "http://v1"; purge_of "k" "http://v2"]
     = map (purge_of "k") ["http://v1"; "http://v2"; "http://v3"] /\
   Forall (accepted first_only) [purge_of "k" "http://v1"; purge_of "k" "http://v2"]) \/
  (exists msg sent req,
     (Err "PURGE request failed with status 404" : result unit) = Err msg /\
     [purge_of "k" "http://v1"; purge_of "k" "http://v2"] = (sent ++ [req])%list /\
     Forall (accepted first_only) sent /\ ~ accepted first_only req /\
     [purge_of "k" "http://v1"; purge_of "k" "http://v2"]
       `prefix_of` map (purge_of "k") ["http://v1"; "http://v2"; "http://v3"]).
Proof.
  apply (Delete_stops_at_first_failure first_only (fun _ => true)
           (mkVarnishStore ["http://v1"; "http://v2"; "http://v3"]) "k").
  - repeat constructor.
  - reflexivity.
Defined.

End varnish_facts.

(** ** Expiry *)

Module meta_facts.
Import cache.

(** An entry that is expired stays expired as the clock advances, and
    an entry whose TTL is not positive never expires. *)
Lemma IsExpired_monotone (m : Meta) (now later : Z) :
  now <= later ->
  (IsExpired now m = true -> IsExpired later m = true) /\
  (TTL m <= 0 -> IsExpired later m = false) /\
  (IsExpired later m = false -> IsExpired now m = false).
Proof.
  intros Hle. unfold IsExpired, Since.
  destruct (Z.leb_spec (TTL m) 0).
  - repeat split; done.
  - repeat split; try lia; rewrite ?Z.ltb_lt, ?Z.ltb_ge; lia.
Qed.

Lemma IsExpired_monotone_witness :
  (IsExpired 10 store_spec.short_lived = true ->
   IsExpired 11 store_spec.short_lived = true) /\
  (TTL store_spec.short_lived <= 0 -> IsExpired 11 store_spec.short_lived = false) /\
  (IsExpired 11 store_spec.short_lived = false ->
   IsExpired 10 store_spec.short_lived = false).
Proof. apply (IsExpired_monotone store_spec.short_lived 10 11). lia. Defined.

End meta_facts.

(** ** Content types *)

Module content_type_facts.
Import optimizer optimizer_io string_facts.

Lemma IsCompressible_of_prefix (q s : string) :
  In q compressible -> String.prefix q s = true -> IsCompressible s = true.
Proof.
  intros Hq Hp. unfold IsCompressible. apply existsb_exists. exists q.
  split; [done|].
  pose proof (prefix_split _ _ Hp) as Hs.
  apply andb_true_intro. split.
  - apply Nat.leb_le. rewrite Hs at 1. rewrite length_append. lia.
  - apply String.eqb_eq. by apply String.prefix_correct.
Qed.

Lemma IsCompressible_extends (t s : string) :
  IsCompressible t = true -> String.prefix t s = true -> IsCompressible s = true.
Proof.
  unfold IsCompressible at 1. intros Ht Hp.
  apply existsb_exists in Ht as (q & Hq & Hc).
  apply andb_prop in Hc as [_ Hc]. apply String.eqb_eq, String.prefix_correct in Hc.
  apply (IsCompressible_of_prefix q); [done|].
  by apply (prefix_trans q t s).
Qed.

Lemma IsCompressible_is_type (s t : string) :
  IsCompressible t = true -> is_type s t = true -> IsCompressible s = true.
Proof.
  intros Ht. unfold is_type. intros [Heq|Hp]%orb_prop.
  - apply String.eqb_eq in Heq. by subst.
  - apply (IsCompressible_extends t); [done|].
    apply (prefix_trans t (t ++ ";") s); [apply prefix_append | exact Hp].
Qed.

(** X30: Every content type the minifier handles, under any configuration,
    is one that [IsCompressible] accepts once it is written in lower
    case (the minifier compares case-insensitively, [IsCompressible]
    does not). *)
Theorem minifiable_is_compressible (contentType : string) (config : MinifyConfig) :
  shouldMinify contentType config = true ->
  IsCompressible (strings.ToLower contentType) = true.
Proof.
  unfold shouldMinify. set (s := strings.ToLower contentType). intros H.
  repeat match type of H with
         | context [if ?c then _ else _] => destruct c eqn:?
         end; try discriminate;
    repeat match goal with
           | Hc : _ && _ = true |- _ => apply andb_prop in Hc as [_ Hc]
           end;
    try (eapply IsCompressible_is_type; [|eassumption]; reflexivity);
    repeat match goal with
           | Hc : _ || _ = true |- _ => apply orb_prop in Hc as [Hc|Hc]
           end;
    idtac.
  all: match goal with
       | Hc : String.eqb _ ?t = true |- _ =>
           apply String.eqb_eq in Hc; rewrite Hc; reflexivity
       | Hc : strings.HasPrefix _ ?p = true |- _ =>
           eapply (IsCompressible_extends p); [reflexivity | exact Hc]
       end.
Qed.

Lemma minifiable_is_compressible_witness :
  IsCompressible (strings.ToLower "Text/HTML; charset=utf-8") = true.
Proof.
  apply (minifiable_is_compressible "Text/HTML; charset=utf-8" DefaultMinifyConfig).
  reflexivity.
Defined.

End content_type_facts.
